(** * Cross-datacenter history replication (cadence, service/history)

    A shallow embedding of the history replicator of the cadence history
    service, of the history-service configuration and of the dynamic-config
    key table, with the properties of the replication protocol proved on it.

    Conventions of the embedding:
    - int64 values (versions, event ids, unix-nano timestamps) are [Z];
    - a Go [error] is an [Error]; a function returning [(x, error)] is a
      computation in the monad [M], which threads the state of the external
      collaborators and the log of the calls issued to them;
    - the interfaces implemented outside these sources (mutable state, cluster
      metadata, shard, persistence, caches) are type classes;
    - Go maps are [gmap]s; a [range] over a map visits the entries in an
      unspecified order, given by a permutation of the entries. *)

From Stdlib Require Import ZArith Lia Bool.
From stdpp Require Import base option list gmap strings.

Local Open Scope Z_scope.

(** ** Wire and persistence data *)

Definition Time := Z.

(** [time.Unix(0, nsec)] *)
Definition time_Unix0 (nsec : Z) : Time := nsec.

(** [time.Time{}]: January 1, year 1, 00:00:00 UTC, in unix nanoseconds. *)
Definition time_zero : Time := -62135596800 * 1000000000.

(** [t.After(u)] *)
Definition time_After (t u : Time) : bool := bool_decide (u < t).

(** [t.Add(d)] *)
Definition time_Add (t : Time) (d : Z) : Time := t + d.

Record WorkflowExecution := {
  WorkflowId : string;
  RunId : string }.

(** [shared.ReplicationInfo] and [persistence.ReplicationInfo]: the getters of
    the thrift struct default to 0. *)
Record ReplicationInfo := {
  ri_Version : Z;
  ri_LastEventId : Z }.

Record ReplicationState := {
  CurrentVersion : Z;
  LastWriteVersion : Z;
  LastWriteEventID : Z;
  LastReplicationInfo : gmap string ReplicationInfo }.

(** The event types the replicator dispatches on, and the ones of the usual
    decision / activity cycle; the thrift enum has more members. *)
Inductive EventType :=
  | EventTypeWorkflowExecutionStarted
  | EventTypeWorkflowExecutionSignaled
  | EventTypeWorkflowExecutionTerminated
  | EventTypeWorkflowExecutionContinuedAsNew
  | EventTypeDecisionTaskScheduled
  | EventTypeDecisionTaskStarted
  | EventTypeDecisionTaskCompleted
  | EventTypeDecisionTaskFailed
  | EventTypeActivityTaskScheduled
  | EventTypeActivityTaskStarted.

Global Instance EventType_eq_dec : EqDecision EventType.
Proof. solve_decision. Defined.

Record WorkflowExecutionSignaledEventAttributes := {
  SignalName : string;
  sig_Input : string;
  sig_Identity : string }.

Record WorkflowExecutionTerminatedEventAttributes := {
  Reason : string;
  Details : option string;
  term_Identity : string }.

Record HistoryEvent := {
  EventId : Z;
  Timestamp : Z;
  ev_Version : Z;
  ev_EventType : EventType;
  ev_Signaled : option WorkflowExecutionSignaledEventAttributes;
  ev_Terminated : option WorkflowExecutionTerminatedEventAttributes }.

Record DataBlob := {
  EncodingType : Z;
  Data : string }.


Record ReplicateEventsRequest := {
  SourceCluster : string;
  DomainUUID : string;
  req_WorkflowExecution : WorkflowExecution;
  FirstEventId : Z;
  NextEventId : Z;
  req_Version : Z;
  req_ReplicationInfo : gmap string ReplicationInfo;
  History : list HistoryEvent;
  NewRunHistory : option (list HistoryEvent);
  ForceBufferEvents : bool;
  EventStoreVersion : Z;
  NewRunEventStoreVersion : Z;
  ResetWorkflow : bool }.

Record SyncActivityRequest := {
  sa_DomainId : string;
  sa_WorkflowId : string;
  sa_RunId : string;
  sa_Version : Z;
  ScheduledId : Z;
  ScheduledTime : Z;
  StartedId : Z;
  StartedTime : Z;
  LastHeartbeatTime : Z;
  sa_Details : string;
  sa_Attempt : Z }.

Record ActivityInfo := {
  ai_Version : Z;
  ScheduleID : Z;
  ai_Attempt : Z;
  LastHeartBeatUpdatedTime : Time;
  TimerTaskStatus : Z }.

Record decisionInfo := {
  di_Version : Z;
  di_ScheduleID : Z;
  di_StartedID : Z;
  DecisionTimeout : Z }.

Record BufferedReplicationTask := {
  bt_FirstEventID : Z;
  bt_NextEventID : Z;
  bt_Version : Z;
  bt_History : list HistoryEvent;
  bt_NewRunHistory : list HistoryEvent;
  bt_EventStoreVersion : Z;
  bt_NewRunEventStoreVersion : Z }.

Record WorkflowExecutionInfo := {
  ei_DomainID : string;
  ei_WorkflowID : string;
  ei_RunID : string;
  ParentDomainID : string;
  ParentWorkflowID : string;
  ParentRunID : string;
  InitiatedID : Z;
  TaskList : string;
  WorkflowTypeName : string;
  WorkflowTimeout : Z;
  DecisionTimeoutValue : Z;
  CreateRequestID : string }.

Inductive DecisionTaskFailedCause :=
  | DecisionTaskFailedCauseFailoverCloseDecision
  | DecisionTaskFailedCauseOther (code : Z).

Inductive CreateWorkflowMode :=
  | CreateWorkflowModeBrandNew
  | CreateWorkflowModeWorkflowIDReuse.

(** ** Errors

    The Go errors the replicator returns or inspects.  [Panic] is a run-time
    panic (nil dereference, index out of range) and [OutOfFuel] the bound of
    the embedding on the recursion between [ApplyReplicationTask] and the
    flush of the replication buffer; neither is a Go error value. *)

Inductive Error :=
  | RetryTaskError (msg : string) (hint : option (string * string * string * Z))
  | BadRequestError (msg : string)
  | EntityNotExistsError
  | shared_WorkflowExecutionAlreadyStartedError
  | persistence_WorkflowExecutionAlreadyStartedError
      (runID : string) (state : Z) (lastWriteVersion : Z)
  | InternalFailureError (msg : string)
  | InternalServiceError (msg : string)
  | OtherError (msg : string)
  | Panic (msg : string)
  | OutOfFuel.

Definition ErrRetryEntityNotExists := RetryTaskError "entity not exists" None.
Definition ErrRetrySyncActivityMsg := "retry on applying sync activity"%string.
Definition ErrRetryBufferEventsMsg := "retry on applying buffer events"%string.
Definition ErrRetryEmptyEventsMsg := "retry on applying empty events"%string.
Definition ErrWorkflowNotFoundMsg := "retry on workflow not found"%string.
Definition ErrRetryExistingWorkflowMsg := "workflow with same version is running"%string.
Definition ErrRetryExecutionAlreadyStarted :=
  RetryTaskError "another workflow execution is running" None.
Definition ErrCorruptedReplicationInfo :=
  BadRequestError "replication task is has corrupted cluster replication info".
Definition ErrCorruptedMutableStateDecision :=
  BadRequestError "mutable state decision is corrupted".
Definition ErrMoreThan2DC := BadRequestError "more than 2 data center".
Definition ErrImpossibleLocalRemoteMissingReplicationInfo :=
  BadRequestError "local and remote both are missing replication info".
Definition ErrImpossibleRemoteClaimSeenHigherVersion :=
  BadRequestError "replication info contains higher version then this cluster ever emitted".
Definition ErrInternalFailure := BadRequestError "fail to apply history events due bug".
Definition ErrEmptyHistoryRawEventBatch := BadRequestError "encounter empty history batch".
Definition ErrUnknownEncodingType := BadRequestError "unknown encoding type".

Definition workflowTerminationReason := "Terminate Workflow Due To Version Conflict."%string.
Definition workflowTerminationIdentity := "worker-service"%string.

Definition newRetryTaskErrorWithHint (msg domainID workflowID runID : string)
    (nextEventID : Z) : Error :=
  RetryTaskError msg (Some (domainID, workflowID, runID, nextEventID)).

(** The bad-request class: the caller routes these to the dead-letter queue. *)
Definition isBadRequest (e : Error) : bool :=
  match e with BadRequestError _ => true | _ => false end.

Definition isRetryTask (e : Error) : bool :=
  match e with RetryTaskError _ _ => true | _ => false end.

Definition isEntityNotExists (e : Error) : bool :=
  match e with EntityNotExistsError => true | _ => false end.

(** ** Dynamic-config keys (common/service/dynamicconfig/constants.go) *)

Module dynamicconfig.

(** [type Key int]: the constants of the [iota] block, in order. *)
Inductive Key :=
| unknownKey
| testGetPropertyKey
| testGetIntPropertyKey
| testGetFloat64PropertyKey
| testGetDurationPropertyKey
| testGetBoolPropertyKey
| testGetIntPropertyFilteredByDomainKey
| testGetDurationPropertyFilteredByDomainKey
| testGetIntPropertyFilteredByTaskListInfoKey
| testGetDurationPropertyFilteredByTaskListInfoKey
| testGetBoolPropertyFilteredByTaskListInfoKey
| EnableGlobalDomain
| EnableNewKafkaClient
| EnableVisibilitySampling
| EnableReadFromClosedExecutionV2
| EnableVisibilityToKafka
| EnableReadVisibilityFromES
| DisableListVisibilityByFilter
| EnableArchival
| BlobSizeLimitError
| BlobSizeLimitWarn
| HistorySizeLimitError
| HistorySizeLimitWarn
| HistoryCountLimitError
| HistoryCountLimitWarn
| MaxIDLengthLimit
| FrontendPersistenceMaxQPS
| FrontendVisibilityMaxPageSize
| FrontendVisibilityListMaxQPS
| FrontendESVisibilityListMaxQPS
| FrontendHistoryMaxPageSize
| FrontendRPS
| FrontendHistoryMgrNumConns
| MaxDecisionStartToCloseTimeout
| MatchingRPS
| MatchingPersistenceMaxQPS
| MatchingMinTaskThrottlingBurstSize
| MatchingGetTasksBatchSize
| MatchingLongPollExpirationInterval
| MatchingEnableSyncMatch
| MatchingUpdateAckInterval
| MatchingIdleTasklistCheckInterval
| MaxTasklistIdleTime
| MatchingOutstandingTaskAppendsThreshold
| MatchingMaxTaskBatchSize
| EnableDCMigration
| HistoryRPS
| HistoryPersistenceMaxQPS
| HistoryVisibilityOpenMaxQPS
| HistoryVisibilityClosedMaxQPS
| HistoryLongPollExpirationInterval
| HistoryCacheInitialSize
| HistoryCacheMaxSize
| HistoryCacheTTL
| EventsCacheInitialSize
| EventsCacheMaxSize
| EventsCacheTTL
| AcquireShardInterval
| StandbyClusterDelay
| TimerTaskBatchSize
| TimerTaskWorkerCount
| TimerTaskMaxRetryCount
| TimerProcessorStartDelay
| TimerProcessorFailoverStartDelay
| TimerProcessorGetFailureRetryCount
| TimerProcessorCompleteTimerFailureRetryCount
| TimerProcessorUpdateShardTaskCount
| TimerProcessorUpdateAckInterval
| TimerProcessorUpdateAckIntervalJitterCoefficient
| TimerProcessorCompleteTimerInterval
| TimerProcessorFailoverMaxPollRPS
| TimerProcessorMaxPollRPS
| TimerProcessorMaxPollInterval
| TimerProcessorMaxPollIntervalJitterCoefficient
| TimerProcessorMaxTimeShift
| TransferTaskBatchSize
| TransferProcessorFailoverMaxPollRPS
| TransferProcessorMaxPollRPS
| TransferTaskWorkerCount
| TransferTaskMaxRetryCount
| TransferProcessorStartDelay
| TransferProcessorFailoverStartDelay
| TransferProcessorCompleteTransferFailureRetryCount
| TransferProcessorUpdateShardTaskCount
| TransferProcessorMaxPollInterval
| TransferProcessorMaxPollIntervalJitterCoefficient
| TransferProcessorUpdateAckInterval
| TransferProcessorUpdateAckIntervalJitterCoefficient
| TransferProcessorCompleteTransferInterval
| ReplicatorTaskBatchSize
| ReplicatorTaskWorkerCount
| ReplicatorTaskMaxRetryCount
| ReplicatorProcessorStartDelay
| ReplicatorProcessorMaxPollRPS
| ReplicatorProcessorUpdateShardTaskCount
| ReplicatorProcessorMaxPollInterval
| ReplicatorProcessorMaxPollIntervalJitterCoefficient
| ReplicatorProcessorUpdateAckInterval
| ReplicatorProcessorUpdateAckIntervalJitterCoefficient
| ExecutionMgrNumConns
| HistoryMgrNumConns
| MaximumBufferedEventsBatch
| MaximumSignalsPerExecution
| ShardUpdateMinInterval
| ShardSyncMinInterval
| DefaultEventEncoding
| NumSystemWorkflows
| EnableAdminProtection
| AdminOperationToken
| EnableEventsV2
| WorkerPersistenceMaxQPS
| WorkerReplicatorConcurrency
| WorkerReplicatorActivityBufferRetryCount
| WorkerReplicatorHistoryBufferRetryCount
| WorkerReplicationTaskMaxRetry
| WorkerIndexerConcurrency
| WorkerESProcessorNumOfWorkers
| WorkerESProcessorBulkActions
| WorkerESProcessorBulkSize
| WorkerESProcessorFlushInterval
| EnableArchivalCompression
| WorkerHistoryPageSize
| WorkerTargetArchivalBlobSize
| lastKeyForTest.

(** The value of the constant: its position in the [iota] block. *)
Definition Key_value (k : Key) : Z :=
match k with
| unknownKey => 0
| testGetPropertyKey => 1
| testGetIntPropertyKey => 2
| testGetFloat64PropertyKey => 3
| testGetDurationPropertyKey => 4
| testGetBoolPropertyKey => 5
| testGetIntPropertyFilteredByDomainKey => 6
| testGetDurationPropertyFilteredByDomainKey => 7
| testGetIntPropertyFilteredByTaskListInfoKey => 8
| testGetDurationPropertyFilteredByTaskListInfoKey => 9
| testGetBoolPropertyFilteredByTaskListInfoKey => 10
| EnableGlobalDomain => 11
| EnableNewKafkaClient => 12
| EnableVisibilitySampling => 13
| EnableReadFromClosedExecutionV2 => 14
| EnableVisibilityToKafka => 15
| EnableReadVisibilityFromES => 16
| DisableListVisibilityByFilter => 17
| EnableArchival => 18
| BlobSizeLimitError => 19
| BlobSizeLimitWarn => 20
| HistorySizeLimitError => 21
| HistorySizeLimitWarn => 22
| HistoryCountLimitError => 23
| HistoryCountLimitWarn => 24
| MaxIDLengthLimit => 25
| FrontendPersistenceMaxQPS => 26
| FrontendVisibilityMaxPageSize => 27
| FrontendVisibilityListMaxQPS => 28
| FrontendESVisibilityListMaxQPS => 29
| FrontendHistoryMaxPageSize => 30
| FrontendRPS => 31
| FrontendHistoryMgrNumConns => 32
| MaxDecisionStartToCloseTimeout => 33
| MatchingRPS => 34
| MatchingPersistenceMaxQPS => 35
| MatchingMinTaskThrottlingBurstSize => 36
| MatchingGetTasksBatchSize => 37
| MatchingLongPollExpirationInterval => 38
| MatchingEnableSyncMatch => 39
| MatchingUpdateAckInterval => 40
| MatchingIdleTasklistCheckInterval => 41
| MaxTasklistIdleTime => 42
| MatchingOutstandingTaskAppendsThreshold => 43
| MatchingMaxTaskBatchSize => 44
| EnableDCMigration => 45
| HistoryRPS => 46
| HistoryPersistenceMaxQPS => 47
| HistoryVisibilityOpenMaxQPS => 48
| HistoryVisibilityClosedMaxQPS => 49
| HistoryLongPollExpirationInterval => 50
| HistoryCacheInitialSize => 51
| HistoryCacheMaxSize => 52
| HistoryCacheTTL => 53
| EventsCacheInitialSize => 54
| EventsCacheMaxSize => 55
| EventsCacheTTL => 56
| AcquireShardInterval => 57
| StandbyClusterDelay => 58
| TimerTaskBatchSize => 59
| TimerTaskWorkerCount => 60
| TimerTaskMaxRetryCount => 61
| TimerProcessorStartDelay => 62
| TimerProcessorFailoverStartDelay => 63
| TimerProcessorGetFailureRetryCount => 64
| TimerProcessorCompleteTimerFailureRetryCount => 65
| TimerProcessorUpdateShardTaskCount => 66
| TimerProcessorUpdateAckInterval => 67
| TimerProcessorUpdateAckIntervalJitterCoefficient => 68
| TimerProcessorCompleteTimerInterval => 69
| TimerProcessorFailoverMaxPollRPS => 70
| TimerProcessorMaxPollRPS => 71
| TimerProcessorMaxPollInterval => 72
| TimerProcessorMaxPollIntervalJitterCoefficient => 73
| TimerProcessorMaxTimeShift => 74
| TransferTaskBatchSize => 75
| TransferProcessorFailoverMaxPollRPS => 76
| TransferProcessorMaxPollRPS => 77
| TransferTaskWorkerCount => 78
| TransferTaskMaxRetryCount => 79
| TransferProcessorStartDelay => 80
| TransferProcessorFailoverStartDelay => 81
| TransferProcessorCompleteTransferFailureRetryCount => 82
| TransferProcessorUpdateShardTaskCount => 83
| TransferProcessorMaxPollInterval => 84
| TransferProcessorMaxPollIntervalJitterCoefficient => 85
| TransferProcessorUpdateAckInterval => 86
| TransferProcessorUpdateAckIntervalJitterCoefficient => 87
| TransferProcessorCompleteTransferInterval => 88
| ReplicatorTaskBatchSize => 89
| ReplicatorTaskWorkerCount => 90
| ReplicatorTaskMaxRetryCount => 91
| ReplicatorProcessorStartDelay => 92
| ReplicatorProcessorMaxPollRPS => 93
| ReplicatorProcessorUpdateShardTaskCount => 94
| ReplicatorProcessorMaxPollInterval => 95
| ReplicatorProcessorMaxPollIntervalJitterCoefficient => 96
| ReplicatorProcessorUpdateAckInterval => 97
| ReplicatorProcessorUpdateAckIntervalJitterCoefficient => 98
| ExecutionMgrNumConns => 99
| HistoryMgrNumConns => 100
| MaximumBufferedEventsBatch => 101
| MaximumSignalsPerExecution => 102
| ShardUpdateMinInterval => 103
| ShardSyncMinInterval => 104
| DefaultEventEncoding => 105
| NumSystemWorkflows => 106
| EnableAdminProtection => 107
| AdminOperationToken => 108
| EnableEventsV2 => 109
| WorkerPersistenceMaxQPS => 110
| WorkerReplicatorConcurrency => 111
| WorkerReplicatorActivityBufferRetryCount => 112
| WorkerReplicatorHistoryBufferRetryCount => 113
| WorkerReplicationTaskMaxRetry => 114
| WorkerIndexerConcurrency => 115
| WorkerESProcessorNumOfWorkers => 116
| WorkerESProcessorBulkActions => 117
| WorkerESProcessorBulkSize => 118
| WorkerESProcessorFlushInterval => 119
| EnableArchivalCompression => 120
| WorkerHistoryPageSize => 121
| WorkerTargetArchivalBlobSize => 122
| lastKeyForTest => 123
end.

(** [var keys = map[Key]string{...}] *)
Definition keys (k : Key) : option string :=
match k with
| unknownKey => Some "unknownKey"%string
| testGetPropertyKey => Some "testGetPropertyKey"%string
| testGetIntPropertyKey => Some "testGetIntPropertyKey"%string
| testGetFloat64PropertyKey => Some "testGetFloat64PropertyKey"%string
| testGetDurationPropertyKey => Some "testGetDurationPropertyKey"%string
| testGetBoolPropertyKey => Some "testGetBoolPropertyKey"%string
| testGetIntPropertyFilteredByDomainKey => Some "testGetIntPropertyFilteredByDomainKey"%string
| testGetDurationPropertyFilteredByDomainKey => Some "testGetDurationPropertyFilteredByDomainKey"%string
| testGetIntPropertyFilteredByTaskListInfoKey => Some "testGetIntPropertyFilteredByTaskListInfoKey"%string
| testGetDurationPropertyFilteredByTaskListInfoKey => Some "testGetDurationPropertyFilteredByTaskListInfoKey"%string
| testGetBoolPropertyFilteredByTaskListInfoKey => Some "testGetBoolPropertyFilteredByTaskListInfoKey"%string
| EnableGlobalDomain => Some "system.enableGlobalDomain"%string
| EnableNewKafkaClient => Some "system.enableNewKafkaClient"%string
| EnableVisibilitySampling => Some "system.enableVisibilitySampling"%string
| EnableReadFromClosedExecutionV2 => Some "system.enableReadFromClosedExecutionV2"%string
| EnableVisibilityToKafka => Some "system.enableVisibilityToKafka"%string
| EnableReadVisibilityFromES => Some "system.enableReadVisibilityFromES"%string
| EnableArchival => Some "system.enableArchival"%string
| BlobSizeLimitError => Some "limit.blobSize.error"%string
| BlobSizeLimitWarn => Some "limit.blobSize.warn"%string
| HistorySizeLimitError => Some "limit.historySize.error"%string
| HistorySizeLimitWarn => Some "limit.historySize.warn"%string
| HistoryCountLimitError => Some "limit.historyCount.error"%string
| HistoryCountLimitWarn => Some "limit.historyCount.warn"%string
| MaxIDLengthLimit => Some "limit.maxIDLength"%string
| FrontendPersistenceMaxQPS => Some "frontend.persistenceMaxQPS"%string
| FrontendVisibilityMaxPageSize => Some "frontend.visibilityMaxPageSize"%string
| FrontendVisibilityListMaxQPS => Some "frontend.visibilityListMaxQPS"%string
| FrontendESVisibilityListMaxQPS => Some "frontend.esVisibilityListMaxQPS"%string
| FrontendHistoryMaxPageSize => Some "frontend.historyMaxPageSize"%string
| FrontendRPS => Some "frontend.rps"%string
| FrontendHistoryMgrNumConns => Some "frontend.historyMgrNumConns"%string
| MaxDecisionStartToCloseTimeout => Some "frontend.maxDecisionStartToCloseTimeout"%string
| DisableListVisibilityByFilter => Some "frontend.disableListVisibilityByFilter"%string
| MatchingRPS => Some "matching.rps"%string
| MatchingPersistenceMaxQPS => Some "matching.persistenceMaxQPS"%string
| MatchingMinTaskThrottlingBurstSize => Some "matching.minTaskThrottlingBurstSize"%string
| MatchingGetTasksBatchSize => Some "matching.getTasksBatchSize"%string
| MatchingLongPollExpirationInterval => Some "matching.longPollExpirationInterval"%string
| MatchingEnableSyncMatch => Some "matching.enableSyncMatch"%string
| MatchingUpdateAckInterval => Some "matching.updateAckInterval"%string
| MatchingIdleTasklistCheckInterval => Some "matching.idleTasklistCheckInterval"%string
| MaxTasklistIdleTime => Some "matching.maxTasklistIdleTime"%string
| MatchingOutstandingTaskAppendsThreshold => Some "matching.outstandingTaskAppendsThreshold"%string
| MatchingMaxTaskBatchSize => Some "matching.maxTaskBatchSize"%string
| EnableDCMigration => Some "history.enableDCMigration"%string
| HistoryRPS => Some "history.rps"%string
| HistoryPersistenceMaxQPS => Some "history.persistenceMaxQPS"%string
| HistoryVisibilityOpenMaxQPS => Some "history.historyVisibilityOpenMaxQPS"%string
| HistoryVisibilityClosedMaxQPS => Some "history.historyVisibilityClosedMaxQPS"%string
| HistoryLongPollExpirationInterval => Some "history.longPollExpirationInterval"%string
| HistoryCacheInitialSize => Some "history.cacheInitialSize"%string
| HistoryCacheMaxSize => Some "history.cacheMaxSize"%string
| HistoryCacheTTL => Some "history.cacheTTL"%string
| EventsCacheInitialSize => Some "history.eventsCacheInitialSize"%string
| EventsCacheMaxSize => Some "history.eventsCacheMaxSize"%string
| EventsCacheTTL => Some "history.eventsCacheTTL"%string
| AcquireShardInterval => Some "history.acquireShardInterval"%string
| StandbyClusterDelay => Some "history.standbyClusterDelay"%string
| TimerTaskBatchSize => Some "history.timerTaskBatchSize"%string
| TimerTaskWorkerCount => Some "history.timerTaskWorkerCount"%string
| TimerTaskMaxRetryCount => Some "history.timerTaskMaxRetryCount"%string
| TimerProcessorStartDelay => Some "history.timerProcessorStartDelay"%string
| TimerProcessorFailoverStartDelay => Some "history.timerProcessorFailoverStartDelay"%string
| TimerProcessorGetFailureRetryCount => Some "history.timerProcessorGetFailureRetryCount"%string
| TimerProcessorCompleteTimerFailureRetryCount => Some "history.timerProcessorCompleteTimerFailureRetryCount"%string
| TimerProcessorUpdateShardTaskCount => Some "history.timerProcessorUpdateShardTaskCount"%string
| TimerProcessorUpdateAckInterval => Some "history.timerProcessorUpdateAckInterval"%string
| TimerProcessorUpdateAckIntervalJitterCoefficient => Some "history.timerProcessorUpdateAckIntervalJitterCoefficient"%string
| TimerProcessorCompleteTimerInterval => Some "history.timerProcessorCompleteTimerInterval"%string
| TimerProcessorFailoverMaxPollRPS => Some "history.timerProcessorFailoverMaxPollRPS"%string
| TimerProcessorMaxPollRPS => Some "history.timerProcessorMaxPollRPS"%string
| TimerProcessorMaxPollInterval => Some "history.timerProcessorMaxPollInterval"%string
| TimerProcessorMaxPollIntervalJitterCoefficient => Some "history.timerProcessorMaxPollIntervalJitterCoefficient"%string
| TimerProcessorMaxTimeShift => Some "history.timerProcessorMaxTimeShift"%string
| TransferTaskBatchSize => Some "history.transferTaskBatchSize"%string
| TransferProcessorFailoverMaxPollRPS => Some "history.transferProcessorFailoverMaxPollRPS"%string
| TransferProcessorMaxPollRPS => Some "history.transferProcessorMaxPollRPS"%string
| TransferTaskWorkerCount => Some "history.transferTaskWorkerCount"%string
| TransferTaskMaxRetryCount => Some "history.transferTaskMaxRetryCount"%string
| TransferProcessorStartDelay => Some "history.transferProcessorStartDelay"%string
| TransferProcessorFailoverStartDelay => Some "history.transferProcessorFailoverStartDelay"%string
| TransferProcessorCompleteTransferFailureRetryCount => Some "history.transferProcessorCompleteTransferFailureRetryCount"%string
| TransferProcessorUpdateShardTaskCount => Some "history.transferProcessorUpdateShardTaskCount"%string
| TransferProcessorMaxPollInterval => Some "history.transferProcessorMaxPollInterval"%string
| TransferProcessorMaxPollIntervalJitterCoefficient => Some "history.transferProcessorMaxPollIntervalJitterCoefficient"%string
| TransferProcessorUpdateAckInterval => Some "history.transferProcessorUpdateAckInterval"%string
| TransferProcessorUpdateAckIntervalJitterCoefficient => Some "history.transferProcessorUpdateAckIntervalJitterCoefficient"%string
| TransferProcessorCompleteTransferInterval => Some "history.transferProcessorCompleteTransferInterval"%string
| ReplicatorTaskBatchSize => Some "history.replicatorTaskBatchSize"%string
| ReplicatorTaskWorkerCount => Some "history.replicatorTaskWorkerCount"%string
| ReplicatorTaskMaxRetryCount => Some "history.replicatorTaskMaxRetryCount"%string
| ReplicatorProcessorStartDelay => Some "history.replicatorProcessorStartDelay"%string
| ReplicatorProcessorMaxPollRPS => Some "history.replicatorProcessorMaxPollRPS"%string
| ReplicatorProcessorUpdateShardTaskCount => Some "history.replicatorProcessorUpdateShardTaskCount"%string
| ReplicatorProcessorMaxPollInterval => Some "history.replicatorProcessorMaxPollInterval"%string
| ReplicatorProcessorMaxPollIntervalJitterCoefficient => Some "history.replicatorProcessorMaxPollIntervalJitterCoefficient"%string
| ReplicatorProcessorUpdateAckInterval => Some "history.replicatorProcessorUpdateAckInterval"%string
| ReplicatorProcessorUpdateAckIntervalJitterCoefficient => Some "history.replicatorProcessorUpdateAckIntervalJitterCoefficient"%string
| ExecutionMgrNumConns => Some "history.executionMgrNumConns"%string
| HistoryMgrNumConns => Some "history.historyMgrNumConns"%string
| MaximumBufferedEventsBatch => Some "history.maximumBufferedEventsBatch"%string
| MaximumSignalsPerExecution => Some "history.maximumSignalsPerExecution"%string
| ShardUpdateMinInterval => Some "history.shardUpdateMinInterval"%string
| ShardSyncMinInterval => Some "history.shardSyncMinInterval"%string
| DefaultEventEncoding => Some "history.defaultEventEncoding"%string
| EnableAdminProtection => Some "history.enableAdminProtection"%string
| AdminOperationToken => Some "history.adminOperationToken"%string
| EnableEventsV2 => Some "history.enableEventsV2"%string
| NumSystemWorkflows => Some "history.numSystemWorkflows"%string
| WorkerPersistenceMaxQPS => Some "worker.persistenceMaxQPS"%string
| WorkerReplicatorConcurrency => Some "worker.replicatorConcurrency"%string
| WorkerReplicatorActivityBufferRetryCount => Some "worker.replicatorActivityBufferRetryCount"%string
| WorkerReplicatorHistoryBufferRetryCount => Some "worker.replicatorHistoryBufferRetryCount"%string
| WorkerReplicationTaskMaxRetry => Some "worker.replicationTaskMaxRetry"%string
| WorkerIndexerConcurrency => Some "worker.indexerConcurrency"%string
| WorkerESProcessorNumOfWorkers => Some "worker.ESProcessorNumOfWorkers"%string
| WorkerESProcessorBulkActions => Some "worker.ESProcessorBulkActions"%string
| WorkerESProcessorBulkSize => Some "worker.ESProcessorBulkSize"%string
| WorkerESProcessorFlushInterval => Some "worker.ESProcessorFlushInterval"%string
| EnableArchivalCompression => Some "worker.EnableArchivalCompression"%string
| WorkerHistoryPageSize => Some "worker.WorkerHistoryPageSize"%string
| WorkerTargetArchivalBlobSize => Some "worker.WorkerTargetArchivalBlobSize"%string
| _ => None
end.

(** [func (k Key) String() string] *)
Definition Key_String (k : Key) : string :=
match keys k with
| Some keyName => keyName
| None => default EmptyString%string (keys unknownKey)
end.

(** The constants of the [iota] block as a list: the key of value [n] is at
  index [n]. *)
Definition allKeys : list Key :=
[unknownKey;
 testGetPropertyKey;
 testGetIntPropertyKey;
 testGetFloat64PropertyKey;
 testGetDurationPropertyKey;
 testGetBoolPropertyKey;
 testGetIntPropertyFilteredByDomainKey;
 testGetDurationPropertyFilteredByDomainKey;
 testGetIntPropertyFilteredByTaskListInfoKey;
 testGetDurationPropertyFilteredByTaskListInfoKey;
 testGetBoolPropertyFilteredByTaskListInfoKey;
 EnableGlobalDomain;
 EnableNewKafkaClient;
 EnableVisibilitySampling;
 EnableReadFromClosedExecutionV2;
 EnableVisibilityToKafka;
 EnableReadVisibilityFromES;
 DisableListVisibilityByFilter;
 EnableArchival;
 BlobSizeLimitError;
 BlobSizeLimitWarn;
 HistorySizeLimitError;
 HistorySizeLimitWarn;
 HistoryCountLimitError;
 HistoryCountLimitWarn;
 MaxIDLengthLimit;
 FrontendPersistenceMaxQPS;
 FrontendVisibilityMaxPageSize;
 FrontendVisibilityListMaxQPS;
 FrontendESVisibilityListMaxQPS;
 FrontendHistoryMaxPageSize;
 FrontendRPS;
 FrontendHistoryMgrNumConns;
 MaxDecisionStartToCloseTimeout;
 MatchingRPS;
 MatchingPersistenceMaxQPS;
 MatchingMinTaskThrottlingBurstSize;
 MatchingGetTasksBatchSize;
 MatchingLongPollExpirationInterval;
 MatchingEnableSyncMatch;
 MatchingUpdateAckInterval;
 MatchingIdleTasklistCheckInterval;
 MaxTasklistIdleTime;
 MatchingOutstandingTaskAppendsThreshold;
 MatchingMaxTaskBatchSize;
 EnableDCMigration;
 HistoryRPS;
 HistoryPersistenceMaxQPS;
 HistoryVisibilityOpenMaxQPS;
 HistoryVisibilityClosedMaxQPS;
 HistoryLongPollExpirationInterval;
 HistoryCacheInitialSize;
 HistoryCacheMaxSize;
 HistoryCacheTTL;
 EventsCacheInitialSize;
 EventsCacheMaxSize;
 EventsCacheTTL;
 AcquireShardInterval;
 StandbyClusterDelay;
 TimerTaskBatchSize;
 TimerTaskWorkerCount;
 TimerTaskMaxRetryCount;
 TimerProcessorStartDelay;
 TimerProcessorFailoverStartDelay;
 TimerProcessorGetFailureRetryCount;
 TimerProcessorCompleteTimerFailureRetryCount;
 TimerProcessorUpdateShardTaskCount;
 TimerProcessorUpdateAckInterval;
 TimerProcessorUpdateAckIntervalJitterCoefficient;
 TimerProcessorCompleteTimerInterval;
 TimerProcessorFailoverMaxPollRPS;
 TimerProcessorMaxPollRPS;
 TimerProcessorMaxPollInterval;
 TimerProcessorMaxPollIntervalJitterCoefficient;
 TimerProcessorMaxTimeShift;
 TransferTaskBatchSize;
 TransferProcessorFailoverMaxPollRPS;
 TransferProcessorMaxPollRPS;
 TransferTaskWorkerCount;
 TransferTaskMaxRetryCount;
 TransferProcessorStartDelay;
 TransferProcessorFailoverStartDelay;
 TransferProcessorCompleteTransferFailureRetryCount;
 TransferProcessorUpdateShardTaskCount;
 TransferProcessorMaxPollInterval;
 TransferProcessorMaxPollIntervalJitterCoefficient;
 TransferProcessorUpdateAckInterval;
 TransferProcessorUpdateAckIntervalJitterCoefficient;
 TransferProcessorCompleteTransferInterval;
 ReplicatorTaskBatchSize;
 ReplicatorTaskWorkerCount;
 ReplicatorTaskMaxRetryCount;
 ReplicatorProcessorStartDelay;
 ReplicatorProcessorMaxPollRPS;
 ReplicatorProcessorUpdateShardTaskCount;
 ReplicatorProcessorMaxPollInterval;
 ReplicatorProcessorMaxPollIntervalJitterCoefficient;
 ReplicatorProcessorUpdateAckInterval;
 ReplicatorProcessorUpdateAckIntervalJitterCoefficient;
 ExecutionMgrNumConns;
 HistoryMgrNumConns;
 MaximumBufferedEventsBatch;
 MaximumSignalsPerExecution;
 ShardUpdateMinInterval;
 ShardSyncMinInterval;
 DefaultEventEncoding;
 NumSystemWorkflows;
 EnableAdminProtection;
 AdminOperationToken;
 EnableEventsV2;
 WorkerPersistenceMaxQPS;
 WorkerReplicatorConcurrency;
 WorkerReplicatorActivityBufferRetryCount;
 WorkerReplicatorHistoryBufferRetryCount;
 WorkerReplicationTaskMaxRetry;
 WorkerIndexerConcurrency;
 WorkerESProcessorNumOfWorkers;
 WorkerESProcessorBulkActions;
 WorkerESProcessorBulkSize;
 WorkerESProcessorFlushInterval;
 EnableArchivalCompression;
 WorkerHistoryPageSize;
 WorkerTargetArchivalBlobSize;
 lastKeyForTest].

(** [type Filter int], the constants of its [iota] block and the table
  [filters]. *)
Definition Filter := Z.
Definition unknownFilter : Filter := 0.
Definition DomainName : Filter := 1.
Definition TaskListName : Filter := 2.
Definition TaskType : Filter := 3.
Definition lastFilterTypeForTest : Filter := 4.

Definition filters : list string :=
["unknownFilter"; "domainName"; "taskListName"; "taskType"]%string.

(** [func (f Filter) String() string]; [None] is the panic of an index out
  of the range of [filters]. *)
Definition Filter_String (f : Filter) : option string :=
if (f <=? unknownFilter) || (f >? TaskListName)
then filters !! Z.to_nat unknownFilter
else filters !! Z.to_nat f.

(** A value of a filter map, of type [interface{}]: the options store a
  string or an int. *)
Inductive FilterValue :=
| FilterString (name : string)
| FilterInt (n : Z).

(** [type FilterOption func(filterMap map[Filter]interface{})]: the map
  after the option has written to it. *)
Definition FilterOption : Type := gmap Z FilterValue → gmap Z FilterValue.

Definition TaskListFilter (name : string) : FilterOption :=
λ filterMap, <[TaskListName := FilterString name]> filterMap.

Definition DomainFilter (name : string) : FilterOption :=
λ filterMap, <[DomainName := FilterString name]> filterMap.

Definition TaskTypeFilter (taskType : Z) : FilterOption :=
λ filterMap, <[TaskType := FilterInt taskType]> filterMap.

End dynamicconfig.

(** ** History-service configuration (service/history/service.go) *)

Definition time_Second : Z := 1000000000.
Definition time_Minute : Z := 60 * time_Second.
Definition time_Hour : Z := 60 * time_Minute.

(** [dynamicconfig.Collection]: its property constructors are outside these
    sources.  A property function reads the current state [DCState] of the
    dynamic-config client each time it is called. *)
Class Collection (C DCState : Type) := {
  GetBoolProperty : C → dynamicconfig.Key → bool → DCState → bool;
  GetIntProperty : C → dynamicconfig.Key → Z → DCState → Z;
  GetIntPropertyFilteredByDomain : C → dynamicconfig.Key → Z → string → DCState → Z;
  GetDurationProperty : C → dynamicconfig.Key → Z → DCState → Z }.

(** [Config]: the fields up to the shard-controller settings and the standby
    delay.  The queue-processor and persistence settings that follow in the
    struct are built by the same constructors and are not read by the
    replicator; the limit settings that close the struct are in
    [ConfigLimits] below. *)
Record Config (DCState : Type) := {
  NumberOfShards : Z;
  EnableDCMigration : DCState → bool;
  RPS : DCState → Z;
  MaxIDLengthLimit : DCState → Z;
  PersistenceMaxQPS : DCState → Z;
  EnableVisibilitySampling : DCState → bool;
  EnableReadFromClosedExecutionV2 : DCState → bool;
  VisibilityOpenMaxQPS : string → DCState → Z;
  VisibilityClosedMaxQPS : string → DCState → Z;
  EnableVisibilityToKafka : DCState → bool;
  HistoryCacheInitialSize : DCState → Z;
  HistoryCacheMaxSize : DCState → Z;
  HistoryCacheTTL : DCState → Z;
  EventsCacheInitialSize : DCState → Z;
  EventsCacheMaxSize : DCState → Z;
  EventsCacheTTL : DCState → Z;
  RangeSizeBits : Z;
  AcquireShardInterval : DCState → Z;
  StandbyClusterDelay : DCState → Z }.

Arguments NumberOfShards {DCState} _.
Arguments EnableDCMigration {DCState} _ _.
Arguments RPS {DCState} _ _.
Arguments MaxIDLengthLimit {DCState} _ _.
Arguments PersistenceMaxQPS {DCState} _ _.
Arguments EnableVisibilitySampling {DCState} _ _.
Arguments EnableReadFromClosedExecutionV2 {DCState} _ _.
Arguments VisibilityOpenMaxQPS {DCState} _ _ _.
Arguments VisibilityClosedMaxQPS {DCState} _ _ _.
Arguments EnableVisibilityToKafka {DCState} _ _.
Arguments HistoryCacheInitialSize {DCState} _ _.
Arguments HistoryCacheMaxSize {DCState} _ _.
Arguments HistoryCacheTTL {DCState} _ _.
Arguments EventsCacheInitialSize {DCState} _ _.
Arguments EventsCacheMaxSize {DCState} _ _.
Arguments EventsCacheTTL {DCState} _ _.
Arguments RangeSizeBits {DCState} _.
Arguments AcquireShardInterval {DCState} _ _.
Arguments StandbyClusterDelay {DCState} _ _.

(** [NewConfig] *)
Definition NewConfig {C DCState} `{!Collection C DCState}
    (dc : C) (numberOfShards : Z) (enableVisibilityToKafka : bool) : Config DCState :=
  {| NumberOfShards := numberOfShards;
     EnableDCMigration := GetBoolProperty dc dynamicconfig.EnableDCMigration false;
     RPS := GetIntProperty dc dynamicconfig.HistoryRPS 3000;
     MaxIDLengthLimit := GetIntProperty dc dynamicconfig.MaxIDLengthLimit 1000;
     PersistenceMaxQPS := GetIntProperty dc dynamicconfig.HistoryPersistenceMaxQPS 9000;
     EnableVisibilitySampling :=
       GetBoolProperty dc dynamicconfig.EnableVisibilitySampling true;
     EnableReadFromClosedExecutionV2 :=
       GetBoolProperty dc dynamicconfig.EnableReadFromClosedExecutionV2 false;
     VisibilityOpenMaxQPS :=
       GetIntPropertyFilteredByDomain dc dynamicconfig.HistoryVisibilityOpenMaxQPS 300;
     VisibilityClosedMaxQPS :=
       GetIntPropertyFilteredByDomain dc dynamicconfig.HistoryVisibilityClosedMaxQPS 300;
     EnableVisibilityToKafka :=
       GetBoolProperty dc dynamicconfig.EnableVisibilityToKafka enableVisibilityToKafka;
     HistoryCacheInitialSize := GetIntProperty dc dynamicconfig.HistoryCacheInitialSize 128;
     HistoryCacheMaxSize := GetIntProperty dc dynamicconfig.HistoryCacheMaxSize 512;
     HistoryCacheTTL := GetDurationProperty dc dynamicconfig.HistoryCacheTTL time_Hour;
     EventsCacheInitialSize := GetIntProperty dc dynamicconfig.EventsCacheInitialSize 128;
     EventsCacheMaxSize := GetIntProperty dc dynamicconfig.EventsCacheMaxSize 512;
     EventsCacheTTL := GetDurationProperty dc dynamicconfig.EventsCacheTTL time_Hour;
     RangeSizeBits := 20;
     AcquireShardInterval :=
       GetDurationProperty dc dynamicconfig.AcquireShardInterval time_Minute;
     StandbyClusterDelay :=
       GetDurationProperty dc dynamicconfig.AcquireShardInterval (5 * time_Minute) |}.

(** The six limit settings that close [Config]. *)
Record ConfigLimits (DCState : Type) := {
  BlobSizeLimitError : string → DCState → Z;
  BlobSizeLimitWarn : string → DCState → Z;
  HistorySizeLimitError : string → DCState → Z;
  HistorySizeLimitWarn : string → DCState → Z;
  HistoryCountLimitError : string → DCState → Z;
  HistoryCountLimitWarn : string → DCState → Z }.

Arguments BlobSizeLimitError {DCState} _ _ _.
Arguments BlobSizeLimitWarn {DCState} _ _ _.
Arguments HistorySizeLimitError {DCState} _ _ _.
Arguments HistorySizeLimitWarn {DCState} _ _ _.
Arguments HistoryCountLimitError {DCState} _ _ _.
Arguments HistoryCountLimitWarn {DCState} _ _ _.

(** The limit settings as [NewConfig] builds them. *)
Definition NewConfigLimits {C DCState} `{!Collection C DCState} (dc : C) :
    ConfigLimits DCState :=
  {| BlobSizeLimitError :=
       GetIntPropertyFilteredByDomain dc dynamicconfig.BlobSizeLimitError (2 * 1024 * 1024);
     BlobSizeLimitWarn :=
       GetIntPropertyFilteredByDomain dc dynamicconfig.BlobSizeLimitError (256 * 1024);
     HistorySizeLimitError :=
       GetIntPropertyFilteredByDomain dc dynamicconfig.HistorySizeLimitError
         (200 * 1024 * 1024);
     HistorySizeLimitWarn :=
       GetIntPropertyFilteredByDomain dc dynamicconfig.HistorySizeLimitWarn
         (50 * 1024 * 1024);
     HistoryCountLimitError :=
       GetIntPropertyFilteredByDomain dc dynamicconfig.HistoryCountLimitError (200 * 1024);
     HistoryCountLimitWarn :=
       GetIntPropertyFilteredByDomain dc dynamicconfig.HistoryCountLimitWarn (50 * 1024) |}.

(** ** Interfaces of the collaborators *)

(** Constants of the packages [common], [persistence] and [shared] that the
    replicator compares against; their declarations are outside these
    sources. *)
Class Constants := {
  EmptyVersion : Z;
  EmptyEventID : Z;
  FirstEventID : Z;
  EncodingTypeThriftRW : Z;
  EventStoreVersionV2 : Z;
  WorkflowStateCompleted : Z;
  WorkflowCloseStatusNone : Z;
  identityHistoryService : string }.

(** [cluster.Metadata] *)
Class Metadata := {
  ClusterNameForFailoverVersion : Z → string;
  GetCurrentClusterName : string;
  IsVersionFromSameCluster : Z → Z → bool }.

(** [mutableState]: the methods the replicator calls.  A method that mutates
    the builder in place returns the builder after the call. *)
Class mutableState (MS : Type) := {
  IsWorkflowExecutionRunning : MS → bool;
  GetNextEventID : MS → Z;
  GetLastWriteVersion : MS → Z;
  GetCurrentVersion : MS → Z;
  GetReplicationState : MS → ReplicationState;
  GetExecutionInfo : MS → WorkflowExecutionInfo;
  GetActivityInfo : MS → Z → option ActivityInfo;
  GetInFlightDecisionTask : MS → option decisionInfo;
  HasBufferedEvents : MS → bool;
  HasBufferedReplicationTasks : MS → bool;
  GetAllBufferedReplicationTasks : MS → gmap Z BufferedReplicationTask;
  GetEventStoreVersion : MS → Z;
  GetCurrentBranch : MS → string;
  UpdateReplicationStateVersion : Z → bool → MS → MS;
  UpdateReplicationStateLastEventID : string → Z → Z → MS → MS;
  AddDecisionTaskFailedEvent :
    Z → Z → DecisionTaskFailedCause → option string → string →
    string → string → string → Z → MS → MS;
  AddWorkflowExecutionSignaled : string → string → string → MS → option HistoryEvent * MS;
  BufferReplicationTask : ReplicateEventsRequest → MS → Error + MS;
  DeleteBufferedReplicationTask : Z → MS → MS;
  ReplicateActivityInfo : SyncActivityRequest → bool → MS → Error + MS;
  SetLastFirstEventID : Z → MS → MS;
  SetNextEventID : Z → MS → MS }.

(** [workflowExecutionContext]: the key of the execution it guards.  The
    mutable state it holds is the builder threaded through the replicator. *)
Record workflowExecutionContext := {
  getDomainID : string;
  getExecution : WorkflowExecution }.

Inductive MetricScope := ReplicateHistoryEventsScope.

Inductive MetricCounter :=
  | EmptyReplicationEventsCounter
  | DuplicateReplicationEventsCounter
  | StaleReplicationEventsCounter
  | HistoryConflictsCounter.

Inductive MetricTimer :=
  | ReplicationEventsSizeTimer
  | BufferReplicationTaskTimer
  | UnbufferReplicationTaskTimer.

Record GetCurrentExecutionResponse := {
  resp_RunID : string;
  resp_CloseStatus : Z }.

Record AppendHistoryEventsRequest := {
  ahe_DomainID : string;
  ahe_Execution : WorkflowExecution;
  ahe_TransactionID : Z;
  ahe_FirstEventID : Z;
  ahe_EventBatchVersion : Z;
  ahe_Events : list HistoryEvent }.

Record AppendHistoryNodesRequest := {
  IsNewBranch : bool;
  ahn_Info : string;
  ahn_BranchToken : string;
  ahn_Events : list HistoryEvent;
  ahn_TransactionID : Z }.

(** ** Calls to the collaborators

    [MS] is the mutable-state builder, [Task] a transfer or timer task,
    [NewRun] the state builder of a continued-as-new run. *)

Record CreateWorkflowExecutionRequest (Task : Type) := {
  cw_RequestID : string;
  cw_DomainID : string;
  cw_Execution : WorkflowExecution;
  cw_ParentDomainID : string;
  cw_ParentExecution : option WorkflowExecution;
  cw_InitiatedID : Z;
  cw_TaskList : string;
  cw_WorkflowTypeName : string;
  cw_WorkflowTimeout : Z;
  cw_DecisionTimeoutValue : Z;
  cw_NextEventID : Z;
  cw_LastProcessedEvent : Z;
  cw_HistorySize : Z;
  cw_TransferTasks : list Task;
  cw_DecisionVersion : Z;
  cw_DecisionScheduleID : Z;
  cw_DecisionStartedID : Z;
  cw_DecisionStartToCloseTimeout : Z;
  cw_TimerTasks : list Task;
  PreviousRunID : string;
  PreviousLastWriteVersion : Z;
  cw_ReplicationState : ReplicationState;
  cw_EventStoreVersion : Z;
  cw_BranchToken : string;
  cw_CreateWorkflowMode : CreateWorkflowMode }.

Arguments PreviousRunID {Task} _.
Arguments PreviousLastWriteVersion {Task} _.
Arguments cw_CreateWorkflowMode {Task} _.
Arguments cw_Execution {Task} _.
Arguments cw_NextEventID {Task} _.

(** What [stateBuilder.applyEvents] yields, with the tasks the builder has
    collected and the mutable state it has written to. *)
Record applyEventsResult (MS Task NewRun : Type) := {
  ae_lastEvent : HistoryEvent;
  ae_di : option decisionInfo;
  ae_newRunStateBuilder : option NewRun;
  getTransferTasks : list Task;
  getTimerTasks : list Task;
  ae_msBuilder : MS }.

Arguments ae_lastEvent {MS Task NewRun} _.
Arguments ae_di {MS Task NewRun} _.
Arguments ae_newRunStateBuilder {MS Task NewRun} _.
Arguments getTransferTasks {MS Task NewRun} _.
Arguments getTimerTasks {MS Task NewRun} _.
Arguments ae_msBuilder {MS Task NewRun} _.

Inductive Call (MS Task NewRun : Type) : Type → Type :=
  (* historyCache, workflowExecutionContext *)
  | getOrCreateWorkflowExecutionWithTimeout (domainID : string)
      (execution : WorkflowExecution) : Call MS Task NewRun (Error + workflowExecutionContext)
  | loadWorkflowExecution (context : workflowExecutionContext) :
      Call MS Task NewRun (Error + MS)
  | release (context : workflowExecutionContext) (err : option Error) :
      Call MS Task NewRun unit
  | updateHelper (context : workflowExecutionContext) (msBuilder : MS)
      (timerTasks : list Task) (transactionID : Z) (now : Time)
      (sourceCluster : string) : Call MS Task NewRun (Error + MS)
  | updateWorkflowExecution (context : workflowExecutionContext) (msBuilder : MS)
      (transactionID : Z) : Call MS Task NewRun (Error + MS)
  | replicateWorkflowExecution (context : workflowExecutionContext) (msBuilder : MS)
      (request : ReplicateEventsRequest) (transferTasks timerTasks : list Task)
      (lastEventID transactionID : Z) (now : Time) : Call MS Task NewRun (Error + MS)
  | appendFirstBatchHistoryForContinueAsNew (context : workflowExecutionContext)
      (msBuilder : MS) (newRunStateBuilder : NewRun) (transactionID : Z) :
      Call MS Task NewRun (Error + MS)
  (* stateBuilder, conflictResolver, workflowResetor, dcMigrationHandler *)
  | applyEvents (msBuilder : MS) (domainID requestID : string)
      (execution : WorkflowExecution) (history newRunHistory : list HistoryEvent)
      (eventStoreVersion newRunEventStoreVersion : Z) :
      Call MS Task NewRun (Error + applyEventsResult MS Task NewRun)
  | conflictResolver_reset (context : workflowExecutionContext)
      (prevRunID requestID : string) (replayEventID : Z)
      (info : WorkflowExecutionInfo) : Call MS Task NewRun (Error + MS)
  | ApplyResetEvent (request : ReplicateEventsRequest)
      (domainID workflowID currentRunID : string) : Call MS Task NewRun (Error + unit)
  | getLastMatchEventID (context : workflowExecutionContext) (msBuilder : MS)
      (request : ReplicateEventsRequest) : Call MS Task NewRun (Error + Z)
  (* shard, persistence managers *)
  | GetNextTransferTaskID : Call MS Task NewRun (Error + Z)
  | AppendHistoryV2Events (request : AppendHistoryNodesRequest) (domainID : string) :
      Call MS Task NewRun (Error + Z)
  | AppendHistoryEvents (request : AppendHistoryEventsRequest) :
      Call MS Task NewRun (Error + Z)
  | CreateWorkflowExecution (request : CreateWorkflowExecutionRequest Task) :
      Call MS Task NewRun (Error + unit)
  | DeleteHistoryBranch (branchToken : string) : Call MS Task NewRun unit
  | DeleteWorkflowExecutionHistory (domainID : string) (execution : WorkflowExecution) :
      Call MS Task NewRun unit
  | GetCurrentExecution (domainID workflowID : string) :
      Call MS Task NewRun (Error + GetCurrentExecutionResponse)
  | SetCurrentTime (clusterName : string) (now : Time) : Call MS Task NewRun unit
  (* history engine queue processors *)
  | NotifyNewTask (clusterName : string) (transferTasks : list Task) :
      Call MS Task NewRun unit
  | NotifyNewTimers (clusterName : string) (now : Time) (timerTasks : list Task) :
      Call MS Task NewRun unit
  (* domain cache, serializer, metrics, uuid *)
  | GetDomainByID (domainID : string) : Call MS Task NewRun (Error + list string)
  | DeserializeBatchEvents (data : string) : Call MS Task NewRun (Error + list HistoryEvent)
  | IncCounter (scope : MetricScope) (counter : MetricCounter) : Call MS Task NewRun unit
  | RecordTimer (scope : MetricScope) (timer : MetricTimer) (d : Z) : Call MS Task NewRun unit
  | uuid_New : Call MS Task NewRun string.

Arguments getOrCreateWorkflowExecutionWithTimeout {MS Task NewRun}.
Arguments loadWorkflowExecution {MS Task NewRun}.
Arguments release {MS Task NewRun}.
Arguments updateHelper {MS Task NewRun}.
Arguments updateWorkflowExecution {MS Task NewRun}.
Arguments replicateWorkflowExecution {MS Task NewRun}.
Arguments appendFirstBatchHistoryForContinueAsNew {MS Task NewRun}.
Arguments applyEvents {MS Task NewRun}.
Arguments conflictResolver_reset {MS Task NewRun}.
Arguments ApplyResetEvent {MS Task NewRun}.
Arguments getLastMatchEventID {MS Task NewRun}.
Arguments GetNextTransferTaskID {MS Task NewRun}.
Arguments AppendHistoryV2Events {MS Task NewRun}.
Arguments AppendHistoryEvents {MS Task NewRun}.
Arguments CreateWorkflowExecution {MS Task NewRun}.
Arguments DeleteHistoryBranch {MS Task NewRun}.
Arguments DeleteWorkflowExecutionHistory {MS Task NewRun}.
Arguments GetCurrentExecution {MS Task NewRun}.
Arguments SetCurrentTime {MS Task NewRun}.
Arguments NotifyNewTask {MS Task NewRun}.
Arguments NotifyNewTimers {MS Task NewRun}.
Arguments GetDomainByID {MS Task NewRun}.
Arguments DeserializeBatchEvents {MS Task NewRun}.
Arguments IncCounter {MS Task NewRun}.
Arguments RecordTimer {MS Task NewRun}.
Arguments uuid_New {MS Task NewRun}.

(** One entry of the call log. *)
Definition Logged (MS Task NewRun : Type) : Type := { A : Type & Call MS Task NewRun A }.

Definition logged {MS Task NewRun A} (c : Call MS Task NewRun A) : Logged MS Task NewRun :=
  existT A c.

(** The collaborators of one replicator: [handle] answers a call in the
    current state [W] of shard, stores and caches; the other fields are the
    in-memory helpers of package [history] declared outside these sources, the
    configuration of the shard, and the order in which [range] visits a map. *)
Class Services (MS Task NewRun W DCState : Type) := {
  handle : ∀ A, Call MS Task NewRun A → W → A * W;
  dcState : W → DCState;
  GetConfig : Config DCState;
  validateDomainUUID : string → Error + string;
  getNewMutableState : Z → MS;
  setTaskInfo : Z → Time → list Task → list Task → list Task * list Task;
  GetActivityTimerTaskIfNeeded : Time → MS → option Task * MS;
  historyGarbageCleanupInfo : string → string → string → string;
  rangeReplicationInfo : gmap string ReplicationInfo → list (string * ReplicationInfo);
  rangeReplicationInfo_perm : ∀ m, rangeReplicationInfo m ≡ₚ map_to_list m;
  rangeBufferedReplicationTasks :
    gmap Z BufferedReplicationTask → list (Z * BufferedReplicationTask);
  rangeBufferedReplicationTasks_perm :
    ∀ m, rangeBufferedReplicationTasks m ≡ₚ map_to_list m }.

(** ** The monad of the replicator: state of the collaborators, call log,
    errors *)

Record St (MS Task NewRun W : Type) := {
  world : W;
  calls : list (Logged MS Task NewRun) }.

Arguments world {MS Task NewRun W} _.
Arguments calls {MS Task NewRun W} _.

Definition M (MS Task NewRun W A : Type) : Type :=
  St MS Task NewRun W → (Error + A) * St MS Task NewRun W.

Section Monad.
Context {MS Task NewRun W DCState : Type}.
Context `{!Services MS Task NewRun W DCState}.

Local Abbreviation M' := (M MS Task NewRun W).

Definition ret {A} (a : A) : M' A := λ s, (inr a, s).

Definition throw {A} (e : Error) : M' A := λ s, (inl e, s).

Definition bind {A B} (m : M' A) (k : A → M' B) : M' B :=
  λ s, match m s with
       | (inl e, s') => (inl e, s')
       | (inr a, s') => k a s'
       end.

(** Issue a call: the collaborator answers and the call is logged. *)
Definition call {A} (c : Call MS Task NewRun A) : M' A :=
  λ s, let (a, w) := handle A c (world s) in
       (inr a, {| world := w; calls := calls s ++ [logged c] |}).

(** A call whose error is returned to the caller as it is. *)
Definition callE {A} (c : Call MS Task NewRun (Error + A)) : M' A :=
  bind (call c) (λ r, match r with inl e => throw e | inr a => ret a end).

(** Lift a fallible in-memory operation. *)
Definition liftE {A} (r : Error + A) : M' A :=
  match r with inl e => throw e | inr a => ret a end.

(** Observe the outcome of a computation instead of propagating its error. *)
Definition try {A} (m : M' A) : M' (Error + A) :=
  λ s, let (r, s') := m s in (inr r, s').

(** Read the state of the dynamic-config client. *)
Definition getDCState : M' DCState := λ s, (inr (dcState (world s)), s).

(** [defer func() { release(retError) }()] *)
Definition deferRelease {A} (context : workflowExecutionContext) (m : M' A) : M' A :=
  λ s, let (r, s1) := m s in
       let retError := match r with inl e => Some e | inr _ => None end in
       let (_, s2) := call (release context retError) s1 in
       (r, s2).
End Monad.

Declare Scope go_scope.
Delimit Scope go_scope with go.
Notation "'let!' x := m 'in' k" := (bind m (λ x, k))
  (at level 10, x name, m at level 100, k at level 200) : go_scope.
Notation "'let!' ' p := m 'in' k" := (bind m (λ x, match x with p => k end))
  (at level 10, p pattern, m at level 100, k at level 200) : go_scope.
Notation "'do!' m 'in' k" := (bind m (λ _, k))
  (at level 10, m at level 100, k at level 200) : go_scope.

Local Open Scope go_scope.

(** ** The history replicator (service/history/service.go) *)

Section Replicator.
Context {MS Task NewRun W DCState : Type}.
Context `{!Constants, !Metadata, !mutableState MS}.
Context `{!Services MS Task NewRun W DCState}.

Local Abbreviation M' := (M MS Task NewRun W).

Definition canModifyWorkflow (msBuilder : MS) : bool :=
  let lastWriteVersion := GetLastWriteVersion msBuilder in
  bool_decide (ClusterNameForFailoverVersion lastWriteVersion = GetCurrentClusterName).

(** The body of the two [range] loops of [getLatestCheckpoint]. *)
Definition checkpointStep (acc : Z * Z) (ri : ReplicationInfo) : Z * Z :=
  let '(lastValidVersion, lastValidEventID) := acc in
  if (lastValidVersion =? EmptyVersion) || (ri_Version ri >? lastValidVersion)
  then (ri_Version ri, ri_LastEventId ri)
  else (lastValidVersion, lastValidEventID).

Definition getLatestCheckpoint
    (replicationInfoRemote replicationInfoLocal : gmap string ReplicationInfo) : Z * Z :=
  let acc := (EmptyVersion, EmptyEventID) in
  let acc := foldl checkpointStep acc (rangeReplicationInfo replicationInfoRemote).*2 in
  foldl checkpointStep acc (rangeReplicationInfo replicationInfoLocal).*2.

Definition updateMutableStateWithTimer (context : workflowExecutionContext)
    (msBuilder : MS) (now : Time) (timerTasks : list Task) : M' MS :=
  let! transactionID := callE GetNextTransferTaskID in
  let lastWriteVersion := GetLastWriteVersion msBuilder in
  let sourceCluster := ClusterNameForFailoverVersion lastWriteVersion in
  callE (updateHelper context msBuilder timerTasks transactionID now sourceCluster).

Definition updateMutableStateOnly (context : workflowExecutionContext)
    (msBuilder : MS) : M' MS :=
  updateMutableStateWithTimer context msBuilder time_zero [].

Definition notify (clusterName : string) (now : Time)
    (transferTasks timerTasks : list Task) : M' unit :=
  let! dc := getDCState in
  let now := time_Add now (- StandbyClusterDelay GetConfig dc) in
  do! call (SetCurrentTime clusterName now) in
  do! call (NotifyNewTask clusterName transferTasks) in
  call (NotifyNewTimers clusterName now timerTasks).

Definition deserializeBlob (blob : DataBlob) : M' (list HistoryEvent) :=
  if bool_decide (EncodingType blob ≠ EncodingTypeThriftRW)
  then throw ErrUnknownEncodingType
  else
    let! historyEvents := callE (DeserializeBatchEvents (Data blob)) in
    if bool_decide (length historyEvents = 0%nat)
    then throw ErrEmptyHistoryRawEventBatch
    else ret historyEvents.

Definition flushEventsBuffer (context : workflowExecutionContext)
    (msBuilder : MS) : M' MS :=
  if negb (IsWorkflowExecutionRunning msBuilder)
     || negb (HasBufferedEvents msBuilder)
     || negb (canModifyWorkflow msBuilder)
  then ret msBuilder
  else
    match GetInFlightDecisionTask msBuilder with
    | None => throw ErrCorruptedMutableStateDecision
    | Some di =>
        let msBuilder :=
          UpdateReplicationStateVersion (GetLastWriteVersion msBuilder) true msBuilder in
        let msBuilder :=
          AddDecisionTaskFailedEvent (di_ScheduleID di) (di_StartedID di)
            DecisionTaskFailedCauseFailoverCloseDecision None identityHistoryService
            EmptyString EmptyString EmptyString 0 msBuilder in
        let! transactionID := callE GetNextTransferTaskID in
        callE (updateWorkflowExecution context msBuilder transactionID)
    end.

(** The [for _, event := range events] loop of [garbageCollectSignals]. *)
Fixpoint garbageCollectSignals_loop (events : list HistoryEvent)
    (updateMutableState : bool) (msBuilder : MS) : Error + (bool * MS) :=
  match events with
  | [] => inr (updateMutableState, msBuilder)
  | event :: events =>
      match ev_EventType event with
      | EventTypeWorkflowExecutionSignaled =>
          match ev_Signaled event with
          | None => inl (Panic "nil pointer dereference")
          | Some attr =>
              match AddWorkflowExecutionSignaled
                      (SignalName attr) (sig_Input attr) (sig_Identity attr) msBuilder with
              | (None, _) => inl (InternalServiceError "Unable to signal workflow execution.")
              | (Some _, msBuilder) => garbageCollectSignals_loop events true msBuilder
              end
          end
      | _ => garbageCollectSignals_loop events updateMutableState msBuilder
      end
  end.

Definition garbageCollectSignals (context : workflowExecutionContext)
    (msBuilder : MS) (events : list HistoryEvent) : M' (bool * MS) :=
  if negb (IsWorkflowExecutionRunning msBuilder) || negb (canModifyWorkflow msBuilder)
  then ret (false, msBuilder)
  else
    let msBuilder :=
      UpdateReplicationStateVersion (GetLastWriteVersion msBuilder) true msBuilder in
    let! '(updateMutableState, msBuilder) :=
      liftE (garbageCollectSignals_loop events false msBuilder) in
    if negb updateMutableState
    then ret (false, msBuilder)
    else
      let! transactionID := callE GetNextTransferTaskID in
      let! msBuilder := callE (updateWorkflowExecution context msBuilder transactionID) in
      ret (true, msBuilder).

Definition canDoDCMigration (domainID : string) : M' bool :=
  let! clusters := callE (GetDomainByID domainID) in
  ret (foldl (λ doDCMigration targetCluster,
                if bool_decide (targetCluster = GetCurrentClusterName)
                then false else doDCMigration)
             true clusters).

Definition getCurrentWorkflowMutableState (domainID workflowID : string) :
    M' (workflowExecutionContext * MS) :=
  let! context :=
    callE (getOrCreateWorkflowExecutionWithTimeout domainID
             {| WorkflowId := workflowID; RunId := EmptyString |}) in
  let! r := call (loadWorkflowExecution context) in
  match r with
  | inl err => do! call (release context (Some err)) in throw err
  | inr msBuilder => ret (context, msBuilder)
  end.

(** *** Applying a batch

    [ApplyReplicationTask], [replicateWorkflowStarted], [terminateWorkflow]
    and [flushReplicationBuffer] call each other.  Each function is written
    first over the [ApplyReplicationTask] it calls ([applyTask]); the knot
    is tied by recursion on a bound [fuel], which also bounds the number of
    rounds of the [for] loop that drains the buffer. *)

Definition terminateWorkflow_
    (applyTask : workflowExecutionContext → MS → ReplicateEventsRequest → M' MS)
    (domainID workflowID runID : string)
    (incomingVersion incomingTimestamp : Z) : M' unit :=
  let execution := {| WorkflowId := workflowID; RunId := runID |} in
  let! context := callE (getOrCreateWorkflowExecutionWithTimeout domainID execution) in
  deferRelease context (
    let! msBuilder := callE (loadWorkflowExecution context) in
    if negb (IsWorkflowExecutionRunning msBuilder)
    then ret tt
    else
      let nextEventID := GetNextEventID msBuilder in
      let sourceCluster := ClusterNameForFailoverVersion incomingVersion in
      let terminationEvent :=
        {| EventId := nextEventID;
           Timestamp := incomingTimestamp;
           ev_Version := incomingVersion;
           ev_EventType := EventTypeWorkflowExecutionTerminated;
           ev_Signaled := None;
           ev_Terminated :=
             Some {| Reason := workflowTerminationReason;
                     Details := None;
                     term_Identity := workflowTerminationIdentity |} |} in
      let history := [terminationEvent] in
      let req :=
        {| SourceCluster := sourceCluster;
           DomainUUID := domainID;
           req_WorkflowExecution := execution;
           FirstEventId := nextEventID;
           NextEventId := nextEventID + 1;
           req_Version := incomingVersion;
           req_ReplicationInfo := ∅;
           History := history;
           NewRunHistory := None;
           ForceBufferEvents := false;
           EventStoreVersion := 0;
           NewRunEventStoreVersion := 0;
           ResetWorkflow := false |} in
      do! applyTask context msBuilder req in
      ret tt).

(** The first loop of [flushReplicationBuffer]: drop the stale buffered
    tasks, keeping their signals. *)
Fixpoint flushReplicationBuffer_stale (context : workflowExecutionContext)
    (tasks : list (Z * BufferedReplicationTask)) (msBuilder : MS) : M' MS :=
  match tasks with
  | [] => ret msBuilder
  | (firstEventID, bt) :: tasks =>
      if IsWorkflowExecutionRunning msBuilder
         && (bt_Version bt <? GetLastWriteVersion msBuilder)
      then
        let msBuilder := DeleteBufferedReplicationTask firstEventID msBuilder in
        let! '(applied, msBuilder) :=
          garbageCollectSignals context msBuilder (bt_History bt) in
        let! msBuilder :=
          (if negb applied
           then updateMutableStateOnly context msBuilder
           else ret msBuilder) in
        flushReplicationBuffer_stale context tasks msBuilder
      else flushReplicationBuffer_stale context tasks msBuilder
  end.

(** The second loop: apply the buffered task that starts at the next event
    id, as long as there is one.  It yields [flushedCount] together with the
    outcome, for the deferred timer metric. *)
Fixpoint flushReplicationBuffer_apply
    (applyTask : workflowExecutionContext → MS → ReplicateEventsRequest → M' MS)
    (fuel : nat) (context : workflowExecutionContext)
    (domainID : string) (execution : WorkflowExecution)
    (flushedCount : Z) (msBuilder : MS) : M' (Z * (Error + MS)) :=
  if IsWorkflowExecutionRunning msBuilder && HasBufferedReplicationTasks msBuilder
  then
    match fuel with
    | O => ret (flushedCount, inl OutOfFuel)
    | S fuel =>
        let nextEventID := GetNextEventID msBuilder in
        match GetAllBufferedReplicationTasks msBuilder !! nextEventID with
        | None => ret (flushedCount, inr msBuilder)
        | Some bt =>
            let msBuilder := DeleteBufferedReplicationTask nextEventID msBuilder in
            let sourceCluster := ClusterNameForFailoverVersion (bt_Version bt) in
            let req :=
              {| SourceCluster := sourceCluster;
                 DomainUUID := domainID;
                 req_WorkflowExecution := execution;
                 FirstEventId := bt_FirstEventID bt;
                 NextEventId := bt_NextEventID bt;
                 req_Version := bt_Version bt;
                 req_ReplicationInfo := ∅;
                 History := bt_History bt;
                 NewRunHistory := Some (bt_NewRunHistory bt);
                 ForceBufferEvents := false;
                 EventStoreVersion := bt_EventStoreVersion bt;
                 NewRunEventStoreVersion := bt_NewRunEventStoreVersion bt;
                 ResetWorkflow := false |} in
            let! r := try (applyTask context msBuilder req) in
            match r with
            | inl err => ret (flushedCount, inl err)
            | inr msBuilder =>
                flushReplicationBuffer_apply applyTask fuel context domainID execution
                  (flushedCount + (bt_NextEventID bt - bt_FirstEventID bt)) msBuilder
            end
        end
    end
  else ret (flushedCount, inr msBuilder).

Definition flushReplicationBuffer_
    (applyTask : workflowExecutionContext → MS → ReplicateEventsRequest → M' MS)
    (fuel : nat) (context : workflowExecutionContext) (msBuilder : MS) : M' MS :=
  if negb (IsWorkflowExecutionRunning msBuilder)
  then ret msBuilder
  else
    let domainID := ei_DomainID (GetExecutionInfo msBuilder) in
    let execution :=
      {| WorkflowId := ei_WorkflowID (GetExecutionInfo msBuilder);
         RunId := ei_RunID (GetExecutionInfo msBuilder) |} in
    let! '(flushedCount, r) :=
      (let! r := try (flushReplicationBuffer_stale context
                        (rangeBufferedReplicationTasks
                           (GetAllBufferedReplicationTasks msBuilder)) msBuilder) in
       match r with
       | inl err => ret (0, inl err)
       | inr msBuilder =>
           flushReplicationBuffer_apply applyTask fuel context domainID execution
             0 msBuilder
       end) in
    do! call (RecordTimer ReplicateHistoryEventsScope UnbufferReplicationTaskTimer
                flushedCount) in
    liftE r.

Definition flushCurrentWorkflowBuffer_
    (applyTask : workflowExecutionContext → MS → ReplicateEventsRequest → M' MS)
    (fuel : nat) (domainID workflowID : string) : M' (string * Z * bool) :=
  let! '(currentContext, currentMutableState) :=
    getCurrentWorkflowMutableState domainID workflowID in
  let! r := try (flushReplicationBuffer_ applyTask fuel currentContext
                   currentMutableState) in
  match r with
  | inl err => do! call (release currentContext (Some err)) in throw err
  | inr currentMutableState =>
      do! call (release currentContext None) in
      ret (RunId (getExecution currentContext),
           GetNextEventID currentMutableState,
           IsWorkflowExecutionRunning currentMutableState)
  end.

(** *** [replicateWorkflowStarted]

    The function is cut at its closures: the append of the first batch, the
    in-place updates of the builder, the request that [createWorkflow]
    builds and [deleteHistory].  [msBuilder0] is the builder as it was on
    entry, from which [domainID], [execution] and the parent are read. *)

Definition startedExecution (msBuilder0 : MS) : WorkflowExecution :=
  {| WorkflowId := ei_WorkflowID (GetExecutionInfo msBuilder0);
     RunId := ei_RunID (GetExecutionInfo msBuilder0) |}.

Definition appendStartedHistory (msBuilder : MS) (history : list HistoryEvent)
    (firstEvent : HistoryEvent) (transactionID : Z) : M' Z :=
  let domainID := ei_DomainID (GetExecutionInfo msBuilder) in
  let execution := startedExecution msBuilder in
  if bool_decide (GetEventStoreVersion msBuilder = EventStoreVersionV2)
  then callE (AppendHistoryV2Events
                {| IsNewBranch := true;
                   ahn_Info := historyGarbageCleanupInfo domainID
                                 (WorkflowId execution) (RunId execution);
                   ahn_BranchToken := GetCurrentBranch msBuilder;
                   ahn_Events := history;
                   ahn_TransactionID := transactionID |}
                (ei_DomainID (GetExecutionInfo msBuilder)))
  else callE (AppendHistoryEvents
                {| ahe_DomainID := domainID;
                   ahe_Execution := execution;
                   ahe_TransactionID := transactionID;
                   ahe_FirstEventID := EventId firstEvent;
                   ahe_EventBatchVersion := ev_Version firstEvent;
                   ahe_Events := history |}).

Definition startedMutableState (sourceCluster : string)
    (firstEvent lastEvent : HistoryEvent) (msBuilder : MS) : MS :=
  let msBuilder := SetLastFirstEventID (EventId firstEvent) msBuilder in
  let msBuilder := SetNextEventID (EventId lastEvent + 1) msBuilder in
  let incomingVersion := ev_Version firstEvent in
  UpdateReplicationStateLastEventID sourceCluster incomingVersion
    (EventId lastEvent) msBuilder.

(** The request of the closure [createWorkflow]. *)
Definition createWorkflowRequest (msBuilder0 msBuilder : MS)
    (di : option decisionInfo) (historySize : Z) (transferTasks timerTasks : list Task)
    (isBrandNew : bool) (prevRunID : string) (prevLastWriteVersion : Z) :
    CreateWorkflowExecutionRequest Task :=
  let executionInfo := GetExecutionInfo msBuilder0 in
  let '(parentExecution, initiatedID, parentDomainID) :=
    if bool_decide (ParentDomainID executionInfo ≠ EmptyString)
    then (Some {| WorkflowId := ParentWorkflowID executionInfo;
                  RunId := ParentRunID executionInfo |},
          InitiatedID executionInfo, ParentDomainID executionInfo)
    else (None, EmptyEventID, EmptyString) in
  let '(decisionVersionID, decisionScheduleID, decisionStartID, decisionTimeout) :=
    match di with
    | Some di => (di_Version di, di_ScheduleID di, di_StartedID di, DecisionTimeout di)
    | None => (EmptyVersion, EmptyEventID, EmptyEventID, 0)
    end in
  {| cw_RequestID := CreateRequestID (GetExecutionInfo msBuilder);
     cw_DomainID := ei_DomainID executionInfo;
     cw_Execution := startedExecution msBuilder0;
     cw_ParentDomainID := parentDomainID;
     cw_ParentExecution := parentExecution;
     cw_InitiatedID := initiatedID;
     cw_TaskList := TaskList (GetExecutionInfo msBuilder);
     cw_WorkflowTypeName := WorkflowTypeName (GetExecutionInfo msBuilder);
     cw_WorkflowTimeout := WorkflowTimeout (GetExecutionInfo msBuilder);
     cw_DecisionTimeoutValue := DecisionTimeoutValue (GetExecutionInfo msBuilder);
     cw_NextEventID := GetNextEventID msBuilder;
     cw_LastProcessedEvent := EmptyEventID;
     cw_HistorySize := historySize;
     cw_TransferTasks := transferTasks;
     cw_DecisionVersion := decisionVersionID;
     cw_DecisionScheduleID := decisionScheduleID;
     cw_DecisionStartedID := decisionStartID;
     cw_DecisionStartToCloseTimeout := decisionTimeout;
     cw_TimerTasks := timerTasks;
     PreviousRunID := prevRunID;
     PreviousLastWriteVersion := prevLastWriteVersion;
     cw_ReplicationState := GetReplicationState msBuilder;
     cw_EventStoreVersion := GetEventStoreVersion msBuilder;
     cw_BranchToken := GetCurrentBranch msBuilder;
     cw_CreateWorkflowMode :=
       if negb isBrandNew
       then CreateWorkflowModeWorkflowIDReuse
       else CreateWorkflowModeBrandNew |}.

(** The closure [deleteHistory]; the errors of the two deletions are
    discarded by the source. *)
Definition deleteHistory (msBuilder0 msBuilder : MS) : M' unit :=
  if bool_decide (GetEventStoreVersion msBuilder = EventStoreVersionV2)
  then call (DeleteHistoryBranch (GetCurrentBranch msBuilder))
  else call (DeleteWorkflowExecutionHistory
               (ei_DomainID (GetExecutionInfo msBuilder0))
               (startedExecution msBuilder0)).

(** [replicateWorkflowStarted]; it also yields the transfer and timer tasks
    of the state builder as [setTaskInfo] has left them. *)
Definition replicateWorkflowStarted_
    (applyTask : workflowExecutionContext → MS → ReplicateEventsRequest → M' MS)
    (fuel : nat) (context : workflowExecutionContext) (msBuilder0 : MS)
    (di : option decisionInfo) (sourceCluster : string)
    (history : list HistoryEvent) (sBuilder : applyEventsResult MS Task NewRun) :
    M' (MS * list Task * list Task) :=
  let domainID := ei_DomainID (GetExecutionInfo msBuilder0) in
  let execution := startedExecution msBuilder0 in
  match head history, last history with
  | Some firstEvent, Some lastEvent =>
      let! transactionID := callE GetNextTransferTaskID in
      let! historySize :=
        appendStartedHistory msBuilder0 history firstEvent transactionID in
      let msBuilder := startedMutableState sourceCluster firstEvent lastEvent msBuilder0 in
      let incomingVersion := ev_Version firstEvent in
      let '(transferTasks, timerTasks) :=
        setTaskInfo (GetCurrentVersion msBuilder) (time_Unix0 (Timestamp lastEvent))
          (getTransferTasks sBuilder) (getTimerTasks sBuilder) in
      let createWorkflow (isBrandNew : bool) (prevRunID : string)
          (prevLastWriteVersion : Z) : M' unit :=
        callE (CreateWorkflowExecution
                 (createWorkflowRequest msBuilder0 msBuilder di historySize
                    transferTasks timerTasks isBrandNew prevRunID
                    prevLastWriteVersion)) in
      let done : M' (MS * list Task * list Task) :=
        ret (msBuilder, transferTasks, timerTasks) in
      let! r := try (createWorkflow true EmptyString 0) in
      match r with
      | inr _ => done
      | inl (persistence_WorkflowExecutionAlreadyStartedError
               currentRunID currentState currentLastWriteVersion) =>
          if bool_decide (currentRunID = RunId execution)
          then
            do! call (IncCounter ReplicateHistoryEventsScope
                        DuplicateReplicationEventsCounter) in
            done
          else if bool_decide (currentState = WorkflowStateCompleted)
          then
            do! createWorkflow false currentRunID currentLastWriteVersion in
            done
          else if currentLastWriteVersion >? incomingVersion
          then
            do! call (IncCounter ReplicateHistoryEventsScope
                        StaleReplicationEventsCounter) in
            do! deleteHistory msBuilder0 msBuilder in
            done
          else if currentLastWriteVersion =? incomingVersion
          then
            let! '(currentRunID, currentNextEventID, _) :=
              flushCurrentWorkflowBuffer_ applyTask fuel domainID
                (WorkflowId execution) in
            throw (newRetryTaskErrorWithHint ErrRetryExistingWorkflowMsg domainID
                     (WorkflowId execution) currentRunID currentNextEventID)
          else
            let incomingTimestamp := Timestamp lastEvent in
            let! r := try (terminateWorkflow_ applyTask domainID
                             (ei_WorkflowID (GetExecutionInfo msBuilder)) currentRunID
                             incomingVersion incomingTimestamp) in
            match r with
            | inl err =>
                if negb (isEntityNotExists err)
                then throw err
                else
                  do! createWorkflow false currentRunID incomingVersion in
                  done
            | inr _ =>
                do! createWorkflow false currentRunID incomingVersion in
                done
            end
      | inl err => throw err
      end
  | _, _ => throw (Panic "index out of range")
  end.

Definition ApplyReplicationTask_
    (applyTask : workflowExecutionContext → MS → ReplicateEventsRequest → M' MS)
    (fuel : nat) (context : workflowExecutionContext) (msBuilder : MS)
    (request : ReplicateEventsRequest) : M' MS :=
  if negb (IsWorkflowExecutionRunning msBuilder)
  then ret msBuilder
  else
    let! domainID := liftE (validateDomainUUID (DomainUUID request)) in
    if bool_decide (length (History request) = 0%nat)
    then ret msBuilder
    else
      let execution := req_WorkflowExecution request in
      let! requestID := call uuid_New in
      let newRunHistory := default [] (NewRunHistory request) in
      let! sBuilder :=
        callE (applyEvents msBuilder domainID requestID execution (History request)
                 newRunHistory (EventStoreVersion request)
                 (NewRunEventStoreVersion request)) in
      let msBuilder := ae_msBuilder sBuilder in
      let lastEvent := ae_lastEvent sBuilder in
      let di := ae_di sBuilder in
      let! msBuilder :=
        match ae_newRunStateBuilder sBuilder with
        | Some newRunStateBuilder =>
            let! transactionID := callE GetNextTransferTaskID in
            callE (appendFirstBatchHistoryForContinueAsNew context msBuilder
                     newRunStateBuilder transactionID)
        | None => ret msBuilder
        end in
      match head (History request) with
      | None => throw (Panic "index out of range")
      | Some firstEvent =>
          let! '(msBuilder, transferTasks, timerTasks) :=
            match ev_EventType firstEvent with
            | EventTypeWorkflowExecutionStarted =>
                replicateWorkflowStarted_ applyTask fuel context msBuilder di
                  (SourceCluster request) (History request) sBuilder
            | _ =>
                let! transactionID := callE GetNextTransferTaskID in
                let now := time_Unix0 (Timestamp lastEvent) in
                let! msBuilder :=
                  callE (replicateWorkflowExecution context msBuilder request
                           (getTransferTasks sBuilder) (getTimerTasks sBuilder)
                           (EventId lastEvent) transactionID now) in
                ret (msBuilder, getTransferTasks sBuilder, getTimerTasks sBuilder)
            end in
          let now := time_Unix0 (Timestamp lastEvent) in
          do! notify (SourceCluster request) now transferTasks timerTasks in
          ret msBuilder
      end.

(** [fuel] bounds the depth of the nested calls of [ApplyReplicationTask]:
    a call at depth [fuel + 1] is refused with [OutOfFuel]. *)
Fixpoint ApplyReplicationTask (fuel : nat) :
    workflowExecutionContext → MS → ReplicateEventsRequest → M' MS :=
  ApplyReplicationTask_
    (match fuel with
     | O => λ _ _ _, throw OutOfFuel
     | S fuel => ApplyReplicationTask fuel
     end)
    fuel.

Definition terminateWorkflow (fuel : nat) := terminateWorkflow_ (ApplyReplicationTask fuel).

Definition flushReplicationBuffer (fuel : nat) :=
  flushReplicationBuffer_ (ApplyReplicationTask fuel) fuel.

Definition flushCurrentWorkflowBuffer (fuel : nat) :=
  flushCurrentWorkflowBuffer_ (ApplyReplicationTask fuel) fuel.

Definition replicateWorkflowStarted (fuel : nat) :=
  replicateWorkflowStarted_ (ApplyReplicationTask fuel) fuel.

(** *** Conflict resolution *)

Definition conflictResolutionTerminateCurrentRunningIfNotSelf (fuel : nat)
    (msBuilder : MS) (incomingVersion incomingTimestamp : Z) : M' string :=
  if IsWorkflowExecutionRunning msBuilder
  then ret (ei_RunID (GetExecutionInfo msBuilder))
  else
    let domainID := ei_DomainID (GetExecutionInfo msBuilder) in
    let workflowID := ei_WorkflowID (GetExecutionInfo msBuilder) in
    let! resp := callE (GetCurrentExecution domainID workflowID) in
    let currentRunID := resp_RunID resp in
    let currentCloseStatus := resp_CloseStatus resp in
    if bool_decide (currentCloseStatus ≠ WorkflowCloseStatusNone)
    then ret currentRunID
    else
      do! terminateWorkflow fuel domainID workflowID currentRunID
            incomingVersion incomingTimestamp in
      ret currentRunID.

Definition resetMutableState (fuel : nat) (context : workflowExecutionContext)
    (msBuilder : MS) (lastEventID incomingVersion incomingTimestamp : Z) : M' MS :=
  do! call (IncCounter ReplicateHistoryEventsScope HistoryConflictsCounter) in
  let! currentRunID :=
    conflictResolutionTerminateCurrentRunningIfNotSelf fuel msBuilder
      incomingVersion incomingTimestamp in
  let! requestID := call uuid_New in
  callE (conflictResolver_reset context currentRunID requestID lastEventID
           (GetExecutionInfo msBuilder)).

(** [ApplyOtherEventsVersionChecking]: [None] is the nil builder, meaning
    that the batch has been dropped. *)
Definition ApplyOtherEventsVersionChecking (fuel : nat)
    (context : workflowExecutionContext) (msBuilder : MS)
    (request : ReplicateEventsRequest) (inRetry : bool) : M' (option MS) :=
  let incomingVersion := req_Version request in
  let replicationInfo := req_ReplicationInfo request in
  let rState := GetReplicationState msBuilder in
  if LastWriteVersion rState >? incomingVersion
  then
    do! call (IncCounter ReplicateHistoryEventsScope StaleReplicationEventsCounter) in
    do! garbageCollectSignals context msBuilder (History request) in
    ret None
  else if LastWriteVersion rState =? incomingVersion
  then ret (Some msBuilder)
  else
    let previousActiveCluster :=
      ClusterNameForFailoverVersion (LastWriteVersion rState) in
    if bool_decide (previousActiveCluster ≠ GetCurrentClusterName)
    then
      let! doDCMigration := canDoDCMigration (getDomainID context) in
      if IsVersionFromSameCluster incomingVersion (LastWriteVersion rState)
         && negb doDCMigration
      then ret (Some msBuilder)
      else
        let! dc := getDCState in
        if EnableDCMigration GetConfig dc
        then
          if doDCMigration && inRetry
          then ret (Some msBuilder)
          else if doDCMigration
          then
            let! expectedLastEventID :=
              callE (getLastMatchEventID context msBuilder request) in
            if expectedLastEventID <? LastWriteEventID (GetReplicationState msBuilder)
            then
              match last (History request) with
              | None => throw (Panic "index out of range")
              | Some lastEvent =>
                  let! msBuilder :=
                    resetMutableState fuel context msBuilder expectedLastEventID
                      (ev_Version lastEvent) (Timestamp lastEvent) in
                  ret (Some msBuilder)
              end
            else ret (Some msBuilder)
          else throw ErrMoreThan2DC
        else throw ErrMoreThan2DC
    else
      let resetToCheckpoint : M' (option MS) :=
        let '(lastValidVersion, lastValidEventID) :=
          getLatestCheckpoint replicationInfo (LastReplicationInfo rState) in
        if lastValidVersion =? EmptyVersion
        then throw ErrImpossibleLocalRemoteMissingReplicationInfo
        else
          match last (History request) with
          | None => throw (Panic "index out of range")
          | Some lastEvent =>
              let incomingTimestamp := Timestamp lastEvent in
              let! msBuilder :=
                resetMutableState fuel context msBuilder lastValidEventID
                  incomingVersion incomingTimestamp in
              ret (Some msBuilder)
          end in
      match replicationInfo !! previousActiveCluster with
      | None => resetToCheckpoint
      | Some ri =>
          if LastWriteVersion rState >? ri_Version ri
          then resetToCheckpoint
          else if LastWriteVersion rState <? ri_Version ri
          then throw ErrImpossibleRemoteClaimSeenHigherVersion
          else if ri_LastEventId ri >? LastWriteEventID rState
          then throw ErrCorruptedReplicationInfo
          else
            let! msBuilder := flushEventsBuffer context msBuilder in
            if (ri_LastEventId ri <? LastWriteEventID (GetReplicationState msBuilder))
               || HasBufferedEvents msBuilder
            then
              match last (History request) with
              | None => throw (Panic "index out of range")
              | Some lastEvent =>
                  let incomingTimestamp := Timestamp lastEvent in
                  let! msBuilder :=
                    resetMutableState fuel context msBuilder (ri_LastEventId ri)
                      incomingVersion incomingTimestamp in
                  ret (Some msBuilder)
              end
            else ret (Some msBuilder)
      end.

(** *** Ordered apply and buffering *)

Definition ApplyOtherEvents (fuel : nat) (context : workflowExecutionContext)
    (msBuilder : MS) (request : ReplicateEventsRequest) : M' MS :=
  let firstEventID := FirstEventId request in
  if firstEventID <? GetNextEventID msBuilder
  then
    do! call (IncCounter ReplicateHistoryEventsScope DuplicateReplicationEventsCounter) in
    ret msBuilder
  else if firstEventID >? GetNextEventID msBuilder
  then
    if negb (IsWorkflowExecutionRunning msBuilder)
    then ret msBuilder
    else if negb (ForceBufferEvents request)
    then
      throw (newRetryTaskErrorWithHint ErrRetryBufferEventsMsg
               (getDomainID context)
               (WorkflowId (getExecution context))
               (RunId (getExecution context))
               (GetNextEventID msBuilder))
    else
      do! call (RecordTimer ReplicateHistoryEventsScope BufferReplicationTaskTimer
                  (Z.of_nat (length (History request)))) in
      let buffer : M' MS :=
        let! msBuilder := liftE (BufferReplicationTask request msBuilder) in
        updateMutableStateOnly context msBuilder in
      match GetAllBufferedReplicationTasks msBuilder !! FirstEventId request with
      | Some bt =>
          if bt_Version bt >=? req_Version request
          then ret msBuilder
          else buffer
      | None => buffer
      end
  else
    let! msBuilder := ApplyReplicationTask fuel context msBuilder request in
    flushReplicationBuffer fuel context msBuilder.

Definition ApplyStartEvent (fuel : nat) (context : workflowExecutionContext)
    (request : ReplicateEventsRequest) : M' MS :=
  let msBuilder := getNewMutableState (req_Version request) in
  ApplyReplicationTask fuel context msBuilder request.

Definition ApplyOtherEventsMissingMutableState (fuel : nat)
    (domainID workflowID runID : string) (incomingVersion incomingTimestamp : Z)
    (request : ReplicateEventsRequest) : M' unit :=
  let! r := try (getCurrentWorkflowMutableState domainID workflowID) in
  match r with
  | inl err =>
      if negb (isEntityNotExists err)
      then throw err
      else throw (newRetryTaskErrorWithHint ErrWorkflowNotFoundMsg domainID workflowID
                    runID FirstEventID)
  | inr (currentContext, currentMutableState) =>
      let currentRunID := ei_RunID (GetExecutionInfo currentMutableState) in
      let currentLastWriteVersion := GetLastWriteVersion currentMutableState in
      do! call (release currentContext None) in
      if currentLastWriteVersion >? incomingVersion
      then call (IncCounter ReplicateHistoryEventsScope StaleReplicationEventsCounter)
      else if (currentLastWriteVersion <? incomingVersion) && negb (ResetWorkflow request)
      then
        let! r := try (terminateWorkflow fuel domainID workflowID currentRunID
                         incomingVersion incomingTimestamp) in
        match r with
        | inl err =>
            if negb (isEntityNotExists err)
            then throw err
            else throw (newRetryTaskErrorWithHint ErrWorkflowNotFoundMsg domainID
                          workflowID runID FirstEventID)
        | inr _ =>
            throw (newRetryTaskErrorWithHint ErrWorkflowNotFoundMsg domainID
                     workflowID runID FirstEventID)
        end
      else
        let! '(currentRunID, currentNextEventID, currentStillRunning) :=
          flushCurrentWorkflowBuffer fuel domainID workflowID in
        if currentStillRunning : bool
        then throw (newRetryTaskErrorWithHint ErrWorkflowNotFoundMsg domainID
                      workflowID currentRunID currentNextEventID)
        else if ResetWorkflow request
        then callE (ApplyResetEvent request domainID workflowID currentRunID)
        else throw (newRetryTaskErrorWithHint ErrWorkflowNotFoundMsg domainID
                      workflowID runID FirstEventID)
  end.

(** The deferred error translation of [ApplyEvents]. *)
Definition translateError (retError : Error) : Error :=
  match retError with
  | EntityNotExistsError => ErrRetryEntityNotExists
  | shared_WorkflowExecutionAlreadyStartedError => ErrRetryExecutionAlreadyStarted
  | persistence_WorkflowExecutionAlreadyStartedError _ _ _ =>
      ErrRetryExecutionAlreadyStarted
  | InternalFailureError _ => ErrInternalFailure
  | _ => retError
  end.

Definition deferTranslate {A} (m : M' A) : M' A :=
  λ s, match m s with
       | (inl retError, s') => (inl (translateError retError), s')
       | (inr a, s') => (inr a, s')
       end.

Definition ApplyEvents (fuel : nat) (request : ReplicateEventsRequest)
    (inRetry : bool) : M' unit :=
  do! call (RecordTimer ReplicateHistoryEventsScope ReplicationEventsSizeTimer
              (Z.of_nat (length (History request)))) in
  deferTranslate (
    match head (History request), last (History request) with
    | Some firstEvent, Some lastEvent =>
        let! domainID := liftE (validateDomainUUID (DomainUUID request)) in
        let execution := req_WorkflowExecution request in
        let! context :=
          callE (getOrCreateWorkflowExecutionWithTimeout domainID execution) in
        deferRelease context (
          match ev_EventType firstEvent with
          | EventTypeWorkflowExecutionStarted =>
              let! r := call (loadWorkflowExecution context) in
              match r with
              | inr _ =>
                  call (IncCounter ReplicateHistoryEventsScope
                          DuplicateReplicationEventsCounter)
              | inl err =>
                  if negb (isEntityNotExists err)
                  then throw err
                  else do! ApplyStartEvent fuel context request in ret tt
              end
          | _ =>
              let! r := call (loadWorkflowExecution context) in
              match r with
              | inl err =>
                  if negb (isEntityNotExists err)
                  then throw err
                  else
                    do! call (release context (Some err)) in
                    ApplyOtherEventsMissingMutableState fuel domainID
                      (WorkflowId (req_WorkflowExecution request))
                      (RunId (req_WorkflowExecution request))
                      (ev_Version firstEvent) (Timestamp lastEvent) request
              | inr msBuilder =>
                  let! msBuilder := flushReplicationBuffer fuel context msBuilder in
                  let! msBuilder :=
                    ApplyOtherEventsVersionChecking fuel context msBuilder request
                      inRetry in
                  match msBuilder with
                  | None => ret tt
                  | Some msBuilder =>
                      do! ApplyOtherEvents fuel context msBuilder request in ret tt
                  end
              end
          end)
    | _, _ =>
        call (IncCounter ReplicateHistoryEventsScope EmptyReplicationEventsCounter)
    end).


(** *** SyncActivity *)

(** The end of [SyncActivity], from the computation of
    [resetActivityTimerTaskStatus] on: the update of the activity. *)
Definition SyncActivity_update (context : workflowExecutionContext)
    (msBuilder : MS) (ai : ActivityInfo) (request : SyncActivityRequest) : M' unit :=
  let resetActivityTimerTaskStatus :=
    if negb (IsVersionFromSameCluster (sa_Version request) (ai_Version ai))
    then true
    else if ai_Attempt ai <? sa_Attempt request
    then true
    else false in
  let! msBuilder :=
    liftE (ReplicateActivityInfo request resetActivityTimerTaskStatus msBuilder) in
  let eventTime := ScheduledTime request in
  let eventTime :=
    if eventTime <? StartedTime request then StartedTime request else eventTime in
  let eventTime :=
    if eventTime <? LastHeartbeatTime request
    then LastHeartbeatTime request else eventTime in
  let now := time_Unix0 eventTime in
  let '(tt_, msBuilder) := GetActivityTimerTaskIfNeeded now msBuilder in
  let timerTasks := match tt_ with Some t => [t] | None => [] end in
  do! updateMutableStateWithTimer context msBuilder now timerTasks in
  ret tt.

Definition SyncActivity (request : SyncActivityRequest) : M' unit :=
  let domainID := sa_DomainId request in
  let execution := {| WorkflowId := sa_WorkflowId request; RunId := sa_RunId request |} in
  let! context := callE (getOrCreateWorkflowExecutionWithTimeout domainID execution) in
  deferRelease context (
    let! r := call (loadWorkflowExecution context) in
    match r with
    | inl err => if negb (isEntityNotExists err) then throw err else ret tt
    | inr msBuilder =>
        if negb (IsWorkflowExecutionRunning msBuilder)
        then ret tt
        else
          let version := sa_Version request in
          let scheduleID := ScheduledId request in
          if scheduleID >=? GetNextEventID msBuilder
          then
            if version <? GetLastWriteVersion msBuilder
            then ret tt
            else throw (newRetryTaskErrorWithHint ErrRetrySyncActivityMsg domainID
                          (WorkflowId execution) (RunId execution)
                          (GetNextEventID msBuilder))
          else
            match GetActivityInfo msBuilder scheduleID with
            | None => ret tt
            | Some ai =>
                if ai_Version ai >? sa_Version request
                then ret tt
                else if (ai_Version ai =? sa_Version request)
                        && (ai_Attempt ai >? sa_Attempt request)
                then ret tt
                else if (ai_Version ai =? sa_Version request)
                        && (ai_Attempt ai =? sa_Attempt request)
                        && time_After (LastHeartBeatUpdatedTime ai)
                             (time_Unix0 (LastHeartbeatTime request))
                then ret tt
                else SyncActivity_update context msBuilder ai request
            end
    end).
End Replicator.

(** ** Notions used to state the properties *)

Section Specification.
Context {MS : Type} `{!mutableState MS}.

(** The strict lexicographic order on triples
    (version, attempt, last heartbeat). *)
Definition lex_ltb (a b : Z * Z * Z) : bool :=
  let '(v1, a1, h1) := a in
  let '(v2, a2, h2) := b in
  (v1 <? v2) || ((v1 =? v2) && ((a1 <? a2) || ((a1 =? a2) && (h1 <? h2)))).

Definition isSignaled (event : HistoryEvent) : bool :=
  bool_decide (ev_EventType event = EventTypeWorkflowExecutionSignaled).

(** The mutable state after each signal of a batch has been added to it, in
    the order of the batch. *)
Fixpoint addSignals (events : list HistoryEvent) (msBuilder : MS) : MS :=
  match events with
  | [] => msBuilder
  | event :: events =>
      match isSignaled event, ev_Signaled event with
      | true, Some attr =>
          addSignals events
            (AddWorkflowExecutionSignaled
               (SignalName attr) (sig_Input attr) (sig_Identity attr) msBuilder).2
      | _, _ => addSignals events msBuilder
      end
  end.

(** Every signal of the batch carries its attributes and is accepted by the
    mutable state it is added to. *)
Fixpoint signalsAccepted (events : list HistoryEvent) (msBuilder : MS) : Prop :=
  match events with
  | [] => True
  | event :: events =>
      if isSignaled event
      then
        match ev_Signaled event with
        | None => False
        | Some attr =>
            match AddWorkflowExecutionSignaled
                    (SignalName attr) (sig_Input attr) (sig_Identity attr) msBuilder with
            | (None, _) => False
            | (Some _, msBuilder) => signalsAccepted events msBuilder
            end
        end
      else signalsAccepted events msBuilder
  end.

(** The entries of a replication-info map. *)
Definition entryOf (m : gmap string ReplicationInfo) (ri : ReplicationInfo) : Prop :=
  ∃ cluster, m !! cluster = Some ri.
End Specification.

Section Checkpoint.
Context `{!Constants}.

(** [acc] is the start value when nothing has been visited, and else a
    visited entry of maximal version. *)
Definition checkpointOf (visited : list ReplicationInfo) (acc : Z * Z) : Prop :=
  (visited = [] ∧ acc = (EmptyVersion, EmptyEventID)) ∨
  (∃ ri, ri ∈ visited ∧ acc = (ri_Version ri, ri_LastEventId ri) ∧
         ∀ ri', ri' ∈ visited → ri_Version ri' ≤ ri_Version ri).
End Checkpoint.


(** The calls issued by [notify]: the standby clock and the two queue
    processors. *)
Definition isNotify {MS Task NewRun : Type} (c : Logged MS Task NewRun) : bool :=
  match projT2 c with
  | SetCurrentTime _ _ | NotifyNewTask _ _ | NotifyNewTimers _ _ _ => true
  | _ => false
  end.
(** ** An in-memory implementation of the collaborators

    Used to run the replicator on concrete executions.  Two clusters, ["A"]
    (the current one) and ["B"], with failover versions 0, 20, 40, ... and
    10, 30, 50, ...; one workflow id per world, whose runs are kept by run
    id. *)

Module Ref.

(** Modelled from the spec: the constants of package [common] and of the
    persistence layer are outside the sources (event ids are 1-based,
    section 3); the reserved values are those of cadence. *)
#[export] Instance constants : Constants := {|
  EmptyVersion := -24;
  EmptyEventID := -23;
  FirstEventID := 1;
  EncodingTypeThriftRW := 0;
  EventStoreVersionV2 := 2;
  WorkflowStateCompleted := 2;
  WorkflowCloseStatusNone := 0;
  identityHistoryService := "history-service" |}.

Definition failoverVersionIncrement : Z := 20.

(** Modelled from the spec: cluster-version arithmetic (section 4.1), two
    versions belong to the same cluster iff they agree modulo the failover
    increment. *)
#[export] Instance metadata : Metadata := {|
  ClusterNameForFailoverVersion v :=
    if v `mod` failoverVersionIncrement =? 0 then "A"
    else if v `mod` failoverVersionIncrement =? 10 then "B"
    else EmptyString;
  GetCurrentClusterName := "A";
  IsVersionFromSameCluster v1 v2 :=
    (v1 - v2) `mod` failoverVersionIncrement =? 0 |}.

(** Modelled from the spec: the mutable state of one run (section 3). *)
Record MS := {
  ms_running : bool;
  ms_nextEventID : Z;
  ms_replicationState : ReplicationState;
  ms_executionInfo : WorkflowExecutionInfo;
  ms_activities : gmap Z ActivityInfo;
  ms_inFlightDecision : option decisionInfo;
  ms_bufferedEvents : list HistoryEvent;
  ms_bufferedReplicationTasks : gmap Z BufferedReplicationTask;
  ms_eventStoreVersion : Z;
  ms_branch : string;
  ms_signalCount : Z }.

Definition set_replicationState (f : ReplicationState → ReplicationState) (ms : MS) :=
  {| ms_running := ms_running ms;
     ms_nextEventID := ms_nextEventID ms;
     ms_replicationState := f (ms_replicationState ms);
     ms_executionInfo := ms_executionInfo ms;
     ms_activities := ms_activities ms;
     ms_inFlightDecision := ms_inFlightDecision ms;
     ms_bufferedEvents := ms_bufferedEvents ms;
     ms_bufferedReplicationTasks := ms_bufferedReplicationTasks ms;
     ms_eventStoreVersion := ms_eventStoreVersion ms;
     ms_branch := ms_branch ms;
     ms_signalCount := ms_signalCount ms |}.

Definition set_nextEventID (n : Z) (ms : MS) :=
  {| ms_running := ms_running ms;
     ms_nextEventID := n;
     ms_replicationState := ms_replicationState ms;
     ms_executionInfo := ms_executionInfo ms;
     ms_activities := ms_activities ms;
     ms_inFlightDecision := ms_inFlightDecision ms;
     ms_bufferedEvents := ms_bufferedEvents ms;
     ms_bufferedReplicationTasks := ms_bufferedReplicationTasks ms;
     ms_eventStoreVersion := ms_eventStoreVersion ms;
     ms_branch := ms_branch ms;
     ms_signalCount := ms_signalCount ms |}.

Definition set_running (b : bool) (ms : MS) :=
  {| ms_running := b;
     ms_nextEventID := ms_nextEventID ms;
     ms_replicationState := ms_replicationState ms;
     ms_executionInfo := ms_executionInfo ms;
     ms_activities := ms_activities ms;
     ms_inFlightDecision := ms_inFlightDecision ms;
     ms_bufferedEvents := ms_bufferedEvents ms;
     ms_bufferedReplicationTasks := ms_bufferedReplicationTasks ms;
     ms_eventStoreVersion := ms_eventStoreVersion ms;
     ms_branch := ms_branch ms;
     ms_signalCount := ms_signalCount ms |}.

Definition set_activities (f : gmap Z ActivityInfo → gmap Z ActivityInfo) (ms : MS) :=
  {| ms_running := ms_running ms;
     ms_nextEventID := ms_nextEventID ms;
     ms_replicationState := ms_replicationState ms;
     ms_executionInfo := ms_executionInfo ms;
     ms_activities := f (ms_activities ms);
     ms_inFlightDecision := ms_inFlightDecision ms;
     ms_bufferedEvents := ms_bufferedEvents ms;
     ms_bufferedReplicationTasks := ms_bufferedReplicationTasks ms;
     ms_eventStoreVersion := ms_eventStoreVersion ms;
     ms_branch := ms_branch ms;
     ms_signalCount := ms_signalCount ms |}.

Definition set_inFlightDecision (d : option decisionInfo) (ms : MS) :=
  {| ms_running := ms_running ms;
     ms_nextEventID := ms_nextEventID ms;
     ms_replicationState := ms_replicationState ms;
     ms_executionInfo := ms_executionInfo ms;
     ms_activities := ms_activities ms;
     ms_inFlightDecision := d;
     ms_bufferedEvents := ms_bufferedEvents ms;
     ms_bufferedReplicationTasks := ms_bufferedReplicationTasks ms;
     ms_eventStoreVersion := ms_eventStoreVersion ms;
     ms_branch := ms_branch ms;
     ms_signalCount := ms_signalCount ms |}.

Definition set_bufferedEvents (l : list HistoryEvent) (ms : MS) :=
  {| ms_running := ms_running ms;
     ms_nextEventID := ms_nextEventID ms;
     ms_replicationState := ms_replicationState ms;
     ms_executionInfo := ms_executionInfo ms;
     ms_activities := ms_activities ms;
     ms_inFlightDecision := ms_inFlightDecision ms;
     ms_bufferedEvents := l;
     ms_bufferedReplicationTasks := ms_bufferedReplicationTasks ms;
     ms_eventStoreVersion := ms_eventStoreVersion ms;
     ms_branch := ms_branch ms;
     ms_signalCount := ms_signalCount ms |}.

Definition set_bufferedReplicationTasks
    (f : gmap Z BufferedReplicationTask → gmap Z BufferedReplicationTask) (ms : MS) :=
  {| ms_running := ms_running ms;
     ms_nextEventID := ms_nextEventID ms;
     ms_replicationState := ms_replicationState ms;
     ms_executionInfo := ms_executionInfo ms;
     ms_activities := ms_activities ms;
     ms_inFlightDecision := ms_inFlightDecision ms;
     ms_bufferedEvents := ms_bufferedEvents ms;
     ms_bufferedReplicationTasks := f (ms_bufferedReplicationTasks ms);
     ms_eventStoreVersion := ms_eventStoreVersion ms;
     ms_branch := ms_branch ms;
     ms_signalCount := ms_signalCount ms |}.

Definition set_executionInfo (i : WorkflowExecutionInfo) (ms : MS) :=
  {| ms_running := ms_running ms;
     ms_nextEventID := ms_nextEventID ms;
     ms_replicationState := ms_replicationState ms;
     ms_executionInfo := i;
     ms_activities := ms_activities ms;
     ms_inFlightDecision := ms_inFlightDecision ms;
     ms_bufferedEvents := ms_bufferedEvents ms;
     ms_bufferedReplicationTasks := ms_bufferedReplicationTasks ms;
     ms_eventStoreVersion := ms_eventStoreVersion ms;
     ms_branch := ms_branch ms;
     ms_signalCount := ms_signalCount ms |}.

Definition set_signalCount (n : Z) (ms : MS) :=
  {| ms_running := ms_running ms;
     ms_nextEventID := ms_nextEventID ms;
     ms_replicationState := ms_replicationState ms;
     ms_executionInfo := ms_executionInfo ms;
     ms_activities := ms_activities ms;
     ms_inFlightDecision := ms_inFlightDecision ms;
     ms_bufferedEvents := ms_bufferedEvents ms;
     ms_bufferedReplicationTasks := ms_bufferedReplicationTasks ms;
     ms_eventStoreVersion := ms_eventStoreVersion ms;
     ms_branch := ms_branch ms;
     ms_signalCount := n |}.

Definition signaledEvent (name input identity : string) (ms : MS) : HistoryEvent :=
  {| EventId := ms_nextEventID ms + Z.of_nat (length (ms_bufferedEvents ms));
     Timestamp := 0;
     ev_Version := CurrentVersion (ms_replicationState ms);
     ev_EventType := EventTypeWorkflowExecutionSignaled;
     ev_Signaled :=
       Some {| SignalName := name; sig_Input := input; sig_Identity := identity |};
     ev_Terminated := None |}.

Definition bufferedTask (request : ReplicateEventsRequest) : BufferedReplicationTask :=
  {| bt_FirstEventID := FirstEventId request;
     bt_NextEventID := NextEventId request;
     bt_Version := req_Version request;
     bt_History := History request;
     bt_NewRunHistory := default [] (NewRunHistory request);
     bt_EventStoreVersion := EventStoreVersion request;
     bt_NewRunEventStoreVersion := NewRunEventStoreVersion request |}.

Definition replicatedActivity (request : SyncActivityRequest) (reset : bool)
    (ai : ActivityInfo) : ActivityInfo :=
  {| ai_Version := sa_Version request;
     ScheduleID := ScheduleID ai;
     ai_Attempt := sa_Attempt request;
     LastHeartBeatUpdatedTime := time_Unix0 (LastHeartbeatTime request);
     TimerTaskStatus := if reset then 0 else TimerTaskStatus ai |}.

(** Modelled from the spec: the operations of the mutable-state builder
    (section 4.4), each a local mutation of the in-memory state.  Events
    added while the run is open wait in the buffer until the next persisted
    update gives them their ids; a signal also counts in [ms_signalCount]. *)
#[export] Instance mutable_state : mutableState MS := {|
  IsWorkflowExecutionRunning := ms_running;
  GetNextEventID := ms_nextEventID;
  GetLastWriteVersion ms := LastWriteVersion (ms_replicationState ms);
  GetCurrentVersion ms := CurrentVersion (ms_replicationState ms);
  GetReplicationState := ms_replicationState;
  GetExecutionInfo := ms_executionInfo;
  GetActivityInfo ms scheduleID := ms_activities ms !! scheduleID;
  GetInFlightDecisionTask := ms_inFlightDecision;
  HasBufferedEvents ms := negb (bool_decide (ms_bufferedEvents ms = []));
  HasBufferedReplicationTasks ms :=
    negb (bool_decide (map_to_list (ms_bufferedReplicationTasks ms) = []));
  GetAllBufferedReplicationTasks := ms_bufferedReplicationTasks;
  GetEventStoreVersion := ms_eventStoreVersion;
  GetCurrentBranch := ms_branch;
  UpdateReplicationStateVersion version forceUpdate :=
    set_replicationState (λ rs,
      {| CurrentVersion :=
           if forceUpdate || (version >? CurrentVersion rs)
           then version else CurrentVersion rs;
         LastWriteVersion := LastWriteVersion rs;
         LastWriteEventID := LastWriteEventID rs;
         LastReplicationInfo := LastReplicationInfo rs |});
  UpdateReplicationStateLastEventID clusterName lastWriteVersion lastEventID :=
    set_replicationState (λ rs,
      {| CurrentVersion := CurrentVersion rs;
         LastWriteVersion := lastWriteVersion;
         LastWriteEventID := lastEventID;
         LastReplicationInfo :=
           if bool_decide (clusterName = "A")
           then LastReplicationInfo rs
           else <[clusterName := {| ri_Version := lastWriteVersion;
                                    ri_LastEventId := lastEventID |}]>
                  (LastReplicationInfo rs) |});
  AddDecisionTaskFailedEvent _ _ _ _ _ _ _ _ _ ms :=
    set_inFlightDecision None (set_nextEventID (ms_nextEventID ms + 1) ms);
  AddWorkflowExecutionSignaled name input identity ms :=
    (Some (signaledEvent name input identity ms),
     set_signalCount (ms_signalCount ms + 1)
       (set_bufferedEvents
          (ms_bufferedEvents ms ++ [signaledEvent name input identity ms]) ms));
  BufferReplicationTask request ms :=
    inr (set_bufferedReplicationTasks
           (λ m, <[FirstEventId request := bufferedTask request]> m) ms);
  DeleteBufferedReplicationTask firstEventID :=
    set_bufferedReplicationTasks (λ m, delete firstEventID m);
  ReplicateActivityInfo request resetActivityTimerTaskStatus ms :=
    inr (set_activities
           (λ m, alter (replicatedActivity request resetActivityTimerTaskStatus)
                       (ScheduledId request) m) ms);
  SetLastFirstEventID _ ms := ms;
  SetNextEventID := set_nextEventID |}.


(** Modelled from the spec: the storage contract and the caches
    (sections 4.3, 4.5 and 6).  The world keeps the runs of one workflow by
    run id, the run that is current, the transfer-task sequencer, the
    standby clock per cluster, the dynamic-config values by key number and
    the batches that the serializer decodes. *)
Record World := {
  w_executions : gmap string MS;
  w_currentRun : string;
  w_nextTransferTaskID : Z;
  w_standbyTime : gmap string Z;
  w_dynamicConfig : gmap Z Z;
  w_blobs : gmap string (list HistoryEvent) }.

Definition set_executions (f : gmap string MS → gmap string MS) (w : World) :=
  {| w_executions := f (w_executions w);
     w_currentRun := w_currentRun w;
     w_nextTransferTaskID := w_nextTransferTaskID w;
     w_standbyTime := w_standbyTime w;
     w_dynamicConfig := w_dynamicConfig w;
     w_blobs := w_blobs w |}.

Definition set_currentRun (r : string) (w : World) :=
  {| w_executions := w_executions w;
     w_currentRun := r;
     w_nextTransferTaskID := w_nextTransferTaskID w;
     w_standbyTime := w_standbyTime w;
     w_dynamicConfig := w_dynamicConfig w;
     w_blobs := w_blobs w |}.

Definition set_nextTransferTaskID (n : Z) (w : World) :=
  {| w_executions := w_executions w;
     w_currentRun := w_currentRun w;
     w_nextTransferTaskID := n;
     w_standbyTime := w_standbyTime w;
     w_dynamicConfig := w_dynamicConfig w;
     w_blobs := w_blobs w |}.

Definition set_standbyTime (f : gmap string Z → gmap string Z) (w : World) :=
  {| w_executions := w_executions w;
     w_currentRun := w_currentRun w;
     w_nextTransferTaskID := w_nextTransferTaskID w;
     w_standbyTime := f (w_standbyTime w);
     w_dynamicConfig := w_dynamicConfig w;
     w_blobs := w_blobs w |}.

Definition set_dynamicConfig (f : gmap Z Z → gmap Z Z) (w : World) :=
  {| w_executions := w_executions w;
     w_currentRun := w_currentRun w;
     w_nextTransferTaskID := w_nextTransferTaskID w;
     w_standbyTime := w_standbyTime w;
     w_dynamicConfig := f (w_dynamicConfig w);
     w_blobs := w_blobs w |}.

Definition store (context : workflowExecutionContext) (ms : MS) (w : World) : World :=
  set_executions (λ m, <[RunId (getExecution context) := ms]> m) w.

(** A persisted update gives the buffered events their ids. *)
Definition persisted (ms : MS) : MS :=
  let next := ms_nextEventID ms + Z.of_nat (length (ms_bufferedEvents ms)) in
  set_bufferedEvents []
    (set_nextEventID next
       (set_replicationState (λ rs,
          {| CurrentVersion := CurrentVersion rs;
             LastWriteVersion := CurrentVersion rs;
             LastWriteEventID := next - 1;
             LastReplicationInfo := LastReplicationInfo rs |}) ms)).

Definition replicated (request : ReplicateEventsRequest) (lastEventID : Z) (ms : MS) : MS :=
  set_nextEventID (lastEventID + 1)
    (UpdateReplicationStateLastEventID (SourceCluster request) (req_Version request)
       lastEventID
       (UpdateReplicationStateVersion (req_Version request) true ms)).

(** The conflict resolver replays the history up to [replayEventID]. *)
Definition rebuilt (replayEventID : Z) (ms : MS) : MS :=
  set_bufferedEvents []
    (set_inFlightDecision None
       (set_running true
          (set_nextEventID (replayEventID + 1)
             (set_replicationState (λ rs,
                {| CurrentVersion := CurrentVersion rs;
                   LastWriteVersion := LastWriteVersion rs;
                   LastWriteEventID := replayEventID;
                   LastReplicationInfo := LastReplicationInfo rs |}) ms)))).

Definition emptyEvent : HistoryEvent :=
  {| EventId := 0; Timestamp := 0; ev_Version := 0;
     ev_EventType := EventTypeDecisionTaskScheduled;
     ev_Signaled := None; ev_Terminated := None |}.

Definition closes (event : HistoryEvent) : bool :=
  match ev_EventType event with
  | EventTypeWorkflowExecutionTerminated
  | EventTypeWorkflowExecutionContinuedAsNew => true
  | _ => false
  end.

(** The state builder applies a batch: a start event names the execution,
    a terminal event closes the run. *)
Definition applied (domainID : string) (execution : WorkflowExecution)
    (history : list HistoryEvent) (ms : MS) : MS :=
  let ms :=
    match head history with
    | Some first =>
        match ev_EventType first with
        | EventTypeWorkflowExecutionStarted =>
            set_executionInfo
              {| ei_DomainID := domainID;
                 ei_WorkflowID := WorkflowId execution;
                 ei_RunID := RunId execution;
                 ParentDomainID := ParentDomainID (ms_executionInfo ms);
                 ParentWorkflowID := ParentWorkflowID (ms_executionInfo ms);
                 ParentRunID := ParentRunID (ms_executionInfo ms);
                 InitiatedID := InitiatedID (ms_executionInfo ms);
                 TaskList := TaskList (ms_executionInfo ms);
                 WorkflowTypeName := WorkflowTypeName (ms_executionInfo ms);
                 WorkflowTimeout := WorkflowTimeout (ms_executionInfo ms);
                 DecisionTimeoutValue := DecisionTimeoutValue (ms_executionInfo ms);
                 CreateRequestID := CreateRequestID (ms_executionInfo ms) |} ms
        | _ => ms
        end
    | None => ms
    end in
  if closes (default emptyEvent (last history)) then set_running false ms else ms.

Definition handler (A : Type) (c : Call MS Z unit A) (w : World) : A * World :=
  match c in Call _ _ _ A return A * World with
  | getOrCreateWorkflowExecutionWithTimeout domainID execution =>
      (inr {| getDomainID := domainID;
              getExecution :=
                if bool_decide (RunId execution = EmptyString)
                then {| WorkflowId := WorkflowId execution; RunId := w_currentRun w |}
                else execution |}, w)
  | loadWorkflowExecution context =>
      (match w_executions w !! RunId (getExecution context) with
       | Some ms => inr ms
       | None => inl EntityNotExistsError
       end, w)
  | release _ _ => (tt, w)
  | updateHelper context ms _ _ _ _ => (inr ms, store context ms w)
  | updateWorkflowExecution context ms _ =>
      (inr (persisted ms), store context (persisted ms) w)
  | replicateWorkflowExecution context ms request _ _ lastEventID _ _ =>
      (inr (replicated request lastEventID ms),
       store context (replicated request lastEventID ms) w)
  | appendFirstBatchHistoryForContinueAsNew _ ms _ _ => (inr ms, w)
  | applyEvents ms domainID _ execution history _ _ _ =>
      (inr {| ae_lastEvent := default emptyEvent (last history);
              ae_di := None;
              ae_newRunStateBuilder := None;
              getTransferTasks := [];
              getTimerTasks := [];
              ae_msBuilder := applied domainID execution history ms |}, w)
  | conflictResolver_reset context _ _ replayEventID _ =>
      match w_executions w !! RunId (getExecution context) with
      | Some ms => (inr (rebuilt replayEventID ms), store context (rebuilt replayEventID ms) w)
      | None => (inl EntityNotExistsError, w)
      end
  | ApplyResetEvent _ _ _ _ => (inr tt, w)
  | getLastMatchEventID _ ms _ => (inr (LastWriteEventID (ms_replicationState ms)), w)
  | GetNextTransferTaskID =>
      (inr (w_nextTransferTaskID w), set_nextTransferTaskID (w_nextTransferTaskID w + 1) w)
  | AppendHistoryV2Events request _ => (inr (Z.of_nat (length (ahn_Events request))), w)
  | AppendHistoryEvents request => (inr (Z.of_nat (length (ahe_Events request))), w)
  | CreateWorkflowExecution request =>
      match cw_CreateWorkflowMode request, w_executions w !! w_currentRun w with
      | CreateWorkflowModeBrandNew, Some current =>
          (inl (persistence_WorkflowExecutionAlreadyStartedError (w_currentRun w)
                  (if ms_running current then 1 else 2)
                  (LastWriteVersion (ms_replicationState current))), w)
      | _, _ => (inr tt, set_currentRun (RunId (cw_Execution request)) w)
      end
  | DeleteHistoryBranch _ => (tt, w)
  | DeleteWorkflowExecutionHistory _ _ => (tt, w)
  | GetCurrentExecution _ _ =>
      match w_executions w !! w_currentRun w with
      | Some current =>
          (inr {| resp_RunID := w_currentRun w;
                  resp_CloseStatus := if ms_running current then 0 else 1 |}, w)
      | None => (inl EntityNotExistsError, w)
      end
  | SetCurrentTime clusterName now =>
      (tt, set_standbyTime (λ m,
             <[clusterName := Z.max now (default now (m !! clusterName))]> m) w)
  | NotifyNewTask _ _ => (tt, w)
  | NotifyNewTimers _ _ _ => (tt, w)
  | GetDomainByID _ => (inr ["A"; "B"]%string, w)
  | DeserializeBatchEvents data =>
      (match w_blobs w !! data with
       | Some events => inr events
       | None => inl (OtherError "cannot decode")
       end, w)
  | IncCounter _ _ => (tt, w)
  | RecordTimer _ _ _ => (tt, w)
  | uuid_New => ("00000000-0000-0000-0000-000000000000"%string, w)
  end.

(** Modelled from the spec: a dynamic-config property reads the value
    registered under its key and falls back to its default (section 6,
    operational configuration). *)
#[export] Instance collection : Collection unit (gmap Z Z) := {|
  GetBoolProperty _ key defaultValue st :=
    match st !! dynamicconfig.Key_value key with
    | Some v => negb (v =? 0)
    | None => defaultValue
    end;
  GetIntProperty _ key defaultValue st :=
    default defaultValue (st !! dynamicconfig.Key_value key);
  GetIntPropertyFilteredByDomain _ key defaultValue _ st :=
    default defaultValue (st !! dynamicconfig.Key_value key);
  GetDurationProperty _ key defaultValue st :=
    default defaultValue (st !! dynamicconfig.Key_value key) |}.

#[export] Instance services : Services MS Z unit World (gmap Z Z) := {|
  handle := handler;
  dcState := w_dynamicConfig;
  GetConfig := NewConfig tt 4 false;
  validateDomainUUID domainUUID :=
    if bool_decide (domainUUID = EmptyString)
    then inl (BadRequestError "Missing domain UUID.")
    else inr domainUUID;
  getNewMutableState version :=
    {| ms_running := true;
       ms_nextEventID := 1;
       ms_replicationState :=
         {| CurrentVersion := version;
            LastWriteVersion := -24;
            LastWriteEventID := -23;
            LastReplicationInfo := ∅ |};
       ms_executionInfo :=
         {| ei_DomainID := EmptyString; ei_WorkflowID := EmptyString; ei_RunID := EmptyString;
            ParentDomainID := EmptyString; ParentWorkflowID := EmptyString; ParentRunID := EmptyString;
            InitiatedID := -23; TaskList := EmptyString; WorkflowTypeName := EmptyString;
            WorkflowTimeout := 0; DecisionTimeoutValue := 0; CreateRequestID := EmptyString |};
       ms_activities := ∅;
       ms_inFlightDecision := None;
       ms_bufferedEvents := [];
       ms_bufferedReplicationTasks := ∅;
       ms_eventStoreVersion := 0;
       ms_branch := EmptyString;
       ms_signalCount := 0 |};
  setTaskInfo _ _ transferTasks timerTasks := (transferTasks, timerTasks);
  GetActivityTimerTaskIfNeeded _ ms := (None, ms);
  historyGarbageCleanupInfo domainID workflowID runID :=
    (domainID +:+ ":" +:+ workflowID +:+ ":" +:+ runID)%string;
  rangeReplicationInfo := map_to_list;
  rangeReplicationInfo_perm m := Permutation_refl (map_to_list m);
  rangeBufferedReplicationTasks := map_to_list;
  rangeBufferedReplicationTasks_perm m := Permutation_refl (map_to_list m) |}.

End Ref.

(** ** Concrete executions

    The runs, requests and worlds of the scenarios of the specification
    (section 8), on the in-memory implementation: run ["R1"] of workflow
    ["wf"] in domain ["d"], the current cluster ["A"] and its peer ["B"]. *)

Module Scenario.
Import Ref.

Definition info (runID : string) : WorkflowExecutionInfo :=
  {| ei_DomainID := "d"; ei_WorkflowID := "wf"; ei_RunID := runID;
     ParentDomainID := EmptyString; ParentWorkflowID := EmptyString; ParentRunID := EmptyString;
     InitiatedID := -23; TaskList := "tl"; WorkflowTypeName := "type";
     WorkflowTimeout := 60; DecisionTimeoutValue := 10; CreateRequestID := "create" |}.

(** A run with last write [(lastWriteVersion, lastWriteEventID)] that has
    seen the peer up to [(10, 3)]. *)
Definition run (running : bool) (lastWriteVersion lastWriteEventID : Z)
    (buffered : list HistoryEvent) (inFlight : option decisionInfo) : MS :=
  {| ms_running := running;
     ms_nextEventID := lastWriteEventID + 1;
     ms_replicationState :=
       {| CurrentVersion := lastWriteVersion;
          LastWriteVersion := lastWriteVersion;
          LastWriteEventID := lastWriteEventID;
          LastReplicationInfo :=
            {[ "B"%string := {| ri_Version := 10; ri_LastEventId := 3 |} ]} |};
     ms_executionInfo := info "R1";
     ms_activities :=
       {[ 7 := {| ai_Version := 10; ScheduleID := 7; ai_Attempt := 0;
                  LastHeartBeatUpdatedTime := 5000; TimerTaskStatus := 3 |} ]};
     ms_inFlightDecision := inFlight;
     ms_bufferedEvents := buffered;
     ms_bufferedReplicationTasks := ∅;
     ms_eventStoreVersion := 0;
     ms_branch := EmptyString;
     ms_signalCount := 0 |}.

Definition event (id version : Z) (type : EventType) : HistoryEvent :=
  {| EventId := id; Timestamp := 1000; ev_Version := version; ev_EventType := type;
     ev_Signaled := None; ev_Terminated := None |}.

Definition signal (id version : Z) (name : string) : HistoryEvent :=
  {| EventId := id; Timestamp := 1000; ev_Version := version;
     ev_EventType := EventTypeWorkflowExecutionSignaled;
     ev_Signaled := Some {| SignalName := name; sig_Input := EmptyString; sig_Identity := "peer" |};
     ev_Terminated := None |}.

Definition state (ms : MS) : St MS Z unit World :=
  {| world :=
       {| w_executions := {[ "R1"%string := ms ]};
          w_currentRun := "R1";
          w_nextTransferTaskID := 100;
          w_standbyTime := ∅;
          w_dynamicConfig := ∅;
          w_blobs :=
            {[ "batch"%string := [event 4 10 EventTypeDecisionTaskCompleted];
               "empty"%string := [] ]} |};
     calls := [] |}.

Definition context : workflowExecutionContext :=
  {| getDomainID := "d"; getExecution := {| WorkflowId := "wf"; RunId := "R1" |} |}.

Definition batch (version first : Z) (history : list HistoryEvent)
    (replicationInfo : gmap string ReplicationInfo) (force : bool) :
    ReplicateEventsRequest :=
  {| SourceCluster := "B";
     DomainUUID := "d";
     req_WorkflowExecution := {| WorkflowId := "wf"; RunId := "R1" |};
     FirstEventId := first;
     NextEventId := first + Z.of_nat (length history);
     req_Version := version;
     req_ReplicationInfo := replicationInfo;
     History := history;
     NewRunHistory := None;
     ForceBufferEvents := force;
     EventStoreVersion := 0;
     NewRunEventStoreVersion := 0;
     ResetWorkflow := false |}.

Definition syncActivity (version attempt heartbeat : Z) : SyncActivityRequest :=
  {| sa_DomainId := "d"; sa_WorkflowId := "wf"; sa_RunId := "R1";
     sa_Version := version; ScheduledId := 7; ScheduledTime := 4000;
     StartedId := 8; StartedTime := 4500; LastHeartbeatTime := heartbeat;
     sa_Details := EmptyString; sa_Attempt := attempt |}.

(** S1: the run after events 1..3 of version 10, written by the peer. *)
Definition standby : MS := run true 10 3 [] None.

(** S3: the same run once the current cluster has written at version 20. *)
Definition active : MS := run true 20 7 [] None.

(** The run after the peer has written at version 30. *)
Definition standbyAgain : MS := run true 30 9 [] None.

(** S6: the run after events 1..9 of version 10, with the activity
    scheduled at event 7 still open. *)
Definition heartbeating : MS := run true 10 9 [] None.



(** S3: a stale batch of version 10 with a signal and another event. *)
Definition staleBatch : ReplicateEventsRequest :=
  batch 10 4 [signal 4 10 "x"; event 5 10 EventTypeDecisionTaskScheduled] ∅ false.




(** S5: the first batch of a new run ["R2"], of version 30. *)
Definition startBatch : ReplicateEventsRequest :=
  {| SourceCluster := "B";
     DomainUUID := "d";
     req_WorkflowExecution := {| WorkflowId := "wf"; RunId := "R2" |};
     FirstEventId := 1;
     NextEventId := 2;
     req_Version := 30;
     req_ReplicationInfo := ∅;
     History := [event 1 30 EventTypeWorkflowExecutionStarted];
     NewRunHistory := None;
     ForceBufferEvents := false;
     EventStoreVersion := 0;
     NewRunEventStoreVersion := 0;
     ResetWorkflow := false |}.

(** The mutable state of the new run when [replicateWorkflowStarted] is
    entered, and what the state builder reports. *)
Definition started : MS :=
  applied "d" {| WorkflowId := "wf"; RunId := "R2" |} (History startBatch)
    (getNewMutableState 30).

Definition startedBuilder : applyEventsResult MS Z unit :=
  {| ae_lastEvent := event 1 30 EventTypeWorkflowExecutionStarted;
     ae_di := None;
     ae_newRunStateBuilder := None;
     getTransferTasks := [];
     getTimerTasks := [];
     ae_msBuilder := started |}.

Definition contextR2 : workflowExecutionContext :=
  {| getDomainID := "d"; getExecution := {| WorkflowId := "wf"; RunId := "R2" |} |}.

(** Registration of a value under a dynamic-config key. *)
Definition setValue (key : dynamicconfig.Key) (value : Z) (st : gmap Z Z) : gmap Z Z :=
  <[dynamicconfig.Key_value key := value]> st.

Definition unknownBlob : DataBlob := {| EncodingType := 1; Data := "batch" |}.
Definition emptyBlob : DataBlob := {| EncodingType := 0; Data := "empty" |}.
Definition batchBlob : DataBlob := {| EncodingType := 0; Data := "batch" |}.

(** A batch of version 10 for a run ["R9"] that does not exist. *)
Definition orphanBatch : ReplicateEventsRequest :=
  {| SourceCluster := "B";
     DomainUUID := "d";
     req_WorkflowExecution := {| WorkflowId := "wf"; RunId := "R9" |};
     FirstEventId := 4;
     NextEventId := 5;
     req_Version := 10;
     req_ReplicationInfo := ∅;
     History := [event 4 10 EventTypeDecisionTaskScheduled];
     NewRunHistory := None;
     ForceBufferEvents := false;
     EventStoreVersion := 0;
     NewRunEventStoreVersion := 0;
     ResetWorkflow := false |}.


(** The run of scenario S2, with the batch of events 6..7 buffered. *)
Definition buffering : MS :=
  set_bufferedReplicationTasks (λ _,
    {[ 6 := {| bt_FirstEventID := 6; bt_NextEventID := 8; bt_Version := 10;
               bt_History := [event 6 10 EventTypeDecisionTaskScheduled;
                              event 7 10 EventTypeDecisionTaskStarted];
               bt_NewRunHistory := [];
               bt_EventStoreVersion := 0;
               bt_NewRunEventStoreVersion := 0 |} ]}) standby.

(** A run last written by the peer at version 30 that has not reached the
    event 7. *)
Definition behind : MS := run true 30 3 [] None.
(** A shard where the workflow has no current run. *)
Definition vacant : St MS Z unit World :=
  {| world := set_currentRun "R0" (world (state standby)); calls := [] |}.

(** A shard where the run ["R2"] is already the current run. *)
Definition restarted : St MS Z unit World :=
  {| world :=
       set_currentRun "R2"
         (set_executions (λ _, {[ "R2"%string := started ]}) (world (state standby)));
     calls := [] |}.
End Scenario.

(** * Properties *)

Section Properties.
Context {MS Task NewRun W DCState : Type}.
Context `{!Constants, !Metadata, !mutableState MS}.
Context `{!Services MS Task NewRun W DCState}.

Local Abbreviation M' := (M MS Task NewRun W).
Local Abbreviation State := (St MS Task NewRun W).

Implicit Types (s : State) (context : workflowExecutionContext) (msBuilder : MS).

(** ** The monad *)

Lemma bind_ok {A B} (m : M' A) (k : A → M' B) s a s' :
  m s = (inr a, s') → bind m k s = k a s'.
Proof. unfold bind. by intros ->. Qed.

Lemma bind_err {A B} (m : M' A) (k : A → M' B) s e s' :
  m s = (inl e, s') → bind m k s = (inl e, s').
Proof. unfold bind. by intros ->. Qed.

Lemma try_ok {A} (m : M' A) s r s' : m s = (r, s') → try m s = (inr r, s').
Proof. unfold try. by intros ->. Qed.

Lemma call_calls {A} (c : Call MS Task NewRun A) s a s' :
  call c s = (inr a, s') → calls s' = calls s ++ [logged c].
Proof.
  unfold call. destruct (handle A c (world s)) as [a' w'].
  intros [= _ <-]. reflexivity.
Qed.

Lemma call_total {A} (c : Call MS Task NewRun A) s :
  ∃ a s', call c s = (inr a, s').
Proof. unfold call. destruct (handle A c (world s)); eauto. Qed.

Lemma callE_call {A} (c : Call MS Task NewRun (Error + A)) s a s' :
  callE c s = (inr a, s') → call c s = (inr (inr a), s').
Proof.
  unfold callE, bind. destruct (call_total c s) as (r & s1 & Hc). rewrite Hc.
  destruct r as [e|a']; cbn; by intros [= <- <-].
Qed.

Lemma callE_calls {A} (c : Call MS Task NewRun (Error + A)) s a s' :
  callE c s = (inr a, s') → calls s' = calls s ++ [logged c].
Proof. intros Hc. by apply (call_calls c s (inr a)), callE_call. Qed.

Lemma callE_err_calls {A} (c : Call MS Task NewRun (Error + A)) s e s' :
  callE c s = (inl e, s') → calls s' = calls s ++ [logged c].
Proof.
  unfold callE, bind. destruct (call_total c s) as (r & s1 & Hc). rewrite Hc.
  destruct r as [e'|a']; cbn; intros [= <- <-]; by apply (call_calls c s _ _ Hc).
Qed.

Lemma deferRelease_ok {A} context (m : M' A) s a s1 :
  m s = (inr a, s1) →
  deferRelease context m s = (inr a, (call (release context None) s1).2).
Proof.
  unfold deferRelease. intros ->.
  by destruct (call (release context None) s1).
Qed.

Lemma deferRelease_err {A} context (m : M' A) s e s1 :
  m s = (inl e, s1) →
  deferRelease context m s = (inl e, (call (release context (Some e)) s1).2).
Proof.
  unfold deferRelease. intros ->.
  by destruct (call (release context (Some e)) s1).
Qed.

(** ** Event serialization *)

(** C7.  Decoding a raw-event blob fails with [ErrUnknownEncodingType] when
    the declared encoding is not thrift-rw, and then the state of the
    collaborators and the call log are untouched: neither the serializer nor
    the stores are called.  With the thrift-rw encoding, a decoded batch that
    is empty fails with [ErrEmptyHistoryRawEventBatch]; a non-empty batch is
    returned as it is, in order.  Both errors are of the bad-request class. *)
Theorem deserializeBlob_spec (blob : DataBlob) s :
  (EncodingType blob ≠ EncodingTypeThriftRW →
     deserializeBlob blob s = (inl ErrUnknownEncodingType, s)) ∧
  (EncodingType blob = EncodingTypeThriftRW →
     ∀ historyEvents s',
       callE (DeserializeBatchEvents (Data blob)) s = (inr historyEvents, s') →
       (historyEvents = [] →
          deserializeBlob blob s = (inl ErrEmptyHistoryRawEventBatch, s')) ∧
       (historyEvents ≠ [] →
          deserializeBlob blob s = (inr historyEvents, s'))) ∧
  isBadRequest ErrUnknownEncodingType = true ∧
  isBadRequest ErrEmptyHistoryRawEventBatch = true.
Proof.
  unfold deserializeBlob. split; [|split; [|done]].
  - intros Henc. by rewrite bool_decide_eq_true_2.
  - intros Henc historyEvents s' Hcall.
    rewrite bool_decide_eq_false_2 by (intros ?; congruence).
    rewrite (bind_ok _ _ _ _ _ Hcall). split.
    + by intros ->.
    + intros Hne. rewrite bool_decide_eq_false_2; [done|].
      by destruct historyEvents.
Qed.

(** ** The guard of the two in-place repairs *)

Lemma repairs_guard_closed context msBuilder (events : list HistoryEvent) s :
  IsWorkflowExecutionRunning msBuilder && canModifyWorkflow msBuilder = false →
  garbageCollectSignals context msBuilder events s = (inr (false, msBuilder), s) ∧
  flushEventsBuffer context msBuilder s = (inr msBuilder, s).
Proof.
  intros Hguard. unfold garbageCollectSignals, flushEventsBuffer.
  apply andb_false_iff in Hguard as [-> | ->]; cbn.
  - done.
  - rewrite !orb_true_r. done.
Qed.

(** C8.  Unless the workflow is running and the cluster that owns its last
    write version is the current cluster ([canModifyWorkflow]), both
    [garbageCollectSignals] and [flushEventsBuffer] return success with the
    mutable state as it was, and call no collaborator. *)
Theorem guarded_repairs_noop context msBuilder (events : list HistoryEvent) s :
  IsWorkflowExecutionRunning msBuilder && canModifyWorkflow msBuilder = false →
  garbageCollectSignals context msBuilder events s = (inr (false, msBuilder), s) ∧
  flushEventsBuffer context msBuilder s = (inr msBuilder, s).
Proof. apply repairs_guard_closed. Qed.

(** ** Termination of a losing run *)

(** C9.  Once the context of the run is acquired and its mutable state
    loaded: when the run is not running, [terminateWorkflow] returns success
    and calls nothing but the release of the context, so that no event is
    appended; when the run is running, it hands to [ApplyReplicationTask] a
    batch of one WorkflowExecutionTerminated event whose id is the next event
    id of the run, with the incoming version and timestamp and the fixed
    reason and identity. *)
Theorem terminateWorkflow_spec (fuel : nat) (domainID workflowID runID : string)
    (incomingVersion incomingTimestamp : Z) s context s1 msBuilder s2 :
  let execution := {| WorkflowId := workflowID; RunId := runID |} in
  callE (getOrCreateWorkflowExecutionWithTimeout domainID execution) s
    = (inr context, s1) →
  callE (loadWorkflowExecution context) s1 = (inr msBuilder, s2) →
  (IsWorkflowExecutionRunning msBuilder = false →
     ∃ s3,
       terminateWorkflow fuel domainID workflowID runID
         incomingVersion incomingTimestamp s = (inr tt, s3) ∧
       calls s3 =
         calls s ++
           [logged (getOrCreateWorkflowExecutionWithTimeout domainID execution);
            logged (loadWorkflowExecution context);
            logged (release context None)]) ∧
  (IsWorkflowExecutionRunning msBuilder = true →
     terminateWorkflow fuel domainID workflowID runID
       incomingVersion incomingTimestamp s =
     deferRelease context (
       do! ApplyReplicationTask fuel context msBuilder
             {| SourceCluster := ClusterNameForFailoverVersion incomingVersion;
                DomainUUID := domainID;
                req_WorkflowExecution := execution;
                FirstEventId := GetNextEventID msBuilder;
                NextEventId := GetNextEventID msBuilder + 1;
                req_Version := incomingVersion;
                req_ReplicationInfo := ∅;
                History :=
                  [ {| EventId := GetNextEventID msBuilder;
                       Timestamp := incomingTimestamp;
                       ev_Version := incomingVersion;
                       ev_EventType := EventTypeWorkflowExecutionTerminated;
                       ev_Signaled := None;
                       ev_Terminated :=
                         Some {| Reason := workflowTerminationReason;
                                 Details := None;
                                 term_Identity := workflowTerminationIdentity |} |} ];
                NewRunHistory := None;
                ForceBufferEvents := false;
                EventStoreVersion := 0;
                NewRunEventStoreVersion := 0;
                ResetWorkflow := false |} in
       ret tt) s2).
Proof.
  intros execution Hacq Hload.
  unfold terminateWorkflow, terminateWorkflow_. fold execution.
  rewrite (bind_ok _ _ _ _ _ Hacq). split; intros Hrun.
  - eexists. split.
    + apply deferRelease_ok. rewrite (bind_ok _ _ _ _ _ Hload), Hrun. reflexivity.
    + unfold call. cbn. destruct (handle _ _ _) as [? ?]. cbn.
      rewrite (callE_calls _ _ _ _ Hload), (callE_calls _ _ _ _ Hacq).
      by rewrite <- !app_assoc.
  - unfold deferRelease.
    rewrite (bind_ok _ _ _ _ _ Hload), Hrun. reflexivity.
Qed.

(** ** The standby delay *)

Section StandbyDelay.
Context {C : Type} `{!Collection C DCState}.

(** C10.  [NewConfig] builds [StandbyClusterDelay] from the key
    [AcquireShardInterval] (named history.acquireShardInterval) with
    default five minutes, not from the key [StandbyClusterDelay] (named
    history.standbyClusterDelay), a different key.  Hence, when the shard
    runs with this configuration and whatever the state of the dynamic
    configuration, [notify] sets the standby clock to the event time minus
    the value read under history.acquireShardInterval; registering a value
    under history.standbyClusterDelay leaves the delay as it was, and
    registering one under history.acquireShardInterval changes it to that
    value.  [setValue] is the registration of a value under a key. *)
Theorem StandbyClusterDelay_reads_AcquireShardInterval
    (dc : C) (numberOfShards : Z) (enableVisibilityToKafka : bool)
    (setValue : dynamicconfig.Key → Z → DCState → DCState) :
  let cfg := NewConfig dc numberOfShards enableVisibilityToKafka in
  GetConfig = cfg →
  (∀ d v st,
     GetDurationProperty dc dynamicconfig.AcquireShardInterval d
       (setValue dynamicconfig.StandbyClusterDelay v st)
     = GetDurationProperty dc dynamicconfig.AcquireShardInterval d st) →
  (∀ d v st,
     GetDurationProperty dc dynamicconfig.AcquireShardInterval d
       (setValue dynamicconfig.AcquireShardInterval v st) = v) →
  StandbyClusterDelay cfg
    = GetDurationProperty dc dynamicconfig.AcquireShardInterval (5 * time_Minute) ∧
  dynamicconfig.keys dynamicconfig.AcquireShardInterval
    = Some "history.acquireShardInterval"%string ∧
  dynamicconfig.keys dynamicconfig.StandbyClusterDelay
    = Some "history.standbyClusterDelay"%string ∧
  dynamicconfig.AcquireShardInterval ≠ dynamicconfig.StandbyClusterDelay ∧
  (∀ v st,
     StandbyClusterDelay cfg (setValue dynamicconfig.StandbyClusterDelay v st)
     = StandbyClusterDelay cfg st) ∧
  (∀ v st,
     StandbyClusterDelay cfg (setValue dynamicconfig.AcquireShardInterval v st) = v) ∧
  (∀ clusterName now transferTasks timerTasks s,
     let standbyTime :=
       time_Add now
         (- GetDurationProperty dc dynamicconfig.AcquireShardInterval
              (5 * time_Minute) (dcState (world s))) in
     ∃ s',
       notify clusterName now transferTasks timerTasks s = (inr tt, s') ∧
       calls s' =
         calls s ++
           [logged (SetCurrentTime clusterName standbyTime);
            logged (NotifyNewTask clusterName transferTasks);
            logged (NotifyNewTimers clusterName standbyTime timerTasks)]).
Proof.
  intros cfg Hcfg Hother Hsame. repeat split; try done.
  - intros v st. apply Hother.
  - intros v st. apply Hsame.
  - intros clusterName now transferTasks timerTasks s standbyTime.
    unfold notify, bind, getDCState, call. rewrite Hcfg. cbn.
    fold standbyTime.
    destruct (handle _ (SetCurrentTime clusterName standbyTime) _) as [[] w1]. cbn.
    destruct (handle _ (NotifyNewTask clusterName transferTasks) _) as [[] w2]. cbn.
    destruct (handle _ (NotifyNewTimers clusterName standbyTime timerTasks) _)
      as [[] w3]. cbn.
    eexists. split; [reflexivity|]. cbn. by rewrite <- !app_assoc.
Qed.
End StandbyDelay.

(** ** Ordered apply and buffering *)

(** C3.  For a batch that passed version checking, with [first] the first
    event id of the request and [next] the next event id of the mutable
    state: [first < next] drops the batch as a duplicate, with success, the
    builder as it was and the duplicate counter as only call;
    [first = next] applies it at once through [ApplyReplicationTask], then
    flushes the replication buffer; [first > next] on a workflow that is not
    running drops it without any call; [first > next], running, without
    [ForceBufferEvents] returns the retry error of buffered events carrying
    [next]; otherwise, after the buffer timer metric, the batch is dropped
    when the buffer holds at key [first] a task of a version at least the
    incoming one, and else handed to [BufferReplicationTask] and
    persisted. *)
Theorem ApplyOtherEvents_spec (fuel : nat) context msBuilder
    (request : ReplicateEventsRequest) s :
  let first := FirstEventId request in
  let next := GetNextEventID msBuilder in
  let buffered := GetAllBufferedReplicationTasks msBuilder !! first in
  (first < next →
     ∃ s',
       ApplyOtherEvents fuel context msBuilder request s = (inr msBuilder, s') ∧
       calls s' =
         calls s ++
           [logged (IncCounter ReplicateHistoryEventsScope
                      DuplicateReplicationEventsCounter)]) ∧
  (first = next →
     ApplyOtherEvents fuel context msBuilder request s =
     (let! msBuilder := ApplyReplicationTask fuel context msBuilder request in
      flushReplicationBuffer fuel context msBuilder) s) ∧
  (first > next → IsWorkflowExecutionRunning msBuilder = false →
     ApplyOtherEvents fuel context msBuilder request s = (inr msBuilder, s)) ∧
  (first > next → IsWorkflowExecutionRunning msBuilder = true →
   ForceBufferEvents request = false →
     ApplyOtherEvents fuel context msBuilder request s =
     (inl (newRetryTaskErrorWithHint ErrRetryBufferEventsMsg (getDomainID context)
             (WorkflowId (getExecution context)) (RunId (getExecution context)) next),
      s)) ∧
  (first > next → IsWorkflowExecutionRunning msBuilder = true →
   ForceBufferEvents request = true →
     ∀ s1,
       call (RecordTimer ReplicateHistoryEventsScope BufferReplicationTaskTimer
               (Z.of_nat (length (History request)))) s = (inr tt, s1) →
       (∀ bt, buffered = Some bt → req_Version request ≤ bt_Version bt →
          ApplyOtherEvents fuel context msBuilder request s = (inr msBuilder, s1)) ∧
       ((buffered = None ∨
         ∃ bt, buffered = Some bt ∧ bt_Version bt < req_Version request) →
          ApplyOtherEvents fuel context msBuilder request s =
          (let! msBuilder := liftE (BufferReplicationTask request msBuilder) in
           updateMutableStateOnly context msBuilder) s1)).
Proof.
  intros first next buffered. unfold ApplyOtherEvents.
  fold first next. split; [|split; [|split; [|split]]].
  - intros Hlt. rewrite (proj2 (Z.ltb_lt _ _) Hlt).
    unfold bind, call, ret. destruct (handle _ _ _) as [[] w1]. cbn.
    eexists. split; reflexivity.
  - intros Heq. rewrite Heq, Z.ltb_irrefl, Z.gtb_ltb, Z.ltb_irrefl. reflexivity.
  - intros Hgt Hrun.
    rewrite (proj2 (Z.ltb_ge _ _)) by lia.
    rewrite Z.gtb_ltb, (proj2 (Z.ltb_lt _ _)) by lia.
    by rewrite Hrun.
  - intros Hgt Hrun Hforce.
    rewrite (proj2 (Z.ltb_ge _ _)) by lia.
    rewrite Z.gtb_ltb, (proj2 (Z.ltb_lt _ _)) by lia.
    by rewrite Hrun, Hforce.
  - intros Hgt Hrun Hforce s1 Htimer.
    rewrite (proj2 (Z.ltb_ge _ _)) by lia.
    rewrite Z.gtb_ltb, (proj2 (Z.ltb_lt _ _)) by lia.
    rewrite Hrun, Hforce. cbn. rewrite (bind_ok _ _ _ _ _ Htimer).
    fold buffered. split.
    + intros bt Hbt Hver. rewrite Hbt.
      rewrite Z.geb_leb, (proj2 (Z.leb_le _ _)) by lia. reflexivity.
    + intros [-> | (bt & -> & Hver)]; [reflexivity|].
      rewrite Z.geb_leb, (proj2 (Z.leb_gt _ _)) by lia. reflexivity.
Qed.


(** ** SyncActivity *)

Lemma release_calls context (err : option Error) s :
  calls (call (release context err) s).2 = calls s ++ [logged (release context err)].
Proof. unfold call. by destruct (handle _ _ _). Qed.

(** C5, amended.  For a SyncActivity request on a running workflow, whose
    schedule id is below the next event id and whose activity is still
    scheduled: the request is a no-op (success, nothing but the release of
    the context is called) when its triple (version, attempt, last
    heartbeat) is below the stored triple of the activity in the
    lexicographic order, and the update is applied otherwise, that is, also
    when the two triples are equal.  An applied update first calls
    [ReplicateActivityInfo] with a reset flag that is true if and only if
    the request version is not from the same cluster as the stored version,
    or the stored attempt is below the request attempt; an error of that
    call is returned as it is. *)
Theorem SyncActivity_spec (request : SyncActivityRequest) s context s1 msBuilder s2
    (ai : ActivityInfo) :
  let execution := {| WorkflowId := sa_WorkflowId request; RunId := sa_RunId request |} in
  let stored := (ai_Version ai, ai_Attempt ai, LastHeartBeatUpdatedTime ai) in
  let incoming := (sa_Version request, sa_Attempt request, LastHeartbeatTime request) in
  let resetActivityTimerTaskStatus :=
    negb (IsVersionFromSameCluster (sa_Version request) (ai_Version ai))
    || (ai_Attempt ai <? sa_Attempt request) in
  callE (getOrCreateWorkflowExecutionWithTimeout (sa_DomainId request) execution) s
    = (inr context, s1) →
  callE (loadWorkflowExecution context) s1 = (inr msBuilder, s2) →
  IsWorkflowExecutionRunning msBuilder = true →
  ScheduledId request < GetNextEventID msBuilder →
  GetActivityInfo msBuilder (ScheduledId request) = Some ai →
  (lex_ltb incoming stored = true →
     SyncActivity request s = (inr tt, (call (release context None) s2).2) ∧
     calls (call (release context None) s2).2 =
       calls s ++
         [logged (getOrCreateWorkflowExecutionWithTimeout (sa_DomainId request)
                    execution);
          logged (loadWorkflowExecution context);
          logged (release context None)]) ∧
  (lex_ltb incoming stored = false →
     SyncActivity request s =
     deferRelease context (SyncActivity_update context msBuilder ai request) s2) ∧
  (∀ s' e,
     ReplicateActivityInfo request resetActivityTimerTaskStatus msBuilder = inl e →
     SyncActivity_update context msBuilder ai request s' = (inl e, s')) ∧
  (∀ s' msBuilder',
     ReplicateActivityInfo request resetActivityTimerTaskStatus msBuilder
       = inr msBuilder' →
     let eventTime :=
       Z.max (Z.max (ScheduledTime request) (StartedTime request))
         (LastHeartbeatTime request) in
     SyncActivity_update context msBuilder ai request s' =
     (let '(tt_, msBuilder) :=
        GetActivityTimerTaskIfNeeded (time_Unix0 eventTime) msBuilder' in
      do! updateMutableStateWithTimer context msBuilder (time_Unix0 eventTime)
            (match tt_ with Some t => [t] | None => [] end) in
      ret tt) s').
Proof.
  intros execution stored incoming reset Hacq Hload Hrun Hsched Hai.
  assert (Hflag :
    (if negb (IsVersionFromSameCluster (sa_Version request) (ai_Version ai))
     then true
     else if ai_Attempt ai <? sa_Attempt request then true else false) = reset).
  { unfold reset. by destruct (IsVersionFromSameCluster _ _), (_ <? _). }
  split; [|split; [|split]].
  - intros Hlt. split.
    2:{ rewrite release_calls, (callE_calls _ _ _ _ Hload), (callE_calls _ _ _ _ Hacq).
        by rewrite <- !app_assoc. }
    unfold SyncActivity. fold execution.
    rewrite (bind_ok _ _ _ _ _ Hacq).
    apply deferRelease_ok.
    rewrite (bind_ok _ _ _ _ _ (callE_call _ _ _ _ Hload)).
    rewrite Hrun, Z.geb_leb, (proj2 (Z.leb_gt _ _)) by lia. cbn [negb].
    rewrite Hai.
    unfold lex_ltb, incoming, stored in Hlt.
    unfold time_After, time_Unix0. rewrite !Z.gtb_ltb.
    destruct (Z.ltb_spec (sa_Version request) (ai_Version ai)); [done|].
    destruct (Z.eqb_spec (sa_Version request) (ai_Version ai)) as [Hv|Hv];
      [|cbn in Hlt; done].
    rewrite Hv, Z.eqb_refl. cbn in *.
    destruct (Z.ltb_spec (sa_Attempt request) (ai_Attempt ai)); [done|].
    destruct (Z.eqb_spec (sa_Attempt request) (ai_Attempt ai)) as [Ha|Ha];
      [|cbn in Hlt; done].
    rewrite Ha, Z.eqb_refl. cbn in *.
    apply Z.ltb_lt in Hlt. by rewrite bool_decide_eq_true_2.
  - intros Hge.
    unfold SyncActivity. fold execution.
    rewrite (bind_ok _ _ _ _ _ Hacq).
    unfold deferRelease.
    rewrite (bind_ok _ _ _ _ _ (callE_call _ _ _ _ Hload)).
    rewrite Hrun, Z.geb_leb, (proj2 (Z.leb_gt _ _)) by lia. cbn [negb].
    rewrite Hai.
    unfold lex_ltb, incoming, stored in Hge.
    unfold time_After, time_Unix0. rewrite !Z.gtb_ltb.
    destruct (Z.ltb_spec (sa_Version request) (ai_Version ai)); [done|].
    destruct (Z.eqb_spec (ai_Version ai) (sa_Version request)) as [Hv|Hv];
      [|done].
    rewrite Hv, Z.eqb_refl in Hge. cbn in *.
    destruct (Z.ltb_spec (sa_Attempt request) (ai_Attempt ai)); [done|].
    destruct (Z.eqb_spec (ai_Attempt ai) (sa_Attempt request)) as [Ha|Ha];
      [|done].
    rewrite Ha, Z.eqb_refl in Hge. cbn in *.
    apply Z.ltb_ge in Hge. rewrite bool_decide_eq_false_2; [done|lia].
  - intros s' e He. unfold SyncActivity_update. rewrite Hflag, He. reflexivity.
  - intros s' msBuilder' Hok eventTime. unfold SyncActivity_update.
    rewrite Hflag, Hok. cbn.
    replace (if (if ScheduledTime request <? StartedTime request
                 then StartedTime request else ScheduledTime request)
                <? LastHeartbeatTime request
             then LastHeartbeatTime request
             else if ScheduledTime request <? StartedTime request
                  then StartedTime request else ScheduledTime request)
      with eventTime; [reflexivity|].
    unfold eventTime.
    destruct (Z.ltb_spec (ScheduledTime request) (StartedTime request));
      [rewrite (Z.max_r (ScheduledTime request)) by lia
      |rewrite (Z.max_l (ScheduledTime request)) by lia];
      match goal with |- context [?a <? ?b] => destruct (Z.ltb_spec a b) end; lia.
Qed.

(** ** Stale batches and their signals *)

Lemma garbageCollectSignals_loop_accepted (events : list HistoryEvent)
    (updateMutableState : bool) msBuilder :
  signalsAccepted events msBuilder →
  garbageCollectSignals_loop events updateMutableState msBuilder =
  inr (updateMutableState || existsb isSignaled events, addSignals events msBuilder).
Proof.
  revert updateMutableState msBuilder.
  induction events as [|event events IH]; intros u msBuilder Hacc; cbn.
  - by rewrite orb_false_r.
  - cbn in Hacc. unfold isSignaled in *.
    destruct (ev_EventType event) eqn:Htype; cbn in *;
      try (rewrite IH by done; reflexivity).
    destruct (ev_Signaled event) as [attr|]; [|done].
    destruct (AddWorkflowExecutionSignaled _ _ _ _) as [[added|] msBuilder']; [|done].
    cbn. rewrite IH by done. by rewrite orb_true_r.
Qed.

Lemma addSignals_filter (events : list HistoryEvent) msBuilder :
  addSignals (List.filter isSignaled events) msBuilder = addSignals events msBuilder.
Proof.
  revert msBuilder. induction events as [|event events IH]; intros msBuilder; [done|].
  cbn. destruct (isSignaled event) eqn:Hsig; cbn; rewrite ?Hsig; [|apply IH].
  destruct (ev_Signaled event); apply IH.
Qed.

(** C6, amended.  A non-start batch whose version is below the last write
    version of the replication state increments the stale counter, runs
    [garbageCollectSignals] on the events of the batch and is dropped (nil
    builder); an error of the garbage collection is returned.  When the
    workflow is not running, or the cluster of its last write version is not
    the current cluster, the mutable state is left as it is and nothing is
    persisted.  When the workflow is running and the last write is of the
    current cluster, every WorkflowExecutionSignaled event of the batch is
    added to the mutable state as a signal, in order, the other events of the
    batch have no effect, and the mutable state is persisted if the batch
    holds at least one signal. *)
Theorem stale_batch_spec (fuel : nat) context msBuilder
    (request : ReplicateEventsRequest) (inRetry : bool) s :
  let events := History request in
  let s1 :=
    (call (IncCounter ReplicateHistoryEventsScope StaleReplicationEventsCounter) s).2 in
  let msBuilder1 :=
    UpdateReplicationStateVersion (GetLastWriteVersion msBuilder) true msBuilder in
  req_Version request < LastWriteVersion (GetReplicationState msBuilder) →
  calls s1 =
    calls s ++
      [logged (IncCounter ReplicateHistoryEventsScope StaleReplicationEventsCounter)] ∧
  ApplyOtherEventsVersionChecking fuel context msBuilder request inRetry s =
    (do! garbageCollectSignals context msBuilder events in ret None) s1 ∧
  (IsWorkflowExecutionRunning msBuilder && canModifyWorkflow msBuilder = false →
     ApplyOtherEventsVersionChecking fuel context msBuilder request inRetry s
     = (inr None, s1)) ∧
  (IsWorkflowExecutionRunning msBuilder && canModifyWorkflow msBuilder = true →
   signalsAccepted events msBuilder1 →
     (existsb isSignaled events = false →
        ApplyOtherEventsVersionChecking fuel context msBuilder request inRetry s
        = (inr None, s1)) ∧
     (existsb isSignaled events = true →
        ∀ transactionID s2 msBuilder' s3,
          callE GetNextTransferTaskID s1 = (inr transactionID, s2) →
          callE (updateWorkflowExecution context (addSignals events msBuilder1)
                   transactionID) s2 = (inr msBuilder', s3) →
          ApplyOtherEventsVersionChecking fuel context msBuilder request inRetry s
          = (inr None, s3))) ∧
  (∀ msBuilder,
     addSignals (List.filter isSignaled events) msBuilder = addSignals events msBuilder).
Proof.
  intros events s1 msBuilder1 Hstale.
  assert (Hcall :
    call (IncCounter ReplicateHistoryEventsScope StaleReplicationEventsCounter) s
    = (inr tt, s1)).
  { unfold s1, call. by destruct (handle _ _ _) as [[] ?]. }
  assert (Hdrop :
    ApplyOtherEventsVersionChecking fuel context msBuilder request inRetry s =
    (do! garbageCollectSignals context msBuilder events in ret None) s1).
  { unfold ApplyOtherEventsVersionChecking.
    rewrite Z.gtb_ltb, (proj2 (Z.ltb_lt _ _) Hstale).
    by rewrite (bind_ok _ _ _ _ _ Hcall). }
  split; [by apply (call_calls _ _ _ _ Hcall)|].
  split; [done|]. split; [|split].
  - intros Hguard. rewrite Hdrop.
    destruct (repairs_guard_closed context msBuilder events s1 Hguard) as [Hgc _].
    by rewrite (bind_ok _ _ _ _ _ Hgc).
  - intros Hguard Hacc. apply andb_true_iff in Hguard as [Hrun Hmod].
    rewrite Hdrop. unfold garbageCollectSignals. rewrite Hrun, Hmod. cbn [negb orb].
    fold msBuilder1.
    rewrite (garbageCollectSignals_loop_accepted _ _ _ Hacc). cbn [orb].
    split; intros Hsig; rewrite Hsig.
    + reflexivity.
    + intros transactionID s2 msBuilder' s3 Htx Hupd.
      unfold bind, liftE, ret. cbn. by rewrite Htx, Hupd.
  - apply addSignals_filter.
Qed.

(** ** The latest common checkpoint *)

Lemma checkpointStep_checkpointOf (visited : list ReplicationInfo) acc ri :
  (∀ r, r ∈ visited → ri_Version r ≠ EmptyVersion) →
  checkpointOf visited acc →
  checkpointOf (visited ++ [ri]) (checkpointStep acc ri).
Proof.
  intros Hvalid [[-> ->] | (r0 & Hin & -> & Hmax)]; right.
  - exists ri. cbn. rewrite Z.eqb_refl. cbn.
    split; [set_solver|]. split; [done|].
    intros ri' ->%list_elem_of_singleton. lia.
  - unfold checkpointStep.
    rewrite (proj2 (Z.eqb_neq _ _) (Hvalid r0 Hin)), Z.gtb_ltb. cbn.
    destruct (Z.ltb_spec (ri_Version r0) (ri_Version ri)).
    + exists ri. split; [set_solver|]. split; [done|].
      intros ri' [Hri'| ->%list_elem_of_singleton]%elem_of_app; [|lia].
      specialize (Hmax ri' Hri'). lia.
    + exists r0. split; [set_solver|]. split; [done|].
      intros ri' [Hri'| ->%list_elem_of_singleton]%elem_of_app; [|lia].
      by apply Hmax.
Qed.

Lemma checkpoint_foldl (l visited : list ReplicationInfo) acc :
  (∀ r, r ∈ visited ++ l → ri_Version r ≠ EmptyVersion) →
  checkpointOf visited acc →
  checkpointOf (visited ++ l) (foldl checkpointStep acc l).
Proof.
  revert visited acc. induction l as [|ri l IH]; intros visited acc Hvalid Hacc.
  - by rewrite app_nil_r.
  - cbn. replace (visited ++ ri :: l) with ((visited ++ [ri]) ++ l)
      by (by rewrite <- app_assoc).
    apply IH.
    + intros r Hr. apply Hvalid. by rewrite <- app_assoc in Hr.
    + apply checkpointStep_checkpointOf; [|done].
      intros r Hr. apply Hvalid. set_solver.
Qed.

Lemma elem_of_rangeReplicationInfo (m : gmap string ReplicationInfo) ri :
  ri ∈ (rangeReplicationInfo m).*2 ↔ entryOf m ri.
Proof.
  rewrite (rangeReplicationInfo_perm m), list_elem_of_fmap. unfold entryOf. split.
  - intros ([cluster ri'] & -> & Hin). exists cluster. by apply elem_of_map_to_list.
  - intros (cluster & Hlookup). exists (cluster, ri). split; [done|].
    by apply elem_of_map_to_list.
Qed.





(** ** Version checking after a failover *)



(** ** A start event against an existing run *)


(** ** The bound on the recursion

    A batch that does not begin with a start event is applied without
    recursion: every bound gives the same outcome. *)
Lemma ApplyReplicationTask_unfold (fuel : nat) :
  ApplyReplicationTask fuel =
  ApplyReplicationTask_
    (match fuel with
     | O => λ _ _ _, throw OutOfFuel
     | S fuel => ApplyReplicationTask fuel
     end) fuel.
Proof. by destruct fuel. Qed.

Lemma ApplyReplicationTask_nonstart
    (applyTask applyTask' : workflowExecutionContext → MS → ReplicateEventsRequest → M' MS)
    (fuel fuel' : nat) context msBuilder
    (request : ReplicateEventsRequest) (firstEvent : HistoryEvent) s :
  head (History request) = Some firstEvent →
  ev_EventType firstEvent ≠ EventTypeWorkflowExecutionStarted →
  ApplyReplicationTask_ applyTask fuel context msBuilder request s
  = ApplyReplicationTask_ applyTask' fuel' context msBuilder request s.
Proof.
  intros Hhead Htype. unfold ApplyReplicationTask_.
  destruct (head (History request)) as [e|]; [|discriminate].
  injection Hhead as ->.
  destruct (ev_EventType firstEvent); [congruence|reflexivity..].
Qed.

Lemma ApplyReplicationTask_fuel (fuel fuel' : nat) context msBuilder
    (request : ReplicateEventsRequest) (firstEvent : HistoryEvent) s :
  head (History request) = Some firstEvent →
  ev_EventType firstEvent ≠ EventTypeWorkflowExecutionStarted →
  ApplyReplicationTask fuel context msBuilder request s
  = ApplyReplicationTask fuel' context msBuilder request s.
Proof.
  intros Hhead Htype. rewrite (ApplyReplicationTask_unfold fuel).
  rewrite (ApplyReplicationTask_unfold fuel').
  by apply ApplyReplicationTask_nonstart with firstEvent.
Qed.
(** ** Further properties of the replicator *)

Lemma call_unit (c : Call MS Task NewRun unit) s :
  call c s = (inr tt, (call c s).2) ∧ calls (call c s).2 = calls s ++ [logged c].
Proof. unfold call. by destruct (handle _ _ _) as [[] ?]. Qed.

Lemma callE_cases {A} (c : Call MS Task NewRun (Error + A)) s :
  ∃ r s', callE c s = (r, s') ∧ calls s' = calls s ++ [logged c].
Proof.
  unfold callE, bind. destruct (call_total c s) as (r & s1 & Hc). rewrite Hc.
  pose proof (call_calls c s _ _ Hc). destruct r; cbn; eauto.
Qed.

Lemma canDoDCMigration_foldl (clusters : list string) (doDCMigration : bool) :
  foldl (λ doDCMigration targetCluster,
           if bool_decide (targetCluster = GetCurrentClusterName)
           then false else doDCMigration) doDCMigration clusters
  = doDCMigration && bool_decide (GetCurrentClusterName ∉ clusters).
Proof.
  revert doDCMigration. induction clusters as [|c clusters IH]; intros acc; cbn.
  - rewrite bool_decide_eq_true_2 by apply not_elem_of_nil. by rewrite andb_true_r.
  - rewrite IH. destruct (decide (c = GetCurrentClusterName)) as [->|Hne].
    + rewrite bool_decide_eq_true_2 by done.
      rewrite (bool_decide_eq_false_2 (_ ∉ _ :: _)); [by rewrite andb_false_r|].
      intros Hn. apply Hn. by left.
    + rewrite bool_decide_eq_false_2 by done. f_equal.
      apply bool_decide_ext. rewrite not_elem_of_cons. split; [|tauto].
      intros Hn. split; [congruence|done].
Qed.

(** X6 ([canDoDCMigration]): the domain can be migrated exactly when the
    current cluster is not one of the clusters of its replication
    configuration, wherever it stands in the list and however often; an
    error of the domain cache is returned as it is.  The domain cache is
    the only collaborator called. *)
Theorem canDoDCMigration_spec (domainID : string) s :
  (∀ clusters s',
     callE (GetDomainByID domainID) s = (inr clusters, s') →
     canDoDCMigration domainID s
     = (inr (bool_decide (GetCurrentClusterName ∉ clusters)), s')) ∧
  (∀ err s',
     callE (GetDomainByID domainID) s = (inl err, s') →
     canDoDCMigration domainID s = (inl err, s')) ∧
  calls (canDoDCMigration domainID s).2 = calls s ++ [logged (GetDomainByID domainID)].
Proof.
  unfold canDoDCMigration. split; [|split].
  - intros clusters s' Hc. rewrite (bind_ok _ _ _ _ _ Hc).
    by rewrite canDoDCMigration_foldl.
  - intros err s' Hc. by rewrite (bind_err _ _ _ _ _ Hc).
  - destruct (callE_cases (GetDomainByID domainID) s) as ([err|clusters] & s' & Hc & Hcalls).
    + by rewrite (bind_err _ _ _ _ _ Hc).
    + by rewrite (bind_ok _ _ _ _ _ Hc).
Qed.

Lemma checkpoint_foldl_dominated (l : list ReplicationInfo) (acc : Z * Z) :
  acc.1 ≠ EmptyVersion →
  (∀ ri, ri ∈ l → ri_Version ri ≤ acc.1) →
  foldl checkpointStep acc l = acc.
Proof.
  induction l as [|ri l IH]; intros Hacc Hle; [done|]. cbn.
  assert (checkpointStep acc ri = acc) as ->.
  { destruct acc as [v e]. cbn in *. 
    rewrite (proj2 (Z.eqb_neq _ _) Hacc), Z.gtb_ltb. cbn.
    destruct (Z.ltb_spec v (ri_Version ri)); [|done].
    assert (ri_Version ri ≤ v) by (apply Hle; by left). lia. }
  apply IH; [done|]. intros ri' Hri'. apply Hle. by right.
Qed.

(** X7 ([getLatestCheckpoint]): the remote replication info is scanned
    first and an entry replaces the checkpoint only when its version is
    strictly higher, so the local map decides only with a strictly higher
    version: when some remote entry has a version that no local entry
    exceeds, the checkpoint is an entry of the remote map (for maps none of
    whose entries carries the reserved [EmptyVersion]). *)
Theorem getLatestCheckpoint_remote_first
    (remote local : gmap string ReplicationInfo) (ri : ReplicationInfo) :
  (∀ ri', entryOf remote ri' ∨ entryOf local ri' → ri_Version ri' ≠ EmptyVersion) →
  entryOf remote ri →
  (∀ ri', entryOf local ri' → ri_Version ri' ≤ ri_Version ri) →
  ∃ ri', entryOf remote ri' ∧
         getLatestCheckpoint remote local = (ri_Version ri', ri_LastEventId ri').
Proof.
  intros Hvalid Hri Hlocal. unfold getLatestCheckpoint.
  assert (Hcp : checkpointOf (rangeReplicationInfo remote).*2
            (foldl checkpointStep (EmptyVersion, EmptyEventID)
               (rangeReplicationInfo remote).*2)).
  { rewrite <- (app_nil_l (rangeReplicationInfo remote).*2) at 1.
    apply checkpoint_foldl; [|by left].
    intros r Hr. apply Hvalid. left. by apply elem_of_rangeReplicationInfo. }
  destruct Hcp as [[Hnil _] | (r0 & Hin & Heq & Hmax)].
  - apply elem_of_rangeReplicationInfo in Hri. rewrite Hnil in Hri.
    by apply elem_of_nil in Hri.
  - exists r0. split; [by apply elem_of_rangeReplicationInfo|].
    rewrite Heq. apply checkpoint_foldl_dominated; cbn.
    + apply Hvalid. left. by apply elem_of_rangeReplicationInfo.
    + intros ri' Hri'. apply elem_of_rangeReplicationInfo in Hri'.
      specialize (Hlocal ri' Hri').
      specialize (Hmax ri (proj2 (elem_of_rangeReplicationInfo _ _) Hri)). lia.
Qed.


Lemma deferTranslate_err {A} (m : M' A) s e s' :
  deferTranslate m s = (inl e, s') →
  ∃ retError, m s = (inl retError, s') ∧ e = translateError retError.
Proof.
  unfold deferTranslate. destruct (m s) as [[retError|a] s1]; [|done].
  intros [= <- <-]. eauto.
Qed.

(** X9 ([ApplyEvents]): the deferred translation leaves no error of the
    four translated classes: whatever the request and the collaborators
    do, [ApplyEvents] never returns an entity-not-exists error, an
    already-started error of package shared or of package persistence, or
    an internal-failure error; in their place the caller sees a retry
    error or the bad request [ErrInternalFailure]. *)
Theorem ApplyEvents_error_translated (fuel : nat) (request : ReplicateEventsRequest)
    (inRetry : bool) s err s' :
  ApplyEvents fuel request inRetry s = (inl err, s') →
  err ≠ EntityNotExistsError ∧
  err ≠ shared_WorkflowExecutionAlreadyStartedError ∧
  (∀ runID state lastWriteVersion,
     err ≠ persistence_WorkflowExecutionAlreadyStartedError runID state lastWriteVersion) ∧
  (∀ msg, err ≠ InternalFailureError msg) ∧
  ∃ retError,
    err = translateError retError ∧
    (isEntityNotExists retError = true → err = ErrRetryEntityNotExists).
Proof.
  unfold ApplyEvents. intros Happly.
  destruct (call_unit (RecordTimer ReplicateHistoryEventsScope
              ReplicationEventsSizeTimer (Z.of_nat (length (History request)))) s)
    as [Ht _].
  rewrite (bind_ok _ _ _ _ _ Ht) in Happly.
  apply deferTranslate_err in Happly as (retError & _ & ->).
  split; [by destruct retError|]. split; [by destruct retError|].
  split; [intros; by destruct retError|]. split; [intros; by destruct retError|].
  exists retError. split; [done|]. by destruct retError.
Qed.

Lemma deferRelease_last {A} context (m : M' A) s :
  last (calls (deferRelease context m s).2)
  = Some (logged (release context
                    match (deferRelease context m s).1 with
                    | inl err => Some err
                    | inr _ => None
                    end)).
Proof.
  unfold deferRelease. destruct (m s) as [r s1].
  pose proof (release_calls context
                match r with inl e => Some e | inr _ => None end s1) as Hcalls.
  destruct (call _ s1) as [? s2]. cbn in *. by rewrite Hcalls, last_snoc.
Qed.

Lemma head_last_Some {A} (l : list A) (x : A) :
  head l = Some x → ∃ y, last l = Some y.
Proof.
  destruct l as [|a l]; [done|]. intros _.
  destruct (last (a :: l)) eqn:Hlast; [eauto|].
  by apply last_None in Hlast.
Qed.


(** X11 ([SyncActivity], [terminateWorkflow]): the context that either
    function acquires is released on every path; the release is its last
    call, and it receives the error that the function returns. *)
Theorem context_released_last :
  (∀ (request : SyncActivityRequest) s context s1,
     callE (getOrCreateWorkflowExecutionWithTimeout (sa_DomainId request)
              {| WorkflowId := sa_WorkflowId request; RunId := sa_RunId request |}) s
       = (inr context, s1) →
     last (calls (SyncActivity request s).2)
     = Some (logged (release context
                       match (SyncActivity request s).1 with
                       | inl err => Some err
                       | inr _ => None
                       end))) ∧
  (∀ (fuel : nat) (domainID workflowID runID : string)
     (incomingVersion incomingTimestamp : Z) s context s1,
     callE (getOrCreateWorkflowExecutionWithTimeout domainID
              {| WorkflowId := workflowID; RunId := runID |}) s = (inr context, s1) →
     last (calls (terminateWorkflow fuel domainID workflowID runID
                    incomingVersion incomingTimestamp s).2)
     = Some (logged (release context
                       match (terminateWorkflow fuel domainID workflowID runID
                                incomingVersion incomingTimestamp s).1 with
                       | inl err => Some err
                       | inr _ => None
                       end))).
Proof.
  split.
  - intros request s context s1 Hacq. unfold SyncActivity.
    rewrite (bind_ok _ _ _ _ _ Hacq). apply deferRelease_last.
  - intros fuel domainID workflowID runID v t s context s1 Hacq.
    unfold terminateWorkflow, terminateWorkflow_.
    rewrite (bind_ok _ _ _ _ _ Hacq). apply deferRelease_last.
Qed.



Lemma flushReplicationBuffer_stale_none context
    (tasks : list (Z * BufferedReplicationTask)) msBuilder s :
  (∀ firstEventID bt, (firstEventID, bt) ∈ tasks →
                      GetLastWriteVersion msBuilder ≤ bt_Version bt) →
  flushReplicationBuffer_stale context tasks msBuilder s = (inr msBuilder, s).
Proof.
  induction tasks as [|[firstEventID bt] tasks IH]; intros Hfresh; [done|]. cbn.
  assert ((bt_Version bt <? GetLastWriteVersion msBuilder) = false) as ->.
  { apply Z.ltb_ge. apply (Hfresh firstEventID). by left. }
  rewrite andb_false_r. apply IH. intros k bt' Hin. apply (Hfresh k). by right.
Qed.

(** X13 ([flushReplicationBuffer]): the flush does nothing to a workflow
    that is not running, and calls no collaborator.  On a running workflow
    none of whose buffered tasks is stale (of a version below the last
    write version) and none of whose buffered tasks begins at the next
    event id, be the buffer empty or not, the flush applies nothing: the
    mutable state is returned as it was, the tasks stay buffered, and the
    only call is the timer metric with a count of zero. *)
Theorem flushReplicationBuffer_nothing_to_apply (fuel : nat) context msBuilder s :
  (IsWorkflowExecutionRunning msBuilder = false →
     flushReplicationBuffer fuel context msBuilder s = (inr msBuilder, s)) ∧
  (IsWorkflowExecutionRunning msBuilder = true →
   (∀ firstEventID bt,
      GetAllBufferedReplicationTasks msBuilder !! firstEventID = Some bt →
      GetLastWriteVersion msBuilder ≤ bt_Version bt) →
   GetAllBufferedReplicationTasks msBuilder !! GetNextEventID msBuilder = None →
   ∃ s',
     flushReplicationBuffer (S fuel) context msBuilder s = (inr msBuilder, s') ∧
     calls s' =
       calls s ++
         [logged (RecordTimer ReplicateHistoryEventsScope
                    UnbufferReplicationTaskTimer 0)]).
Proof.
  unfold flushReplicationBuffer, flushReplicationBuffer_. split.
  - by intros ->.
  - intros Hrun Hfresh Hnext. rewrite Hrun. cbn [negb].
    rewrite (bind_ok _ _ _ (0, inr msBuilder) s).
    + destruct (call_unit (RecordTimer ReplicateHistoryEventsScope
                             UnbufferReplicationTaskTimer 0) s) as [Ht Htc].
      rewrite (bind_ok _ _ _ _ _ Ht). eexists. split; [done|]. done.
    + erewrite bind_ok.
      2:{ apply try_ok. apply flushReplicationBuffer_stale_none.
          intros k bt Hin. apply (Hfresh k).
          apply elem_of_map_to_list.
          by rewrite <- (rangeBufferedReplicationTasks_perm _). }
      cbn [flushReplicationBuffer_apply]. rewrite Hrun, Hnext.
      by destruct (HasBufferedReplicationTasks msBuilder).
Qed.

(** X14 ([SyncActivity]): the requests that are not applied.  Once the
    context of the run is acquired: if the run cannot be loaded because it
    does not exist, is not running, has no activity scheduled at the
    schedule id of the request, or has not reached that schedule id while
    its last write version is above the version of the request, the request
    is dropped with success; if it has not reached the schedule id and the
    version of the request is not below its last write version, the request
    is refused with a retry error that carries the next event id of the run;
    any other error of loading is returned as it is.  In each case nothing
    is written: the calls are the acquisition, the load and the release. *)
Theorem SyncActivity_not_applied (request : SyncActivityRequest) s context s1
    (r : Error + MS) s2 :
  let domainID := sa_DomainId request in
  let execution :=
    {| WorkflowId := sa_WorkflowId request; RunId := sa_RunId request |} in
  let outcome : option (Error + unit) :=
    match r with
    | inl err => Some (if isEntityNotExists err then inr tt else inl err)
    | inr msBuilder =>
        if negb (IsWorkflowExecutionRunning msBuilder) then Some (inr tt)
        else if GetNextEventID msBuilder <=? ScheduledId request
        then
          if sa_Version request <? GetLastWriteVersion msBuilder
          then Some (inr tt)
          else Some (inl (newRetryTaskErrorWithHint ErrRetrySyncActivityMsg domainID
                            (sa_WorkflowId request) (sa_RunId request)
                            (GetNextEventID msBuilder)))
        else
          match GetActivityInfo msBuilder (ScheduledId request) with
          | None => Some (inr tt)
          | Some _ => None
          end
    end in
  callE (getOrCreateWorkflowExecutionWithTimeout domainID execution) s
    = (inr context, s1) →
  call (loadWorkflowExecution context) s1 = (inr r, s2) →
  ∀ result, outcome = Some result →
    ∃ s3,
      SyncActivity request s = (result, s3) ∧
      calls s3 =
        calls s ++
          [logged (getOrCreateWorkflowExecutionWithTimeout domainID execution);
           logged (loadWorkflowExecution context);
           logged (release context
                     match result with inl err => Some err | inr _ => None end)].
Proof.
  intros domainID execution outcome Hacq Hload result Houtcome.
  unfold SyncActivity. fold domainID execution.
  rewrite (bind_ok _ _ _ _ _ Hacq).
  assert (Hbody : ∀ (m : M' unit),
            m s1 = (result, s2) →
            ∃ s3, deferRelease context m s1 = (result, s3) ∧
                  calls s3 =
                    calls s ++
                      [logged (getOrCreateWorkflowExecutionWithTimeout domainID execution);
                       logged (loadWorkflowExecution context);
                       logged (release context
                                 match result with
                                 | inl err => Some err
                                 | inr _ => None
                                 end)]).
  { intros m Hm. unfold deferRelease. rewrite Hm.
    pose proof (release_calls context
                  match result with inl err => Some err | inr _ => None end s2)
      as Hrel.
    destruct (call _ s2) as [? s3]. cbn in Hrel. exists s3. split; [done|].
    rewrite Hrel, (call_calls _ _ _ _ Hload), (callE_calls _ _ _ _ Hacq).
    by rewrite <- !app_assoc. }
  apply Hbody. rewrite (bind_ok _ _ _ _ _ Hload).
  subst outcome. destruct r as [err|msBuilder].
  - injection Houtcome as <-. by destruct (isEntityNotExists err).
  - destruct (IsWorkflowExecutionRunning msBuilder); cbn [negb] in *.
    2:{ by injection Houtcome as <-. }
    rewrite Z.geb_leb.
    destruct (GetNextEventID msBuilder <=? ScheduledId request).
    + destruct (sa_Version request <? GetLastWriteVersion msBuilder);
        by injection Houtcome as <-.
    + destruct (GetActivityInfo msBuilder (ScheduledId request)); [done|].
      by injection Houtcome as <-.
Qed.

(** X15 ([ApplyEvents]): a batch that begins with a start event, for a run
    whose mutable state can be loaded, is dropped as a duplicate, whatever
    its version and whatever the state of the run: the call succeeds, the
    counter of duplicates is incremented, and nothing is written. *)
Theorem ApplyEvents_duplicate_start (fuel : nat) (request : ReplicateEventsRequest)
    (inRetry : bool) s (firstEvent : HistoryEvent) (domainID : string)
    context s1 msBuilder s2 :
  let execution := req_WorkflowExecution request in
  let size := Z.of_nat (length (History request)) in
  head (History request) = Some firstEvent →
  ev_EventType firstEvent = EventTypeWorkflowExecutionStarted →
  validateDomainUUID (DomainUUID request) = inr domainID →
  callE (getOrCreateWorkflowExecutionWithTimeout domainID execution)
    (call (RecordTimer ReplicateHistoryEventsScope ReplicationEventsSizeTimer size) s).2
    = (inr context, s1) →
  callE (loadWorkflowExecution context) s1 = (inr msBuilder, s2) →
  ∃ s',
    ApplyEvents fuel request inRetry s = (inr tt, s') ∧
    calls s' =
      calls s ++
        [logged (RecordTimer ReplicateHistoryEventsScope ReplicationEventsSizeTimer size);
         logged (getOrCreateWorkflowExecutionWithTimeout domainID execution);
         logged (loadWorkflowExecution context);
         logged (IncCounter ReplicateHistoryEventsScope
                   DuplicateReplicationEventsCounter);
         logged (release context None)].
Proof.
  intros execution size Hhead Htype Hdomain Hacq Hload. unfold ApplyEvents.
  fold size execution.
  destruct (call_unit (RecordTimer ReplicateHistoryEventsScope
                         ReplicationEventsSizeTimer size) s) as [Ht Htc].
  rewrite (bind_ok _ _ _ _ _ Ht).
  destruct (head_last_Some _ _ Hhead) as (lastEvent & Hlast).
  rewrite Hhead, Hlast, Hdomain, Htype. unfold deferTranslate.
  rewrite (bind_ok (liftE (inr domainID)) _ _ domainID _ eq_refl).
  rewrite (bind_ok _ _ _ _ _ Hacq).
  destruct (call_unit (IncCounter ReplicateHistoryEventsScope
                         DuplicateReplicationEventsCounter) s2) as [Hc Hcc].
  erewrite deferRelease_ok.
  2:{ rewrite (bind_ok _ _ _ _ _ (callE_call _ _ _ _ Hload)). exact Hc. }
  eexists. split; [done|].
  rewrite release_calls, Hcc, (callE_calls _ _ _ _ Hload),
    (callE_calls _ _ _ _ Hacq), Htc.
  by rewrite <- !app_assoc.
Qed.

(** X16 ([ApplyOtherEventsVersionChecking]): a batch of a version above the
    last write version, when the cluster of the last write version is not
    the current cluster.  An error of the domain cache is returned as it
    is.  If the incoming version is from the same cluster as the last write
    version and the current cluster is one of the clusters of the domain,
    the batch is accepted with the mutable state as it is.  Otherwise, as
    long as the DC migration is not enabled in the configuration, the batch
    is refused with [ErrMoreThan2DC], of the bad-request class.  In no case
    is the mutable state reset or written: the domain cache is the only
    collaborator called. *)
Theorem version_checking_not_previously_active (fuel : nat) context msBuilder
    (request : ReplicateEventsRequest) (inRetry : bool) s :
  let rState := GetReplicationState msBuilder in
  let incomingVersion := req_Version request in
  let sameCluster := IsVersionFromSameCluster incomingVersion (LastWriteVersion rState) in
  LastWriteVersion rState < incomingVersion →
  ClusterNameForFailoverVersion (LastWriteVersion rState) ≠ GetCurrentClusterName →
  (∀ err s1,
     callE (GetDomainByID (getDomainID context)) s = (inl err, s1) →
     ApplyOtherEventsVersionChecking fuel context msBuilder request inRetry s
     = (inl err, s1)) ∧
  (∀ clusters s1,
     callE (GetDomainByID (getDomainID context)) s = (inr clusters, s1) →
     calls s1 = calls s ++ [logged (GetDomainByID (getDomainID context))] ∧
     (sameCluster = true → GetCurrentClusterName ∈ clusters →
        ApplyOtherEventsVersionChecking fuel context msBuilder request inRetry s
        = (inr (Some msBuilder), s1)) ∧
     (EnableDCMigration GetConfig (dcState (world s1)) = false →
      sameCluster = false ∨ GetCurrentClusterName ∉ clusters →
        ApplyOtherEventsVersionChecking fuel context msBuilder request inRetry s
        = (inl ErrMoreThan2DC, s1))) ∧
  isBadRequest ErrMoreThan2DC = true.
Proof.
  intros rState incomingVersion sameCluster Hlt Hprev.
  assert (Hhead : ApplyOtherEventsVersionChecking fuel context msBuilder request inRetry s
    = (let! doDCMigration := canDoDCMigration (getDomainID context) in
       if sameCluster && negb doDCMigration
       then ret (Some msBuilder)
       else
         let! dc := getDCState in
         if EnableDCMigration GetConfig dc
         then
           if doDCMigration && inRetry
           then ret (Some msBuilder)
           else if doDCMigration
           then
             let! expectedLastEventID :=
               callE (getLastMatchEventID context msBuilder request) in
             if expectedLastEventID <? LastWriteEventID (GetReplicationState msBuilder)
             then
               match last (History request) with
               | None => throw (Panic "index out of range")
               | Some lastEvent =>
                   let! msBuilder :=
                     resetMutableState fuel context msBuilder expectedLastEventID
                       (ev_Version lastEvent) (Timestamp lastEvent) in
                   ret (Some msBuilder)
               end
             else ret (Some msBuilder)
           else throw ErrMoreThan2DC
         else throw ErrMoreThan2DC) s).
  { unfold ApplyOtherEventsVersionChecking.
    fold rState incomingVersion.
    rewrite Z.gtb_ltb, (proj2 (Z.ltb_ge _ _)) by lia.
    rewrite (proj2 (Z.eqb_neq _ _)) by lia.
    by rewrite bool_decide_eq_true_2. }
  rewrite Hhead. clear Hhead.
  split; [|split; [|done]].
  - intros err s1 Hc. unfold canDoDCMigration.
    rewrite (bind_err _ _ _ _ _ (bind_err _ _ _ _ _ Hc)). done.
  - intros clusters s1 Hc. split; [by apply (callE_calls _ _ _ _ Hc)|].
    assert (Hdo : canDoDCMigration (getDomainID context) s
                  = (inr (bool_decide (GetCurrentClusterName ∉ clusters)), s1)).
    { unfold canDoDCMigration. rewrite (bind_ok _ _ _ _ _ Hc).
      by rewrite canDoDCMigration_foldl. }
    rewrite (bind_ok _ _ _ _ _ Hdo). split.
    + intros -> Hin. by rewrite bool_decide_eq_false_2 by (intros Hn; by apply Hn).
    + intros Hflag Hcase.
      assert (sameCluster && negb (bool_decide (GetCurrentClusterName ∉ clusters))
              = false) as ->.
      { destruct Hcase as [-> | Hnotin]; [done|].
        rewrite bool_decide_eq_true_2 by done. apply andb_false_r. }
      unfold bind, getDCState. by rewrite Hflag.
Qed.


(** X18 ([resetMutableState],
    [conflictResolutionTerminateCurrentRunningIfNotSelf]): the reset of a
    run that is running terminates no run: the conflict counter is
    incremented and the conflict resolver is called with the run id of the
    run itself as previous run, and its error or mutable state is the
    result.  The reset of a closed run whose workflow has a closed current
    run terminates no run either, and passes the id of that current run to
    the resolver. *)
Theorem resetMutableState_no_termination (fuel : nat) context msBuilder
    (lastEventID incomingVersion incomingTimestamp : Z) s :
  let counted :=
    (call (IncCounter ReplicateHistoryEventsScope HistoryConflictsCounter) s).2 in
  let reset (prevRunID : string) : M' MS :=
    (let! requestID := call uuid_New in
     callE (conflictResolver_reset context prevRunID requestID lastEventID
              (GetExecutionInfo msBuilder))) in
  (IsWorkflowExecutionRunning msBuilder = true →
     resetMutableState fuel context msBuilder lastEventID incomingVersion
       incomingTimestamp s
     = reset (ei_RunID (GetExecutionInfo msBuilder)) counted) ∧
  (IsWorkflowExecutionRunning msBuilder = false →
   ∀ resp s1,
     callE (GetCurrentExecution (ei_DomainID (GetExecutionInfo msBuilder))
              (ei_WorkflowID (GetExecutionInfo msBuilder))) counted = (inr resp, s1) →
     resp_CloseStatus resp ≠ WorkflowCloseStatusNone →
     resetMutableState fuel context msBuilder lastEventID incomingVersion
       incomingTimestamp s
     = reset (resp_RunID resp) s1) ∧
  ∀ prevRunID s1,
    ∃ requestID,
      calls (reset prevRunID s1).2 =
        calls s1 ++
          [logged uuid_New;
           logged (conflictResolver_reset context prevRunID requestID lastEventID
                     (GetExecutionInfo msBuilder))].
Proof.
  intros counted reset.
  destruct (call_unit (IncCounter ReplicateHistoryEventsScope
                         HistoryConflictsCounter) s) as [Hc _].
  fold counted in Hc.
  unfold resetMutableState, conflictResolutionTerminateCurrentRunningIfNotSelf.
  rewrite (bind_ok _ _ _ _ _ Hc).
  split; [|split].
  - intros ->. reflexivity.
  - intros -> resp s1 Hresp Hclosed.
    rewrite (bind_ok _ _ _ (resp_RunID resp) s1); [done|].
    rewrite (bind_ok _ _ _ _ _ Hresp). by rewrite bool_decide_eq_true_2.
  - intros prevRunID s1. unfold reset.
    destruct (call_total uuid_New s1) as (requestID & s2 & Hid).
    exists requestID. rewrite (bind_ok _ _ _ _ _ Hid).
    destruct (callE_cases (conflictResolver_reset context prevRunID requestID
                             lastEventID (GetExecutionInfo msBuilder)) s2)
      as (r & s3 & Hr & Hcalls).
    rewrite Hr. cbn [snd]. rewrite Hcalls, (call_calls _ _ _ _ Hid).
    by rewrite <- app_assoc.
Qed.

Lemma notify_calls (clusterName : string) (now : Time)
    (transferTasks timerTasks : list Task) s :
  ∃ standbyTime s',
    notify clusterName now transferTasks timerTasks s = (inr tt, s') ∧
    calls s' =
      calls s ++
        [logged (SetCurrentTime clusterName standbyTime);
         logged (NotifyNewTask clusterName transferTasks);
         logged (NotifyNewTimers clusterName standbyTime timerTasks)].
Proof.
  unfold notify.
  rewrite (bind_ok getDCState _ s (dcState (world s)) s eq_refl).
  set (standbyTime := time_Add now (- StandbyClusterDelay GetConfig (dcState (world s)))).
  destruct (call_unit (SetCurrentTime clusterName standbyTime) s) as [Hn1 Hn1c].
  set (s1 := (call (SetCurrentTime clusterName standbyTime) s).2) in *.
  destruct (call_unit (NotifyNewTask clusterName transferTasks) s1) as [Hn2 Hn2c].
  set (s2 := (call (NotifyNewTask clusterName transferTasks) s1).2) in *.
  destruct (call_unit (NotifyNewTimers clusterName standbyTime timerTasks) s2)
    as [Hn3 Hn3c].
  exists standbyTime. eexists. split.
  - rewrite (bind_ok _ _ _ _ _ Hn1), (bind_ok _ _ _ _ _ Hn2). exact Hn3.
  - rewrite Hn3c, Hn2c, Hn1c. by rewrite <- !app_assoc.
Qed.

(** X19 ([ApplyReplicationTask], [notify]): for a batch that does not begin
    with a start event, on a running workflow, the standby clock and the
    queue processors are notified only once the batch is written: when
    [ApplyReplicationTask] fails it has issued no call of [notify]; when it
    succeeds its last four calls are the write of the batch
    ([replicateWorkflowExecution]) followed by the three calls of [notify],
    for the source cluster of the request and the tasks of the state
    builder, the clock and the timer processor receiving the same time; no
    call of [notify] precedes them. *)
Theorem ApplyReplicationTask_notifies_after_write (fuel : nat) context msBuilder
    (request : ReplicateEventsRequest) (firstEvent : HistoryEvent) s :
  head (History request) = Some firstEvent →
  ev_EventType firstEvent ≠ EventTypeWorkflowExecutionStarted →
  IsWorkflowExecutionRunning msBuilder = true →
  ∃ new,
    calls (ApplyReplicationTask fuel context msBuilder request s).2 = calls s ++ new ∧
    match (ApplyReplicationTask fuel context msBuilder request s).1 with
    | inl _ => forallb (λ c, negb (isNotify c)) new = true
    | inr _ =>
        ∃ before (sBuilder : applyEventsResult MS Task NewRun) msBuilder'
          transactionID now,
          forallb (λ c, negb (isNotify c)) before = true ∧
          new =
            before ++
              [logged (replicateWorkflowExecution context msBuilder' request
                         (getTransferTasks sBuilder) (getTimerTasks sBuilder)
                         (EventId (ae_lastEvent sBuilder)) transactionID
                         (time_Unix0 (Timestamp (ae_lastEvent sBuilder))));
               logged (SetCurrentTime (SourceCluster request) now);
               logged (NotifyNewTask (SourceCluster request) (getTransferTasks sBuilder));
               logged (NotifyNewTimers (SourceCluster request) now
                         (getTimerTasks sBuilder))]
    end.
Proof.
  intros Hhead Htype Hrun.
  assert (Hbranch : ∀ (X : Type) (started other : M' X),
            match ev_EventType firstEvent with
            | EventTypeWorkflowExecutionStarted => started
            | _ => other
            end = other).
  { intros X started other. by destruct (ev_EventType firstEvent). }
  rewrite ApplyReplicationTask_unfold. unfold ApplyReplicationTask_.
  rewrite Hrun. cbn [negb].
  destruct (validateDomainUUID (DomainUUID request)) as [err|domainID].
  { exists []. cbn. by rewrite app_nil_r. }
  cbn [liftE]. rewrite (bind_ok (ret domainID) _ s domainID s eq_refl).
  rewrite bool_decide_eq_false_2 by (by destruct (History request)).
  destruct (call_total uuid_New s) as (requestID & s1 & Hid).
  pose proof (call_calls _ _ _ _ Hid) as Hc1.
  rewrite (bind_ok _ _ _ _ _ Hid).
  destruct (callE_cases (applyEvents msBuilder domainID requestID
              (req_WorkflowExecution request) (History request)
              (default [] (NewRunHistory request)) (EventStoreVersion request)
              (NewRunEventStoreVersion request)) s1)
    as ([err|sBuilder] & s2 & Happly & Hc2).
  { rewrite (bind_err _ _ _ _ _ Happly). eexists. cbn [fst snd].
    split; [by rewrite Hc2, Hc1, <- app_assoc|done]. }
  rewrite (bind_ok _ _ _ _ _ Happly). rewrite Hhead.
  assert (Hrest : ∀ msBuilder' s3 pre,
    calls s3 = calls s ++ pre →
    forallb (λ c, negb (isNotify c)) pre = true →
    let m : M' MS :=
      (let! '(msBuilder, transferTasks, timerTasks) :=
         (let! transactionID := callE GetNextTransferTaskID in
          let now := time_Unix0 (Timestamp (ae_lastEvent sBuilder)) in
          let! msBuilder :=
            callE (replicateWorkflowExecution context msBuilder' request
                     (getTransferTasks sBuilder) (getTimerTasks sBuilder)
                     (EventId (ae_lastEvent sBuilder)) transactionID now) in
          ret (msBuilder, getTransferTasks sBuilder, getTimerTasks sBuilder)) in
       let now := time_Unix0 (Timestamp (ae_lastEvent sBuilder)) in
       do! notify (SourceCluster request) now transferTasks timerTasks in
       ret msBuilder) in
    ∃ new,
      calls (m s3).2 = calls s ++ new ∧
      match (m s3).1 with
      | inl _ => forallb (λ c, negb (isNotify c)) new = true
      | inr _ =>
          ∃ before (sBuilder0 : applyEventsResult MS Task NewRun) msBuilder0
            transactionID now,
            forallb (λ c, negb (isNotify c)) before = true ∧
            new =
              before ++
                [logged (replicateWorkflowExecution context msBuilder0 request
                           (getTransferTasks sBuilder0) (getTimerTasks sBuilder0)
                           (EventId (ae_lastEvent sBuilder0)) transactionID
                           (time_Unix0 (Timestamp (ae_lastEvent sBuilder0))));
                 logged (SetCurrentTime (SourceCluster request) now);
                 logged (NotifyNewTask (SourceCluster request)
                           (getTransferTasks sBuilder0));
                 logged (NotifyNewTimers (SourceCluster request) now
                           (getTimerTasks sBuilder0))]
      end).
  { intros msBuilder' s3 pre Hpre Hquiet m. subst m.
    destruct (callE_cases GetNextTransferTaskID s3)
      as ([err|transactionID] & s4 & Htx & Hc4).
    { rewrite (bind_err _ _ _ _ _ (bind_err _ _ _ _ _ Htx)). eexists. cbn [fst snd].
      split; [by rewrite Hc4, Hpre, <- app_assoc|].
      by rewrite forallb_app, Hquiet. }
    destruct (callE_cases (replicateWorkflowExecution context msBuilder' request
                (getTransferTasks sBuilder) (getTimerTasks sBuilder)
                (EventId (ae_lastEvent sBuilder)) transactionID
                (time_Unix0 (Timestamp (ae_lastEvent sBuilder)))) s4)
      as ([err|written] & s5 & Hw & Hc5).
    { rewrite (bind_err _ _ _ err s5).
      2:{ rewrite (bind_ok _ _ _ _ _ Htx). by rewrite (bind_err _ _ _ _ _ Hw). }
      eexists. cbn [fst snd].
      split; [by rewrite Hc5, Hc4, Hpre, <- !app_assoc|].
      by rewrite forallb_app, Hquiet. }
    rewrite (bind_ok _ _ _ (written, getTransferTasks sBuilder, getTimerTasks sBuilder) s5).
    2:{ rewrite (bind_ok _ _ _ _ _ Htx). by rewrite (bind_ok _ _ _ _ _ Hw). }
    cbv beta iota.
    destruct (notify_calls (SourceCluster request)
                (time_Unix0 (Timestamp (ae_lastEvent sBuilder)))
                (getTransferTasks sBuilder) (getTimerTasks sBuilder) s5)
      as (now & s6 & Hnotify & Hc6).
    rewrite (bind_ok _ _ _ _ _ Hnotify).
    eexists. cbn [fst snd ret]. split.
    - rewrite Hc6, Hc5, Hc4, Hpre. rewrite <- !app_assoc. reflexivity.
    - exists (pre ++ [logged GetNextTransferTaskID]), sBuilder, msBuilder',
        transactionID, now.
      split; [by rewrite forallb_app, Hquiet|]. by rewrite <- !app_assoc. }
  destruct (ae_newRunStateBuilder sBuilder) as [newRunStateBuilder|].
  - destruct (callE_cases GetNextTransferTaskID s2)
      as ([err|transactionID] & s3 & Htx & Hc3).
    { rewrite (bind_err _ _ _ _ _ (bind_err _ _ _ _ _ Htx)). eexists. cbn [fst snd].
      split; [by rewrite Hc3, Hc2, Hc1, <- !app_assoc|done]. }
    destruct (callE_cases (appendFirstBatchHistoryForContinueAsNew context
                (ae_msBuilder sBuilder) newRunStateBuilder transactionID) s3)
      as ([err|appended] & s4 & Happend & Hc4).
    { rewrite (bind_err _ _ _ err s4).
      2:{ rewrite (bind_ok _ _ _ _ _ Htx). exact Happend. }
      eexists. cbn [fst snd].
      split; [by rewrite Hc4, Hc3, Hc2, Hc1, <- !app_assoc|done]. }
    rewrite (bind_ok _ _ _ appended s4).
    2:{ rewrite (bind_ok _ _ _ _ _ Htx). exact Happend. }
    cbv beta. rewrite Hbranch.
    eapply Hrest; [by rewrite Hc4, Hc3, Hc2, Hc1, <- !app_assoc|done].
  - rewrite (bind_ok (ret (ae_msBuilder sBuilder)) _ s2 _ s2 eq_refl).
    cbv beta. rewrite Hbranch.
    eapply Hrest; [by rewrite Hc2, Hc1, <- !app_assoc|done].
Qed.

(** X20 ([replicateWorkflowStarted]): the outcomes of the first create,
    once the first batch is appended to the history.  If the create in
    brand-new mode succeeds, the mutable state and the tasks are returned
    and nothing else is called.  If it fails with an error other than the
    already-started error of the persistence, that error is returned as it
    is and the create is the last call: the history that was appended is
    not deleted.  If the run that is already started is the run of the
    batch itself, the batch is a duplicate: the counter of duplicates is
    incremented and the call succeeds, without deleting the history. *)
Theorem replicateWorkflowStarted_first_create (fuel : nat) context msBuilder0
    (di : option decisionInfo) (sourceCluster : string)
    (history : list HistoryEvent) (sBuilder : applyEventsResult MS Task NewRun)
    (firstEvent lastEvent : HistoryEvent) (transactionID historySize : Z)
    (transferTasks timerTasks : list Task) s s1 s2 :
  let execution := startedExecution msBuilder0 in
  let msBuilder := startedMutableState sourceCluster firstEvent lastEvent msBuilder0 in
  let create :=
    CreateWorkflowExecution
      (createWorkflowRequest msBuilder0 msBuilder di historySize
         transferTasks timerTasks true EmptyString 0) in
  head history = Some firstEvent →
  last history = Some lastEvent →
  callE GetNextTransferTaskID s = (inr transactionID, s1) →
  appendStartedHistory msBuilder0 history firstEvent transactionID s1
    = (inr historySize, s2) →
  setTaskInfo (GetCurrentVersion msBuilder) (time_Unix0 (Timestamp lastEvent))
    (getTransferTasks sBuilder) (getTimerTasks sBuilder)
    = (transferTasks, timerTasks) →
  (∀ s3,
     callE create s2 = (inr tt, s3) →
     replicateWorkflowStarted fuel context msBuilder0 di sourceCluster history sBuilder s
     = (inr (msBuilder, transferTasks, timerTasks), s3) ∧
     calls s3 = calls s2 ++ [logged create]) ∧
  (∀ err s3,
     callE create s2 = (inl err, s3) →
     (∀ currentRunID currentState currentLastWriteVersion,
        err ≠ persistence_WorkflowExecutionAlreadyStartedError
                currentRunID currentState currentLastWriteVersion) →
     replicateWorkflowStarted fuel context msBuilder0 di sourceCluster history sBuilder s
     = (inl err, s3) ∧
     calls s3 = calls s2 ++ [logged create]) ∧
  (∀ currentState currentLastWriteVersion s3,
     callE create s2
     = (inl (persistence_WorkflowExecutionAlreadyStartedError
               (RunId execution) currentState currentLastWriteVersion), s3) →
     ∃ s4,
       replicateWorkflowStarted fuel context msBuilder0 di sourceCluster history
         sBuilder s
       = (inr (msBuilder, transferTasks, timerTasks), s4) ∧
       calls s4 =
         calls s2 ++
           [logged create;
            logged (IncCounter ReplicateHistoryEventsScope
                      DuplicateReplicationEventsCounter)]).
Proof.
  intros execution msBuilder create Hhead Hlast Htx Happend Htasks.
  unfold replicateWorkflowStarted, replicateWorkflowStarted_.
  rewrite Hhead, Hlast.
  rewrite (bind_ok _ _ _ _ _ Htx), (bind_ok _ _ _ _ _ Happend).
  fold execution msBuilder. rewrite Htasks. fold create.
  split; [|split].
  - intros s3 Hcreate.
    rewrite (bind_ok _ _ _ _ _ (try_ok _ _ _ _ Hcreate)).
    split; [done|]. by apply (callE_calls _ _ _ _ Hcreate).
  - intros err s3 Hcreate Hother.
    rewrite (bind_ok _ _ _ _ _ (try_ok _ _ _ _ Hcreate)).
    split; [|by apply (callE_err_calls _ _ _ _ Hcreate)].
    destruct err; try done. by destruct (Hother runID state lastWriteVersion).
  - intros currentState currentLastWriteVersion s3 Hcreate.
    rewrite (bind_ok _ _ _ _ _ (try_ok _ _ _ _ Hcreate)).
    rewrite bool_decide_eq_true_2 by done.
    destruct (call_unit (IncCounter ReplicateHistoryEventsScope
                           DuplicateReplicationEventsCounter) s3) as [Hc Hcc].
    rewrite (bind_ok _ _ _ _ _ Hc). eexists. split; [done|].
    rewrite Hcc, (callE_err_calls _ _ _ _ Hcreate). by rewrite <- app_assoc.
Qed.
End Properties.

(** * Properties of the dynamic-config keys and filters *)

Section DynamicConfig.
Import dynamicconfig.

Lemma allKeys_lookup (k : Key) : allKeys !! Z.to_nat (Key_value k) = Some k.
Proof. by destruct k. Qed.

Lemma keys_NoDup : NoDup (keys <$> allKeys).
Proof. apply (bool_decide_unpack _). by vm_compute. Qed.

(** X1 ([keys]): no two keys share an entry of the table [keys]: two
    different keys have different names, and at most one key has no name. *)
Theorem keys_distinct (k k' : Key) : k ≠ k' → keys k ≠ keys k'.
Proof.
  intros Hne Heq. apply Hne.
  pose proof (allKeys_lookup k) as Hk. pose proof (allKeys_lookup k') as Hk'.
  assert (Z.to_nat (Key_value k) = Z.to_nat (Key_value k')) as Hi.
  { apply (NoDup_lookup _ _ _ (keys k) keys_NoDup).
    - by rewrite list_lookup_fmap, Hk.
    - by rewrite list_lookup_fmap, Hk', Heq. }
  rewrite Hi, Hk' in Hk. congruence.
Qed.

(** X2 ([Key.String]): every key but [lastKeyForTest] has an entry in
    [keys], which [String] returns; [lastKeyForTest] has none and prints as
    the unknown key; and the name identifies the key: two keys other than
    [lastKeyForTest] with the same [String] are the same key. *)
Theorem Key_String_named (k k' : Key) :
  (k ≠ lastKeyForTest → keys k = Some (Key_String k)) ∧
  Key_String lastKeyForTest = Key_String unknownKey ∧
  (k ≠ lastKeyForTest → k' ≠ lastKeyForTest →
   Key_String k = Key_String k' → k = k').
Proof.
  assert (∀ k, k ≠ lastKeyForTest → keys k = Some (Key_String k)) as Hnamed.
  { intros k0 Hk0. by destruct k0. }
  split; [apply Hnamed|]. split; [done|].
  intros Hk Hk' Heq.
  destruct (decide (keys k = keys k')) as [Hkeys|Hkeys].
  - pose proof (allKeys_lookup k) as Hl. pose proof (allKeys_lookup k') as Hl'.
    assert (Z.to_nat (Key_value k) = Z.to_nat (Key_value k')) as Hi.
    { apply (NoDup_lookup _ _ _ (keys k) keys_NoDup).
      - by rewrite list_lookup_fmap, Hl.
      - by rewrite list_lookup_fmap, Hl', Hkeys. }
    rewrite Hi, Hl' in Hl. congruence.
  - rewrite (Hnamed k Hk), (Hnamed k' Hk'), Heq in Hkeys. done.
Qed.

(** X3 ([Filter.String]): [String] never indexes [filters] out of range,
    whatever the integer; it names [DomainName] and [TaskListName] only:
    [TaskType], although it has an entry in [filters], prints as the
    unknown filter, as every other value does. *)
Theorem Filter_String_spec (f : Filter) :
  Filter_String f =
    Some (if bool_decide (f = DomainName) then "domainName"
          else if bool_decide (f = TaskListName) then "taskListName"
          else "unknownFilter")%string.
Proof.
  unfold Filter_String, unknownFilter, TaskListName, DomainName.
  destruct (Z.leb_spec f 0); cbn.
  { by rewrite !bool_decide_eq_false_2 by lia. }
  destruct (Z.gtb_spec f 2); cbn.
  { by rewrite !bool_decide_eq_false_2 by lia. }
  assert (f = 1 ∨ f = 2) as [-> | ->] by lia; done.
Qed.

(** X4 ([TaskListFilter], [DomainFilter], [TaskTypeFilter]): each option
    writes its own entry of the filter map and no other, so the options of
    different filters can be applied in any order, and of two options of
    the same filter the one applied last wins. *)
Theorem FilterOption_entries (filterMap : gmap Z FilterValue)
    (taskList domain domain' : string) (taskType : Z) :
  let m := TaskListFilter taskList (DomainFilter domain
             (TaskTypeFilter taskType filterMap)) in
  m !! TaskListName = Some (FilterString taskList) ∧
  m !! DomainName = Some (FilterString domain) ∧
  m !! TaskType = Some (FilterInt taskType) ∧
  (∀ f, f ≠ TaskListName → f ≠ DomainName → f ≠ TaskType →
        m !! f = filterMap !! f) ∧
  m = TaskTypeFilter taskType (DomainFilter domain
        (TaskListFilter taskList filterMap)) ∧
  DomainFilter domain' (DomainFilter domain filterMap) =
    DomainFilter domain' filterMap.
Proof.
  unfold TaskListFilter, DomainFilter, TaskTypeFilter,
    TaskListName, DomainName, TaskType, Filter. cbv beta zeta.
  split; [by rewrite lookup_insert_eq|].
  split; [by rewrite lookup_insert_ne, lookup_insert_eq by done|].
  split; [by rewrite !lookup_insert_ne, lookup_insert_eq by done|].
  split; [intros f ? ? ?; by rewrite !lookup_insert_ne by done|].
  split; [|by rewrite insert_insert_eq].
  apply map_eq. intros f.
  destruct (decide (f = 2)) as [->|];
    [by rewrite lookup_insert_eq, !lookup_insert_ne, lookup_insert_eq by done|].
  destruct (decide (f = 1)) as [->|];
    [by rewrite lookup_insert_ne, !lookup_insert_eq, lookup_insert_ne,
       lookup_insert_eq by done|].
  destruct (decide (f = 3)) as [->|];
    [by rewrite !lookup_insert_ne, !lookup_insert_eq by done|].
  by rewrite !lookup_insert_ne by done.
Qed.

End DynamicConfig.

Section Limits.
Context {C DCState : Type} `{!Collection C DCState}.

(** X5 ([NewConfig]): the warning limit of the blob size is built from the
    key [BlobSizeLimitError] (named limit.blobSize.error), with the default
    256 KiB, not from the key [BlobSizeLimitWarn] (named
    limit.blobSize.warn).  Hence a value registered under
    limit.blobSize.warn leaves the warning limit as it was, and a value
    registered under limit.blobSize.error becomes both the error limit and
    the warning limit.  [setValue] is the registration of a value under a
    key. *)
Theorem BlobSizeLimitWarn_reads_BlobSizeLimitError (dc : C)
    (setValue : dynamicconfig.Key → Z → DCState → DCState) :
  let cfg := NewConfigLimits dc in
  (∀ d v domain st,
     GetIntPropertyFilteredByDomain dc dynamicconfig.BlobSizeLimitError d domain
       (setValue dynamicconfig.BlobSizeLimitWarn v st)
     = GetIntPropertyFilteredByDomain dc dynamicconfig.BlobSizeLimitError d domain st) →
  (∀ d v domain st,
     GetIntPropertyFilteredByDomain dc dynamicconfig.BlobSizeLimitError d domain
       (setValue dynamicconfig.BlobSizeLimitError v st) = v) →
  BlobSizeLimitWarn cfg
    = GetIntPropertyFilteredByDomain dc dynamicconfig.BlobSizeLimitError (256 * 1024) ∧
  dynamicconfig.keys dynamicconfig.BlobSizeLimitError
    = Some "limit.blobSize.error"%string ∧
  dynamicconfig.keys dynamicconfig.BlobSizeLimitWarn
    = Some "limit.blobSize.warn"%string ∧
  (∀ v domain st,
     BlobSizeLimitWarn cfg domain (setValue dynamicconfig.BlobSizeLimitWarn v st)
     = BlobSizeLimitWarn cfg domain st) ∧
  (∀ v domain st,
     BlobSizeLimitWarn cfg domain (setValue dynamicconfig.BlobSizeLimitError v st) = v ∧
     BlobSizeLimitError cfg domain (setValue dynamicconfig.BlobSizeLimitError v st) = v).
Proof.
  intros cfg Hother Hsame. split; [done|]. split; [done|]. split; [done|].
  split.
  - intros v domain st. apply Hother.
  - intros v domain st. split; apply Hsame.
Qed.
End Limits.

(** * The properties on the concrete executions *)

Import Ref Scenario.

(** C7 on three blobs: an unknown encoding, an empty batch, a batch of one
    event. *)
Lemma deserializeBlob_witness :
  deserializeBlob unknownBlob (state standby)
    = (inl ErrUnknownEncodingType, state standby) ∧
  (deserializeBlob emptyBlob (state standby)).1 = inl ErrEmptyHistoryRawEventBatch ∧
  (deserializeBlob batchBlob (state standby)).1
    = inr [event 4 10 EventTypeDecisionTaskCompleted].
Proof.
  split; [|split].
  - apply (deserializeBlob_spec unknownBlob (state standby)). vm_compute. discriminate.
  - destruct (deserializeBlob_spec emptyBlob (state standby)) as (_ & Hthrift & _).
    edestruct (Hthrift eq_refl) as [Hempty _]; [vm_compute; reflexivity|].
    by rewrite Hempty.
  - destruct (deserializeBlob_spec batchBlob (state standby)) as (_ & Hthrift & _).
    edestruct (Hthrift eq_refl) as [_ Hbatch]; [vm_compute; reflexivity|].
    by rewrite Hbatch.
Defined.

(** C8 on a run last written by the peer. *)
Lemma guarded_repairs_noop_witness :
  garbageCollectSignals context standbyAgain (History staleBatch) (state standbyAgain)
    = (inr (false, standbyAgain), state standbyAgain) ∧
  flushEventsBuffer context standbyAgain (state standbyAgain)
    = (inr standbyAgain, state standbyAgain).
Proof.
  apply (guarded_repairs_noop context standbyAgain (History staleBatch)
           (state standbyAgain)).
  vm_compute. reflexivity.
Defined.

(** C9 on a closed run, where nothing is appended, and on an open run, which
    the injected event closes. *)
Lemma terminateWorkflow_witness :
  (terminateWorkflow 1 "d" "wf" "R1" 30 1000 (state (run false 10 3 [] None))).1 = inr tt ∧
  calls (terminateWorkflow 1 "d" "wf" "R1" 30 1000 (state (run false 10 3 [] None))).2 =
    [logged (getOrCreateWorkflowExecutionWithTimeout "d"
               {| WorkflowId := "wf"; RunId := "R1" |});
     logged (loadWorkflowExecution context);
     logged (release context None)] ∧
  (terminateWorkflow 1 "d" "wf" "R1" 30 1000 (state standby)).1 = inr tt ∧
  (ms_running <$>
     w_executions (world (terminateWorkflow 1 "d" "wf" "R1" 30 1000 (state standby)).2)
       !! "R1"%string) = Some false.
Proof.
  edestruct (terminateWorkflow_spec 1 "d" "wf" "R1" 30 1000
               (state (run false 10 3 [] None))) as [Hclosed _];
    [vm_compute; reflexivity | vm_compute; reflexivity |].
  destruct (Hclosed eq_refl) as (s3 & Hresult & Hcalls).
  edestruct (terminateWorkflow_spec 1 "d" "wf" "R1" 30 1000 (state standby))
    as [_ Hopen]; [vm_compute; reflexivity | vm_compute; reflexivity |].
  rewrite Hresult, (Hopen eq_refl). cbn [fst snd]. rewrite Hcalls.
  repeat split; vm_compute; reflexivity.
Defined.

(** C10: a value registered under history.standbyClusterDelay leaves the
    delay at its default, one under history.acquireShardInterval sets it. *)
Lemma StandbyClusterDelay_witness :
  StandbyClusterDelay (NewConfig tt 4 false)
    (setValue dynamicconfig.StandbyClusterDelay 7 ∅) = 5 * time_Minute ∧
  StandbyClusterDelay (NewConfig tt 4 false)
    (setValue dynamicconfig.AcquireShardInterval 7 ∅) = 7 ∧
  calls (notify "B" 1000 [] [] (state standby)).2 =
    [logged (SetCurrentTime "B" (1000 - 5 * time_Minute));
     logged (NotifyNewTask "B" []);
     logged (NotifyNewTimers "B" (1000 - 5 * time_Minute) [])].
Proof.
  destruct (StandbyClusterDelay_reads_AcquireShardInterval (C := unit) tt 4 false setValue)
    as (Hdefault & _ & _ & _ & Hother & Hsame & Hnotify).
  - reflexivity.
  - intros d v st. unfold setValue. cbn. by rewrite lookup_insert_ne.
  - intros d v st. unfold setValue. cbn. by rewrite lookup_insert_eq.
  - split; [|split].
    + by rewrite Hother, Hdefault.
    + apply Hsame.
    + destruct (Hnotify "B" 1000 [] [] (state standby)) as (s' & Hresult & Hcalls).
      rewrite Hresult. cbn [snd]. rewrite Hcalls. reflexivity.
Defined.

(** C3 on the run of scenario S1: a duplicate, an early batch without and
    with [ForceBufferEvents] (scenario S2), and the batch that is next. *)
Lemma ApplyOtherEvents_witness :
  (ApplyOtherEvents 1 context standby
     (batch 10 2 [event 2 10 EventTypeDecisionTaskScheduled] ∅ false) (state standby)).1
    = inr standby ∧
  (ApplyOtherEvents 1 context standby
     (batch 10 5 [event 5 10 EventTypeActivityTaskScheduled] ∅ false) (state standby)).1
    = inl (newRetryTaskErrorWithHint ErrRetryBufferEventsMsg "d" "wf" "R1" 4) ∧
  (∃ msBuilder s',
     ApplyOtherEvents 1 context standby
       (batch 10 5 [event 5 10 EventTypeActivityTaskScheduled] ∅ true) (state standby)
       = (inr msBuilder, s') ∧
     GetAllBufferedReplicationTasks msBuilder
       = {[ 5 := bufferedTask
                   (batch 10 5 [event 5 10 EventTypeActivityTaskScheduled] ∅ true) ]}) ∧
  (∃ msBuilder s',
     ApplyOtherEvents 1 context standby
       (batch 10 4 [event 4 10 EventTypeDecisionTaskCompleted] ∅ false) (state standby)
       = (inr msBuilder, s') ∧
     GetNextEventID msBuilder = 5).
Proof.
  split; [|split; [|split]].
  - destruct (ApplyOtherEvents_spec 1 context standby
                (batch 10 2 [event 2 10 EventTypeDecisionTaskScheduled] ∅ false)
                (state standby)) as (Hduplicate & _).
    destruct Hduplicate as (s' & Hresult & _); [vm_compute; reflexivity|].
    by rewrite Hresult.
  - destruct (ApplyOtherEvents_spec 1 context standby
                (batch 10 5 [event 5 10 EventTypeActivityTaskScheduled] ∅ false)
                (state standby)) as (_ & _ & _ & Hretry & _).
    rewrite Hretry; [reflexivity | vm_compute; reflexivity | reflexivity | reflexivity].
  - destruct (ApplyOtherEvents_spec 1 context standby
                (batch 10 5 [event 5 10 EventTypeActivityTaskScheduled] ∅ true)
                (state standby)) as (_ & _ & _ & _ & Hbuffer).
    edestruct Hbuffer as [_ Hnew];
      [vm_compute; reflexivity | reflexivity | reflexivity | vm_compute; reflexivity |].
    rewrite Hnew; [|left; vm_compute; reflexivity].
    eexists _, _. split; vm_compute; reflexivity.
  - destruct (ApplyOtherEvents_spec 1 context standby
                (batch 10 4 [event 4 10 EventTypeDecisionTaskCompleted] ∅ false)
                (state standby)) as (_ & Happly & _).
    rewrite Happly; [|reflexivity].
    eexists _, _. split; vm_compute; reflexivity.
Defined.

(** C5 on scenario S6: an older heartbeat is a no-op, a higher attempt is
    applied and resets the timer bits. *)
Lemma SyncActivity_witness :
  (SyncActivity (syncActivity 10 0 4000) (state heartbeating)).1 = inr tt ∧
  calls (SyncActivity (syncActivity 10 0 4000) (state heartbeating)).2 =
    [logged (getOrCreateWorkflowExecutionWithTimeout "d"
               {| WorkflowId := "wf"; RunId := "R1" |});
     logged (loadWorkflowExecution context);
     logged (release context None)] ∧
  (w_executions (world (SyncActivity (syncActivity 10 1 5000) (state heartbeating)).2)
     !! "R1"%string) ≫= (λ ms, ms_activities ms !! 7)
    = Some {| ai_Version := 10; ScheduleID := 7; ai_Attempt := 1;
              LastHeartBeatUpdatedTime := 5000; TimerTaskStatus := 0 |}.
Proof.
  edestruct (SyncActivity_spec (syncActivity 10 0 4000) (state heartbeating))
    as (Hnoop & _);
    [vm_compute; reflexivity | vm_compute; reflexivity | reflexivity
    | vm_compute; reflexivity | vm_compute; reflexivity |].
  destruct (Hnoop eq_refl) as [Hresult Hcalls].
  edestruct (SyncActivity_spec (syncActivity 10 1 5000) (state heartbeating))
    as (_ & Hupdate & _);
    [vm_compute; reflexivity | vm_compute; reflexivity | reflexivity
    | vm_compute; reflexivity | vm_compute; reflexivity |].
  rewrite Hresult, (Hupdate eq_refl). cbn [fst snd].
  split; [reflexivity|]. split; [exact Hcalls|]. vm_compute. reflexivity.
Defined.

(** The request whose triple equals the stored one is applied. *)
Lemma SyncActivity_equal_triple_applied :
  lex_ltb (10, 0, 5000) (10, 0, 5000) = false ∧
  ¬ (∃ s3,
       SyncActivity (syncActivity 10 0 5000) (state heartbeating) = (inr tt, s3) ∧
       calls s3 =
         [logged (getOrCreateWorkflowExecutionWithTimeout "d"
                    {| WorkflowId := "wf"; RunId := "R1" |});
          logged (loadWorkflowExecution context);
          logged (release context None)]) ∧
  (∃ msBuilder,
     calls (SyncActivity (syncActivity 10 0 5000) (state heartbeating)).2 =
       [logged (getOrCreateWorkflowExecutionWithTimeout "d"
                  {| WorkflowId := "wf"; RunId := "R1" |});
        logged (loadWorkflowExecution context);
        logged GetNextTransferTaskID;
        logged (updateHelper context msBuilder [] 100 5000 "B");
        logged (release context None)]).
Proof.
  split; [reflexivity|]. split; [|eexists; vm_compute; reflexivity].
  intros (s3 & Hresult & Hcalls).
  apply (f_equal (λ r, length (calls r.2))) in Hresult.
  cbn [snd] in Hresult. rewrite Hcalls in Hresult.
  vm_compute in Hresult. discriminate.
Defined.

(** C6 on scenario S3: the stale batch is dropped and its signal is added. *)
Lemma stale_batch_witness :
  (ApplyOtherEventsVersionChecking 1 context active staleBatch false (state active)).1
    = inr None ∧
  (ms_signalCount <$>
     w_executions
       (world (ApplyOtherEventsVersionChecking 1 context active staleBatch false
                 (state active)).2) !! "R1"%string)
    = Some 1 ∧
  (ms_nextEventID <$>
     w_executions
       (world (ApplyOtherEventsVersionChecking 1 context active staleBatch false
                 (state active)).2) !! "R1"%string)
    = Some 9.
Proof.
  edestruct (stale_batch_spec 1 context active staleBatch false (state active))
    as (_ & _ & _ & Hgc & _); [vm_compute; reflexivity|].
  edestruct Hgc as [_ Hsignal]; [vm_compute; reflexivity | vm_compute; done|].
  erewrite Hsignal;
    [|vm_compute; reflexivity | vm_compute; reflexivity | vm_compute; reflexivity].
  repeat split; vm_compute; reflexivity.
Defined.

(** A stale batch on a run last written by the peer: the batch is dropped and
    its signal is not added. *)
Lemma stale_batch_signal_lost :
  req_Version staleBatch < LastWriteVersion (GetReplicationState standbyAgain) ∧
  existsb isSignaled (History staleBatch) = true ∧
  ApplyOtherEventsVersionChecking 1 context standbyAgain staleBatch false
    (state standbyAgain)
  = (inr None,
     {| world := world (state standbyAgain);
        calls := [logged (IncCounter ReplicateHistoryEventsScope
                            StaleReplicationEventsCounter)] |}) ∧
  w_executions (world (state standbyAgain)) !! "R1"%string = Some standbyAgain ∧
  ms_signalCount standbyAgain = 0 ∧
  ¬ (∃ msBuilder s',
       garbageCollectSignals context standbyAgain (History staleBatch)
         (state standbyAgain) = (inr (true, msBuilder), s') ∧
       msBuilder = addSignals (History staleBatch)
                     (UpdateReplicationStateVersion
                        (GetLastWriteVersion standbyAgain) true standbyAgain)).
Proof.
  split; [vm_compute; reflexivity|]. split; [reflexivity|].
  split; [vm_compute; reflexivity|]. split; [vm_compute; reflexivity|].
  split; [reflexivity|].
  intros (msBuilder & s' & Hgc & _). vm_compute in Hgc. discriminate.
Defined.





(** ** Further properties on the scenarios *)

(** X1: the history and the frontend service read their request limits under
    different names. *)
Lemma keys_distinct_witness :
  dynamicconfig.keys dynamicconfig.HistoryRPS
  ≠ dynamicconfig.keys dynamicconfig.FrontendRPS.
Proof. apply keys_distinct. discriminate. Defined.

(** X2 on the key of the shard controller. *)
Lemma Key_String_named_witness :
  dynamicconfig.keys dynamicconfig.AcquireShardInterval
    = Some (dynamicconfig.Key_String dynamicconfig.AcquireShardInterval) ∧
  dynamicconfig.Key_String dynamicconfig.lastKeyForTest = "unknownKey"%string ∧
  dynamicconfig.Key_String dynamicconfig.AcquireShardInterval
    ≠ dynamicconfig.Key_String dynamicconfig.StandbyClusterDelay.
Proof.
  destruct (Key_String_named dynamicconfig.AcquireShardInterval
              dynamicconfig.StandbyClusterDelay) as (Hnamed & Hlast & Hinj).
  split; [apply Hnamed; discriminate|]. split; [rewrite Hlast; reflexivity|].
  intros Heq. apply Hinj in Heq; discriminate.
Defined.

(** X5: a value registered under limit.blobSize.warn leaves the warning limit
    at its default, one under limit.blobSize.error sets both limits. *)
Lemma BlobSizeLimitWarn_witness :
  BlobSizeLimitWarn (NewConfigLimits tt) "d"
    (setValue dynamicconfig.BlobSizeLimitWarn 7 ∅) = 256 * 1024 ∧
  BlobSizeLimitWarn (NewConfigLimits tt) "d"
    (setValue dynamicconfig.BlobSizeLimitError 7 ∅) = 7 ∧
  BlobSizeLimitError (NewConfigLimits tt) "d"
    (setValue dynamicconfig.BlobSizeLimitError 7 ∅) = 7.
Proof.
  destruct (BlobSizeLimitWarn_reads_BlobSizeLimitError (C := unit) tt setValue)
    as (Hdefault & _ & _ & Hother & Hsame).
  - intros d v domain st. unfold setValue. cbn. by rewrite lookup_insert_ne.
  - intros d v domain st. unfold setValue. cbn. by rewrite lookup_insert_eq.
  - split; [|apply Hsame].
    by rewrite Hother, Hdefault.
Defined.

(** X6: the domain of the scenarios is replicated to the current cluster. *)
Lemma canDoDCMigration_witness :
  canDoDCMigration "d" (state standby)
  = (inr false,
     {| world := world (state standby); calls := [logged (GetDomainByID "d")] |}).
Proof.
  destruct (canDoDCMigration_spec "d" (state standby)) as (Hok & _ & _).
  erewrite Hok; [|vm_compute; reflexivity]. reflexivity.
Defined.

(** X7: the peer and the local map hold an entry of version 10; the
    checkpoint is the entry of the peer. *)
Lemma getLatestCheckpoint_remote_first_witness :
  getLatestCheckpoint
    {[ "B"%string := {| ri_Version := 10; ri_LastEventId := 2 |} ]}
    {[ "B"%string := {| ri_Version := 10; ri_LastEventId := 3 |} ]} = (10, 2).
Proof.
  destruct (getLatestCheckpoint_remote_first
              {[ "B"%string := {| ri_Version := 10; ri_LastEventId := 2 |} ]}
              {[ "B"%string := {| ri_Version := 10; ri_LastEventId := 3 |} ]}
              {| ri_Version := 10; ri_LastEventId := 2 |})
    as (ri & (cluster & Hri) & Hcp).
  - intros ri [(cluster & Hri) | (cluster & Hri)];
      apply lookup_singleton_Some in Hri as [_ <-]; vm_compute; discriminate.
  - exists "B"%string. reflexivity.
  - intros ri (cluster & Hri). apply lookup_singleton_Some in Hri as [_ <-].
    vm_compute. discriminate.
  - apply lookup_singleton_Some in Hri as [_ <-]. exact Hcp.
Defined.


(** X9: a batch for a run that does not exist, while the run ["R1"] of the
    workflow is running: the error is of the retry class. *)
Lemma ApplyEvents_error_translated_witness :
  (ApplyEvents 1 orphanBatch false (state standby)).1
    = inl (newRetryTaskErrorWithHint ErrWorkflowNotFoundMsg "d" "wf" "R1" 4) ∧
  (ApplyEvents 1 orphanBatch false (state standby)).1 ≠ inl EntityNotExistsError.
Proof.
  assert (Hrun : ApplyEvents 1 orphanBatch false (state standby)
                 = (inl (newRetryTaskErrorWithHint ErrWorkflowNotFoundMsg "d" "wf" "R1" 4),
                    (ApplyEvents 1 orphanBatch false (state standby)).2)).
  { vm_compute. reflexivity. }
  destruct (ApplyEvents_error_translated 1 orphanBatch false (state standby) _ _ Hrun)
    as (Hne & _).
  split; [by rewrite Hrun|]. rewrite Hrun. cbn [fst]. congruence.
Defined.


(** X11 on a heartbeat that is applied and on the termination of a running
    run. *)
Lemma context_released_last_witness :
  last (calls (SyncActivity (syncActivity 10 1 5000) (state heartbeating)).2)
    = Some (logged (release context None)) ∧
  last (calls (terminateWorkflow 1 "d" "wf" "R1" 30 2000 (state standby)).2)
    = Some (logged (release context None)).
Proof.
  destruct context_released_last as [Hsync Hterminate]. split.
  - erewrite Hsync; [|vm_compute; reflexivity]. vm_compute. reflexivity.
  - erewrite Hterminate; [|vm_compute; reflexivity]. vm_compute. reflexivity.
Defined.


(** X13 on a closed run, on a run with an empty buffer and on the run of
    scenario S2, whose buffered batch begins at 6 while the next event id
    is 4. *)
Lemma flushReplicationBuffer_nothing_to_apply_witness :
  flushReplicationBuffer 1 context (run false 10 3 [] None) (state standby)
    = (inr (run false 10 3 [] None), state standby) ∧
  flushReplicationBuffer 1 context standby (state standby)
    = (inr standby,
       {| world := world (state standby);
          calls := [logged (RecordTimer ReplicateHistoryEventsScope
                              UnbufferReplicationTaskTimer 0)] |}) ∧
  flushReplicationBuffer 1 context buffering (state buffering)
    = (inr buffering,
       {| world := world (state buffering);
          calls := [logged (RecordTimer ReplicateHistoryEventsScope
                              UnbufferReplicationTaskTimer 0)] |}).
Proof.
  split; [|split].
  - by apply (flushReplicationBuffer_nothing_to_apply 1 context (run false 10 3 [] None)
                (state standby)).
  - destruct (flushReplicationBuffer_nothing_to_apply 0 context standby (state standby))
      as [_ Hrun].
    destruct Hrun as (s' & Hresult & Hcalls); [reflexivity | | reflexivity |].
    + intros firstEventID bt Hbt.
      change ((∅ : gmap Z BufferedReplicationTask) !! firstEventID = Some bt) in Hbt.
      by rewrite lookup_empty in Hbt.
    + rewrite Hresult. f_equal. destruct s' as [w c]. cbn in Hcalls. subst c.
      f_equal. apply (f_equal (λ r, world r.2)) in Hresult. vm_compute in Hresult.
      by rewrite <- Hresult.
  - destruct (flushReplicationBuffer_nothing_to_apply 0 context buffering
                (state buffering)) as [_ Hrun].
    destruct Hrun as (s' & Hresult & Hcalls); [reflexivity | | reflexivity |].
    + intros firstEventID bt Hbt. cbn -[singletonM lookup] in Hbt.
      apply lookup_singleton_Some in Hbt as [_ <-]. vm_compute. discriminate.
    + rewrite Hresult. f_equal. destruct s' as [w c]. cbn in Hcalls. subst c.
      f_equal. apply (f_equal (λ r, world r.2)) in Hresult. vm_compute in Hresult.
      by rewrite <- Hresult.
Defined.

(** X14: a heartbeat for the activity scheduled at event 7, on a run that
    has reached event 3 only.  When the run was last written at version 30
    the request of version 10 is dropped; when it was last written at
    version 10 the request is refused with the next event id 4 as hint. *)
Lemma SyncActivity_not_applied_witness :
  SyncActivity (syncActivity 10 0 5000) (state behind)
    = (inr tt,
       {| world := world (state behind);
          calls :=
            [logged (getOrCreateWorkflowExecutionWithTimeout "d"
                       {| WorkflowId := "wf"; RunId := "R1" |});
             logged (loadWorkflowExecution context);
             logged (release context None)] |}) ∧
  (SyncActivity (syncActivity 10 0 5000) (state standby)).1
    = inl (newRetryTaskErrorWithHint ErrRetrySyncActivityMsg "d" "wf" "R1" 4).
Proof.
  split.
  - edestruct (SyncActivity_not_applied (syncActivity 10 0 5000) (state behind))
      as (s3 & Hresult & Hcalls);
      [vm_compute; reflexivity | vm_compute; reflexivity | vm_compute; reflexivity |].
    rewrite Hresult. f_equal. destruct s3 as [w c]. cbn in Hcalls. subst c.
    f_equal. apply (f_equal (λ r, world r.2)) in Hresult. vm_compute in Hresult.
    by rewrite <- Hresult.
  - edestruct (SyncActivity_not_applied (syncActivity 10 0 5000) (state standby))
      as (s3 & Hresult & Hcalls);
      [vm_compute; reflexivity | vm_compute; reflexivity | vm_compute; reflexivity |].
    by rewrite Hresult.
Defined.

(** X15: a start batch of version 30 for the run ["R1"], which exists. *)
Lemma ApplyEvents_duplicate_start_witness :
  ApplyEvents 1 (batch 30 1 [event 1 30 EventTypeWorkflowExecutionStarted] ∅ false)
    false (state standby)
  = (inr tt,
     {| world := world (state standby);
        calls :=
          [logged (RecordTimer ReplicateHistoryEventsScope ReplicationEventsSizeTimer 1);
           logged (getOrCreateWorkflowExecutionWithTimeout "d"
                     {| WorkflowId := "wf"; RunId := "R1" |});
           logged (loadWorkflowExecution context);
           logged (IncCounter ReplicateHistoryEventsScope
                     DuplicateReplicationEventsCounter);
           logged (release context None)] |}).
Proof.
  edestruct (ApplyEvents_duplicate_start 1
               (batch 30 1 [event 1 30 EventTypeWorkflowExecutionStarted] ∅ false)
               false (state standby)) as (s' & Hresult & Hcalls);
    [reflexivity | reflexivity | reflexivity | vm_compute; reflexivity
    | vm_compute; reflexivity |].
  rewrite Hresult. f_equal. destruct s' as [w c]. cbn in Hcalls. subst c.
  f_equal. apply (f_equal (λ r, world r.2)) in Hresult. vm_compute in Hresult.
  by rewrite <- Hresult.
Defined.

(** X16 on the run of scenario S1, last written by the peer at version 10:
    a batch of version 30, of the peer again, is accepted; a batch of
    version 25, of no known cluster, is refused. *)
Lemma version_checking_not_previously_active_witness :
  (ApplyOtherEventsVersionChecking 1 context standby
     (batch 30 4 [event 4 30 EventTypeDecisionTaskScheduled] ∅ false) false
     (state standby)).1 = inr (Some standby) ∧
  (ApplyOtherEventsVersionChecking 1 context standby
     (batch 25 4 [event 4 25 EventTypeDecisionTaskScheduled] ∅ false) false
     (state standby)).1 = inl ErrMoreThan2DC.
Proof.
  split.
  - edestruct (version_checking_not_previously_active 1 context standby
                 (batch 30 4 [event 4 30 EventTypeDecisionTaskScheduled] ∅ false) false
                 (state standby)) as (_ & Hok & _);
      [vm_compute; reflexivity | vm_compute; discriminate |].
    edestruct Hok as (_ & Haccept & _); [vm_compute; reflexivity|].
    rewrite Haccept; [reflexivity | reflexivity |].
    apply (bool_decide_unpack _). vm_compute. reflexivity.
  - edestruct (version_checking_not_previously_active 1 context standby
                 (batch 25 4 [event 4 25 EventTypeDecisionTaskScheduled] ∅ false) false
                 (state standby)) as (_ & Hok & _);
      [vm_compute; reflexivity | vm_compute; discriminate |].
    edestruct Hok as (_ & _ & Hrefuse); [vm_compute; reflexivity|].
    rewrite Hrefuse; [reflexivity | vm_compute; reflexivity | left; reflexivity].
Defined.


(** X18 on the run of scenario S3, which is running. *)
Lemma resetMutableState_no_termination_witness :
  calls (resetMutableState 1 context active 5 30 1000 (state active)).2
  = [logged (IncCounter ReplicateHistoryEventsScope HistoryConflictsCounter);
     logged uuid_New;
     logged (conflictResolver_reset context "R1" "00000000-0000-0000-0000-000000000000"
               5 (GetExecutionInfo active))].
Proof.
  destruct (resetMutableState_no_termination 1 context active 5 30 1000 (state active))
    as (Hrunning & _ & _).
  rewrite (Hrunning eq_refl). vm_compute. reflexivity.
Defined.

(** X19: the batch of event 4 on the run of scenario S1 is written, and the
    shard is notified then; with an empty domain id nothing is called. *)
Lemma ApplyReplicationTask_notifies_after_write_witness :
  calls (ApplyReplicationTask 1 context standby
           (batch 10 4 [event 4 10 EventTypeDecisionTaskScheduled] ∅ false)
           (state standby)).2
  = [logged uuid_New;
     logged (applyEvents standby "d" "00000000-0000-0000-0000-000000000000"
               {| WorkflowId := "wf"; RunId := "R1" |}
               [event 4 10 EventTypeDecisionTaskScheduled] [] 0 0);
     logged GetNextTransferTaskID;
     logged (replicateWorkflowExecution context standby
               (batch 10 4 [event 4 10 EventTypeDecisionTaskScheduled] ∅ false)
               [] [] 4 100 1000);
     logged (SetCurrentTime "B" (1000 - 5 * time_Minute));
     logged (NotifyNewTask "B" []);
     logged (NotifyNewTimers "B" (1000 - 5 * time_Minute) [])] ∧
  ∃ new,
    calls (ApplyReplicationTask 1 context standby
             (batch 10 4 [event 4 10 EventTypeDecisionTaskScheduled] ∅ false)
             (state standby)).2 = new ∧
    existsb isNotify new = true.
Proof.
  destruct (ApplyReplicationTask_notifies_after_write 1 context standby
              (batch 10 4 [event 4 10 EventTypeDecisionTaskScheduled] ∅ false)
              (event 4 10 EventTypeDecisionTaskScheduled) (state standby))
    as (new & Hcalls & Houtcome); [reflexivity | discriminate | reflexivity |].
  split; [vm_compute; reflexivity|].
  exists new. split; [exact Hcalls|].
  cbn [calls state app] in Hcalls. subst new. vm_compute. reflexivity.
Defined.

(** X20: the first batch of the run ["R2"] on a shard where the workflow has
    no current run, and on a shard where ["R2"] is the current run already. *)
Lemma replicateWorkflowStarted_first_create_witness :
  (replicateWorkflowStarted 1 contextR2 started None "B" (History startBatch)
     startedBuilder vacant).1
    = inr (startedMutableState "B" (event 1 30 EventTypeWorkflowExecutionStarted)
             (event 1 30 EventTypeWorkflowExecutionStarted) started, [], []) ∧
  (∃ s',
     replicateWorkflowStarted 1 contextR2 started None "B" (History startBatch)
       startedBuilder restarted
     = (inr (startedMutableState "B" (event 1 30 EventTypeWorkflowExecutionStarted)
               (event 1 30 EventTypeWorkflowExecutionStarted) started, [], []), s') ∧
     last (calls s')
       = Some (logged (IncCounter ReplicateHistoryEventsScope
                         DuplicateReplicationEventsCounter))).
Proof.
  split.
  - edestruct (replicateWorkflowStarted_first_create 1 contextR2 started None "B"
                 (History startBatch) startedBuilder)
      with (s := vacant) as (Hcreated & _);
      [reflexivity | reflexivity | vm_compute; reflexivity | vm_compute; reflexivity
      | reflexivity |].
    edestruct Hcreated as [Hresult _]; [vm_compute; reflexivity|].
    by rewrite Hresult.
  - edestruct (replicateWorkflowStarted_first_create 1 contextR2 started None "B"
                 (History startBatch) startedBuilder)
      with (s := restarted) as (_ & _ & Hduplicate);
      [reflexivity | reflexivity | vm_compute; reflexivity | vm_compute; reflexivity
      | reflexivity |].
    edestruct Hduplicate as (s4 & Hresult & Hcalls); [vm_compute; reflexivity|].
    exists s4. split; [exact Hresult|]. rewrite Hcalls.
    by rewrite last_app.
Defined.
